(** * OpenShift AI Manager: the state-convergence orchestrator

    A shallow embedding of [core/cluster_manager.py] and
    [core/addon_manager.py].  The two manager classes drive external
    command-line tools through [subprocess.run], wait with [time.sleep],
    and keep request bodies in temporary files.  Every such effect is an
    explicit step on a [state] record; the behaviour of the outside world
    is an [environment] of oracles, so that every theorem quantifies over
    all behaviours of the external tools. *)

From stdpp Require Import gmap strings list pretty.
From Equations Require Import Equations.
From Stdlib Require Import ZArith Lia Ascii.

#[local] Set Warnings "-register-all".
#[local] Open Scope string_scope.
#[local] Open Scope list_scope.
#[local] Open Scope Z_scope.

(** ** Python values and string operations *)

Module Py.

(** Values that travel through [json.loads], [json.dump] and the
    attributes typed [Optional[str]].  [JNull] is Python's [None].
    Numbers are integers; no float occurs in the modelled paths. *)
Inductive json : Type :=
| JNull
| JBool (b : bool)
| JNum (n : Z)
| JStr (s : string)
| JList (l : list json)
| JObj (kvs : list (string * json)).

(** Truth value of a Python object, as used by [if x:] and [if not x:]. *)
Definition truthy (v : json) : bool :=
  match v with
  | JNull => false
  | JBool b => b
  | JNum n => negb (n =? 0)
  | JStr s => negb (String.eqb s "")
  | JList l => match l with [] => false | _ => true end
  | JObj kvs => match kvs with [] => false | _ => true end
  end.

(** Dictionaries are association lists without repeated keys, in
    insertion order. *)
Fixpoint dict_get (k : string) (kvs : list (string * json)) : option json :=
  match kvs with
  | [] => None
  | (k', v) :: rest => if String.eqb k k' then Some v else dict_get k rest
  end.

(** [d[k] = v]: replaces the value of an existing key, appends a new one. *)
Fixpoint dict_set (k : string) (v : json) (kvs : list (string * json))
  : list (string * json) :=
  match kvs with
  | [] => [(k, v)]
  | (k', v') :: rest =>
      if String.eqb k k' then (k, v) :: rest else (k', v') :: dict_set k v rest
  end.

(** [k in d] for a dictionary [d]. *)
Definition dict_has (k : string) (kvs : list (string * json)) : bool :=
  match dict_get k kvs with Some _ => true | None => false end.

(** Exceptions, by class.  A [TimeoutError] of the managers carries the
    text before the number of minutes and the timeout in seconds (the
    message divides it by 60). *)
Inductive exn : Type :=
| CalledProcessError (cmd : list string) (returncode : Z)
| FileNotFoundError (program : string)
| JSONDecodeError (doc : string)
| ValueError (msg : string)
| RuntimeError (msg : string)
| TimeoutError (subject : string) (timeout : Z)
| AttributeError (msg : string)
| TypeError (msg : string).

Inductive res (A : Type) : Type :=
| Ok (a : A)
| Raise (e : exn).
Arguments Ok {A} a.
Arguments Raise {A} e.

#[global] Instance res_ret : MRet res := @Ok.
#[global] Instance res_bind : MBind res :=
  fun A B k r => match r with Ok a => k a | Raise e => Raise e end.

(** [except ValueError] also catches [json.JSONDecodeError], its subclass. *)
Definition is_ValueError (e : exn) : bool :=
  match e with ValueError _ | JSONDecodeError _ => true | _ => false end.

Definition is_CalledProcessError (e : exn) : bool :=
  match e with CalledProcessError _ _ => true | _ => false end.

Definition is_TimeoutError (e : exn) : bool :=
  match e with TimeoutError _ _ => true | _ => false end.


Definition is_RuntimeError (e : exn) : bool :=
  match e with RuntimeError _ => true | _ => false end.

(** [d.get(k, default)]: only a dictionary has the method. *)
Definition get (d : json) (k : string) (default : json) : res json :=
  match d with
  | JObj kvs => Ok (match dict_get k kvs with Some v => v | None => default end)
  | _ => Raise (AttributeError "object has no attribute 'get'")
  end.

(** [for x in v]: the items a [for] loop visits, for the JSON values that
    are iterable. *)
Definition iter (v : json) : res (list json) :=
  match v with
  | JList l => Ok l
  | JObj kvs => Ok (map (fun kv => JStr (fst kv)) kvs)
  | JStr s => Ok (map (fun c => JStr (String c "")) (String.list_ascii_of_string s))
  | _ => Raise (TypeError "object is not iterable")
  end.

(** [v == s] for a string literal [s]. *)
Definition eq_str (v : json) (s : string) : bool :=
  match v with JStr t => String.eqb t s | _ => false end.

(** An argument of a command line must be a string. *)
Definition as_arg (v : json) : res string :=
  match v with
  | JStr s => Ok s
  | _ => Raise (TypeError "expected str, bytes or os.PathLike object")
  end.

(** *** Strings (ASCII) *)

(** [sub in s]. *)
Fixpoint contains (sub s : string) : bool :=
  String.prefix sub s ||
  match s with
  | EmptyString => false
  | String _ s' => contains sub s'
  end.

(** The characters [str.strip] and [str.split] treat as white space. *)
Definition is_space (c : ascii) : bool :=
  let n := nat_of_ascii c in
  ((9 <=? n) && (n <=? 13) || (28 <=? n) && (n <=? 32))%nat.

Fixpoint lstrip (s : string) : string :=
  match s with
  | String c s' => if is_space c then lstrip s' else s
  | EmptyString => EmptyString
  end.

Fixpoint rstrip (s : string) : string :=
  match s with
  | EmptyString => EmptyString
  | String c s' =>
      match rstrip s' with
      | EmptyString => if is_space c then EmptyString else String c EmptyString
      | t => String c t
      end
  end.

(** [s.strip()]. *)
Definition strip (s : string) : string := rstrip (lstrip s).

(** [s.split(sep)] for a one-character separator: every separator ends a
    field, so the result is never empty. *)
Fixpoint split_on (sep : ascii) (s : string) : list string :=
  match s with
  | EmptyString => [EmptyString]
  | String c s' =>
      if Ascii.eqb c sep then EmptyString :: split_on sep s'
      else match split_on sep s' with
           | w :: ws => String c w :: ws
           | [] => [String c EmptyString]
           end
  end.

(** [s.split()]: the maximal runs of characters that are not white space. *)
Fixpoint split_ws_aux (cur : string) (s : string) : list string :=
  match s with
  | EmptyString => if String.eqb cur "" then [] else [cur]
  | String c s' =>
      if is_space c
      then (if String.eqb cur "" then split_ws_aux "" s'
            else cur :: split_ws_aux "" s')
      else split_ws_aux (cur +:+ String c EmptyString) s'
  end.

Definition split_ws (s : string) : list string := split_ws_aux "" s.

Definition lower_char (c : ascii) : ascii :=
  let n := nat_of_ascii c in
  if ((65 <=? n) && (n <=? 90))%nat then ascii_of_nat (n + 32) else c.

(** [s.lower()]. *)
Fixpoint lower (s : string) : string :=
  match s with
  | EmptyString => EmptyString
  | String c s' => String (lower_char c) (lower s')
  end.

(** [str(n)] for an integer. *)
Definition str_of_int (n : Z) : string := pretty n.

(** The double-quote character, for command lines that contain one. *)
Definition dquote : string := String (ascii_of_nat 34) EmptyString.

Definition newline : ascii := ascii_of_nat 10.

End Py.

(** ** The host: processes, clock, console and temporary files *)

Module Host.
Import Py.

(** What [subprocess.run] can meet: the program exits with a return code
    and its captured standard output, or it cannot be started. *)
Inductive proc_result : Type :=
| Exited (returncode : Z) (stdout : string)
| SpawnFailed.

(** The outside world.  [run_oracle n cmd] is the outcome of the [n]-th
    process started (counting from 0) when its command line is [cmd];
    [tmp_oracle n suffix] is the path of the [n]-th temporary file;
    [json_loads] is the JSON decoder of the Python library, [None] when it
    raises [JSONDecodeError]. *)
Record environment : Type := {
  json_loads : string -> option json;
  run_oracle : nat -> list string -> proc_result;
  tmp_oracle : nat -> string -> string
}.

(** Observable steps, in the order they happen.  [EPrint parts] is a line
    written by [print]: the [str] of each part, one after the other.
    [ECreate path doc] is a temporary file written with the document. *)
Inductive event : Type :=
| ERun (cmd : list string)
| ESleep (seconds : Z)
| EPrint (parts : list json)
| ECreate (path : string) (doc : json)
| EUnlink (path : string).

(** The mutable state: the [cluster_id] attribute of the [ClusterManager]
    instance, the trace of events, the temporary files on disk with the
    document each holds, and how many processes and temporary files have
    been created so far. *)
Record state : Type := {
  cluster_id : json;
  events : list event;
  files : gmap string json;
  ncalls : nat;
  ntemps : nat
}.

Definition log (e : event) (s : state) : state :=
  {| cluster_id := cluster_id s; events := events s ++ [e];
     files := files s; ncalls := ncalls s; ntemps := ntemps s |}.

(** Computations that may raise; the state reached is kept either way. *)
Definition M (A : Type) : Type := state -> res A * state.

Definition ret {A} (a : A) : M A := fun s => (Ok a, s).

Definition raise {A} (e : exn) : M A := fun s => (Raise e, s).

Definition bind {A B} (m : M A) (k : A -> M B) : M B :=
  fun s => match m s with
           | (Ok a, s1) => k a s1
           | (Raise e, s1) => (Raise e, s1)
           end.

#[global] Instance M_ret : MRet M := @ret.
#[global] Instance M_bind : MBind M := fun A B k m => bind m k.

(** A pure step that may raise (attribute access, type checks). *)
Definition lift {A} (r : res A) : M A := fun s => (r, s).

(** [try: body finally: cleanup].  The clean-up runs on every exit of
    [body]; an exception of the clean-up replaces the outcome. *)
Definition try_finally {A} (body : M A) (cleanup : M unit) : M A :=
  fun s => match body s with
           | (r, s1) => match cleanup s1 with
                        | (Ok _, s2) => (r, s2)
                        | (Raise e, s2) => (Raise e, s2)
                        end
           end.

(** [try: body except C: handler], for the classes [catches] accepts. *)
Definition try_except {A} (body : M A) (catches : exn -> bool)
    (handler : M A) : M A :=
  fun s => match body s with
           | (Raise e, s1) => if catches e then handler s1 else (Raise e, s1)
           | ok => ok
           end.

Definition print (parts : list json) : M unit :=
  fun s => (Ok (), log (EPrint parts) s).

(** [time.sleep(seconds)]. *)
Definition sleep (seconds : Z) : M unit :=
  fun s => (Ok (), log (ESleep seconds) s).

(** [self.cluster_id] and [self.cluster_id = v]. *)
Definition get_cluster_id_attr : M json := fun s => (Ok (cluster_id s), s).

Definition set_cluster_id_attr (v : json) : M unit :=
  fun s => (Ok (), {| cluster_id := v; events := events s; files := files s;
                      ncalls := ncalls s; ntemps := ntemps s |}).

(** What [subprocess.run(cmd, check=True)] makes of an outcome: the
    captured standard output; a non-zero return code raises
    [CalledProcessError]. *)
Definition checked (cmd : list string) (r : proc_result) : res string :=
  match r with
  | Exited code out =>
      if code =? 0 then Ok out else Raise (CalledProcessError cmd code)
  | SpawnFailed => Raise (FileNotFoundError (hd "" cmd))
  end.

(** The state after one more process was started. *)
Definition started (cmd : list string) (s : state) : state :=
  {| cluster_id := cluster_id s; events := events s ++ [ERun cmd];
     files := files s; ncalls := S (ncalls s); ntemps := ntemps s |}.

Section WithEnvironment.
Variable E : environment.

(** [subprocess.run(cmd, check=True)]. *)
Definition run (cmd : list string) : M string :=
  fun s => (checked cmd (run_oracle E (ncalls s) cmd), started cmd s).

(** [json.loads(doc)]. *)
Definition loads (doc : string) : M json :=
  match json_loads E doc with
  | Some v => ret v
  | None => raise (JSONDecodeError doc)
  end.

(** [with tempfile.NamedTemporaryFile(mode='w', suffix=..., delete=False)
    as f: dump(doc, f); temp_file = f.name]: a new file that holds the
    document and stays on disk; the result is its path. *)
Definition named_temporary_file (suffix : string) (doc : json) : M string :=
  fun s =>
    let path := tmp_oracle E (ntemps s) suffix in
    (Ok path,
     {| cluster_id := cluster_id s; events := events s ++ [ECreate path doc];
        files := <[path := doc]> (files s); ncalls := ncalls s;
        ntemps := S (ntemps s) |}).

End WithEnvironment.

(** [Path(path).unlink(missing_ok=True)]. *)
Definition unlink (path : string) : M unit :=
  fun s => (Ok (),
            {| cluster_id := cluster_id s; events := events s ++ [EUnlink path];
               files := delete path (files s); ncalls := ncalls s;
               ntemps := ntemps s |}).

(** Views of a trace. *)
Definition runs (tr : list event) : list (list string) :=
  omap (fun e => match e with ERun cmd => Some cmd | _ => None end) tr.

Definition sleeps (tr : list event) : list Z :=
  omap (fun e => match e with ESleep n => Some n | _ => None end) tr.

(** For each run of a command [is_probe] accepts, the time slept since the
    trace began ([elapsed] before it). *)
Fixpoint probe_times (is_probe : list string -> bool) (elapsed : Z)
    (tr : list event) : list Z :=
  match tr with
  | [] => []
  | ERun cmd :: tr' =>
      if is_probe cmd then elapsed :: probe_times is_probe elapsed tr'
      else probe_times is_probe elapsed tr'
  | ESleep n :: tr' => probe_times is_probe (elapsed + n) tr'
  | _ :: tr' => probe_times is_probe elapsed tr'
  end.

(** The events of [s'] that are not yet in [s]. *)
Definition since (s s' : state) : list event :=
  drop (length (events s)) (events s').

End Host.

(** ** The configuration model ([models/]) *)

Module Models.
Import Py.

Inductive platform : Type := Prod | Stage.

(** [models/ocm.py]. *)
Record OCMConfig : Type := {
  token : string;
  ocm_platform : platform;
  cli_binary_url : string;
  verbose_level : Z
}.

(** [models/credentials.py]. *)
Record AWSCredentials : Type := {
  access_key_id : string;
  secret_access_key : string;
  account_id : string
}.

Record GCPCredentials : Type := {
  project_id : string;
  private_key_id : string;
  private_key : string;
  client_id : string;
  client_email : string;
  client_x509_cert_url : string;
  auth_type : string;
  auth_uri : string;
  token_uri : string;
  auth_provider_x509_cert_url : string
}.

(** [models/cluster.py].  [cloud_provider] is [Literal["aws", "gcp"]]. *)
Inductive provider : Type := Aws | Gcp.

Definition provider_id (p : provider) : string :=
  match p with Aws => "aws" | Gcp => "gcp" end.

Record ClusterNodes : Type := {
  compute : Z;
  compute_machine_type : string
}.

Record ClusterVersion : Type := {
  channel_group : string;
  version_id : option string
}.

Record ClusterRegion : Type := { region_id : string }.

Record ClusterConfig : Type := {
  name : string;
  cloud_provider : provider;
  region : ClusterRegion;
  version : ClusterVersion;
  nodes : ClusterNodes;
  fips : bool;
  multi_az : bool;
  team : string;
  aws_credentials : option AWSCredentials;
  gcp_credentials : option GCPCredentials
}.

(** [models/addons.py] and [models/machine_pool.py]. *)
Record RHODSConfig : Type := {
  notification_email : string;
  addon_name : string;
  install_dependencies : bool
}.

Record GPUAddonConfig : Type := { gpu_addon_name : string }.

Record MachinePoolConfig : Type := {
  pool_name : string;
  instance_type : string;
  node_count : Z;
  reuse_existing : bool
}.

End Models.

(** ** [core/cluster_manager.py] *)

Module ClusterManager.
Import Py Host Models.

(** [spec[k][k2] = v] where [spec[k]] is a dictionary. *)
Fixpoint dict_set_in (k k2 : string) (v : json) (kvs : list (string * json))
  : list (string * json) :=
  match kvs with
  | [] => []
  | (k', d) :: rest =>
      if String.eqb k k'
      then (k', match d with JObj inner => JObj (dict_set k2 v inner) | _ => d end)
           :: rest
      else (k', d) :: dict_set_in k k2 v rest
  end.

Definition _generate_cluster_spec (config : ClusterConfig)
  : list (string * json) :=
  let spec :=
    [ ("name", JStr (name config));
      ("cloud_provider",
        JObj [("id", JStr (provider_id (cloud_provider config)))]);
      ("version",
        JObj [("channel_group", JStr (channel_group (version config)))]);
      ("fips", JBool (fips config));
      ("region", JObj [("id", JStr (region_id (region config)))]);
      ("multi_az", JBool (multi_az config));
      ("product", JObj [("id", JStr "osd")]);
      ("ccs", JObj [("enabled", JBool true)]);
      ("nodes",
        JObj [ ("compute", JNum (compute (nodes config)));
               ("compute_machine_type",
                 JObj [("id", JStr (compute_machine_type (nodes config)))]) ]) ]
  in
  (* Add version ID if specified *)
  let spec :=
    match version_id (version config) with
    | Some vid =>
        if truthy (JStr vid)
        then dict_set_in "version" "id" (JStr ("openshift-v" +:+ vid)) spec
        else spec
    | None => spec
    end in
  (* Add cloud-specific credentials *)
  match cloud_provider config, aws_credentials config, gcp_credentials config with
  | Aws, Some aws, _ =>
      dict_set "aws"
        (JObj [ ("access_key_id", JStr (access_key_id aws));
                ("secret_access_key", JStr (secret_access_key aws));
                ("account_id", JStr (account_id aws));
                ("tags", JObj [("team", JStr (team config))]) ]) spec
  | Gcp, _, Some gcp =>
      dict_set "gcp"
        (JObj [ ("project_id", JStr (project_id gcp));
                ("private_key_id", JStr (private_key_id gcp));
                ("private_key", JStr (private_key gcp));
                ("client_id", JStr (client_id gcp));
                ("client_email", JStr (client_email gcp));
                ("client_x509_cert_url", JStr (client_x509_cert_url gcp));
                ("type", JStr (auth_type gcp));
                ("auth_uri", JStr (auth_uri gcp));
                ("token_uri", JStr (token_uri gcp));
                ("auth_provider_x509_cert_url",
                  JStr (auth_provider_x509_cert_url gcp)) ]) spec
  | _, _, _ => spec
  end.

Section Methods.
Variable E : environment.
Variable ocm_config : OCMConfig.

(** The search expression of [ocm list clusters -p]. *)
Definition search_arg (cluster_name : string) : string :=
  "search=" +:+ dquote +:+ "name = '" +:+ cluster_name +:+ "' or id = '"
  +:+ cluster_name +:+ "' or external_id = '" +:+ cluster_name +:+ "'"
  +:+ dquote.

Definition list_clusters_cmd (cluster_name : string) : list string :=
  ["ocm"; "list"; "clusters"; "-p"; search_arg cluster_name;
   "--columns"; "id"; "--no-headers"].

Definition _get_cluster_id (cluster_name : string) : M json :=
  cached ← get_cluster_id_attr;
  if truthy cached then ret cached
  else
    out ← run E (list_clusters_cmd cluster_name);
    let cluster_id := strip out in
    if negb (truthy (JStr cluster_id))
    then raise (ValueError ("Cluster not found: " +:+ cluster_name))
    else set_cluster_id_attr (JStr cluster_id);; ret (JStr cluster_id).

Definition describe_cmd (cid : string) : list string :=
  ["ocm"; "describe"; "cluster"; cid; "--json"].

Definition _get_cluster_state (cluster_id : json) : M json :=
  cid ← lift (as_arg cluster_id);
  out ← run E (describe_cmd cid);
  cluster_info ← loads E out;
  lift (get cluster_info "state" (JStr "unknown")).

Definition create_cmd (temp_file : string) : list string :=
  ["ocm"; "--v=" +:+ str_of_int (verbose_level ocm_config); "post";
   "/api/clusters_mgmt/v1/clusters"; "--body=" +:+ temp_file].

Definition create_cluster (config : ClusterConfig) : M json :=
  print [JStr "Creating cluster: "; JStr (name config)];;
  let cluster_spec := JObj (_generate_cluster_spec config) in
  temp_file ← named_temporary_file E ".json" cluster_spec;
  try_finally
    (out ← run E (create_cmd temp_file);
     response ← loads E out;
     cid ← lift (get response "id" JNull);
     set_cluster_id_attr cid;;
     cur ← get_cluster_id_attr;
     print [JStr "Cluster creation initiated. ID: "; cur];;
     get_cluster_id_attr)
    (unlink temp_file).

Equations? wait_for_cluster_ready_loop (cluster_name : string) (timeout : Z)
    (cluster_id : json) (count : Z) : M unit
    by wf (Z.to_nat (timeout - count + 1)) lt :=
  wait_for_cluster_ready_loop cluster_name timeout cluster_id count
      with Z_le_gt_dec count timeout => {
    | left _ :=
        state ← _get_cluster_state cluster_id;
        if eq_str state "ready" then
          print [JStr "Cluster "; JStr cluster_name; JStr " is ready"];;
          print [JStr "Waiting additional 5 minutes for services to stabilize..."];;
          sleep 300;;
          ret ()
        else if eq_str state "error" then
          raise (RuntimeError ("Cluster " +:+ cluster_name +:+ " is in error state"))
        else
          print [JStr "Cluster state: "; state; JStr ". Waiting..."];;
          sleep 60;;
          wait_for_cluster_ready_loop cluster_name timeout cluster_id (count + 60)
    | right _ :=
        raise (TimeoutError ("Cluster " +:+ cluster_name +:+ " not ready after ")
                 timeout) }.
Proof. lia. Qed.

Definition wait_for_cluster_ready (cluster_name : string) (timeout : Z)
  : M unit :=
  print [JStr "Waiting for cluster to be ready..."];;
  cluster_id ← _get_cluster_id cluster_name;
  wait_for_cluster_ready_loop cluster_name timeout cluster_id 0.

(** The body of the [try] statement of the deletion wait returns [true]
    when the loop goes on, its handler [false] when the method returns. *)
Equations? _wait_for_cluster_deleted_loop (cluster_name : string)
    (timeout count : Z) : M unit
    by wf (Z.to_nat (timeout - count + 1)) lt :=
  _wait_for_cluster_deleted_loop cluster_name timeout count
      with Z_le_gt_dec count timeout => {
    | left _ :=
        again ← try_except
          (_get_cluster_id cluster_name;;
           print [JStr "Cluster still exists, waiting..."];;
           sleep 60;;
           ret true)
          is_ValueError
          (print [JStr "Cluster "; JStr cluster_name;
                  JStr " deleted successfully"];;
           ret false);
        if (again : bool)
        then _wait_for_cluster_deleted_loop cluster_name timeout (count + 60)
        else ret ()
    | right _ :=
        raise (TimeoutError
                 ("Cluster " +:+ cluster_name +:+ " not deleted after ")
                 timeout) }.
Proof. lia. Qed.

Definition _wait_for_cluster_deleted (cluster_name : string) (timeout : Z)
  : M unit :=
  print [JStr "Waiting for cluster deletion to complete..."];;
  _wait_for_cluster_deleted_loop cluster_name timeout 0.

Definition delete_cmd (cid : string) : list string :=
  ["ocm"; "--v=" +:+ str_of_int (verbose_level ocm_config); "delete";
   "cluster"; cid].

Definition delete_cluster (cluster_name : string) : M unit :=
  cluster_id ← _get_cluster_id cluster_name;
  cid ← lift (as_arg cluster_id);
  run E (delete_cmd cid);;
  print [JStr "Cluster deletion initiated: "; JStr cluster_name];;
  (* Wait for deletion to complete *)
  _wait_for_cluster_deleted cluster_name 5400.

Definition get_cluster_info (cluster_name : string) : M json :=
  cluster_id ← _get_cluster_id cluster_name;
  cid ← lift (as_arg cluster_id);
  out ← run E (describe_cmd cid);
  cluster_info ← loads E out;
  i_name ← lift (get cluster_info "name" JNull);
  i_id ← lift (get cluster_info "id" JNull);
  i_state ← lift (get cluster_info "state" JNull);
  v ← lift (get cluster_info "version" (JObj []));
  i_version ← lift (get v "raw_id" JNull);
  c ← lift (get cluster_info "console" (JObj []));
  i_console ← lift (get c "url" JNull);
  a ← lift (get cluster_info "api" (JObj []));
  i_api ← lift (get a "url" JNull);
  ret (JObj [ ("name", i_name); ("id", i_id); ("state", i_state);
              ("version", i_version); ("console_url", i_console);
              ("api_url", i_api) ]).


End Methods.

End ClusterManager.

(** ** [core/addon_manager.py] *)

Module AddonManager.
Import Py Host Models.

(** [name.lower()]: a method of strings only. *)
Definition str_lower (v : json) : res string :=
  match v with
  | JStr s => Ok (lower s)
  | _ => Raise (AttributeError "object has no attribute 'lower'")
  end.

(** The [for line in result.stdout.split(newline)] scan of the add-on
    listing: the second field of the first line that contains the add-on
    name and has at least two fields. *)
Fixpoint scan_addon_lines (addon_name : string) (lines : list string)
  : string :=
  match lines with
  | [] => "not installed"
  | line :: rest =>
      if contains addon_name line then
        match split_ws (strip line) with
        | _ :: st :: _ => st
        | _ => scan_addon_lines addon_name rest
        end
      else scan_addon_lines addon_name rest
  end.

(** The [for csv in csvs.get("items", [])] scan of the operator wait:
    [true] when the first CSV whose lower-cased name contains the operator
    name has phase [Succeeded] (the method returns), [false] when the loop
    ends or breaks. *)
Fixpoint scan_csvs (operator_name : string) (items : list json) : res bool :=
  match items with
  | [] => Ok false
  | csv :: rest =>
      metadata ← get csv "metadata" (JObj []);
      name ← get metadata "name" (JStr "");
      lname ← str_lower name;
      if contains operator_name lname then
        status ← get csv "status" (JObj []);
        phase ← get status "phase" (JStr "");
        Ok (eq_str phase "Succeeded")
      else scan_csvs operator_name rest
  end.

(** [for x in l: body(x)]. *)
Fixpoint for_each {A} (l : list A) (body : A -> M unit) : M unit :=
  match l with
  | [] => ret ()
  | x :: rest => body x;; for_each rest body
  end.

(** The three operators RHOAI depends on: name, channel, catalog source. *)
Definition dependencies : list (string * string * string) :=
  [ ("authorino-operator", "tech-preview-v1", "redhat-operators");
    ("servicemeshoperator", "stable", "redhat-operators");
    ("serverless-operator", "stable", "redhat-operators") ].

Definition subscription_spec (operator_name channel source : string) : json :=
  JObj [ ("apiVersion", JStr "operators.coreos.com/v1alpha1");
         ("kind", JStr "Subscription");
         ("metadata", JObj [ ("name", JStr operator_name);
                             ("namespace", JStr "openshift-operators") ]);
         ("spec", JObj [ ("channel", JStr channel);
                         ("name", JStr operator_name);
                         ("source", JStr source);
                         ("sourceNamespace", JStr "openshift-marketplace") ]) ].

Definition rhods_addon_spec (cluster_id : string) (config : RHODSConfig)
  : json :=
  JObj [ ("kind", JStr "Cluster");
         ("href", JStr ("/api/clusters_mgmt/v1/clusters/" +:+ cluster_id));
         ("addon",
           JObj [ ("kind", JStr "AddOn");
                  ("href", JStr ("/api/clusters_mgmt/v1/addons/"
                                 +:+ addon_name config));
                  ("id", JStr (addon_name config)) ]);
         ("parameters",
           JObj [ ("items",
                    JList [ JObj [ ("id", JStr "notification-email");
                                   ("value",
                                     JStr (notification_email config)) ] ]) ]) ].

Definition gpu_addon_spec (cluster_id : string) (config : GPUAddonConfig)
  : json :=
  JObj [ ("kind", JStr "Cluster");
         ("href", JStr ("/api/clusters_mgmt/v1/clusters/" +:+ cluster_id));
         ("addon",
           JObj [ ("kind", JStr "AddOn");
                  ("href", JStr ("/api/clusters_mgmt/v1/addons/"
                                 +:+ gpu_addon_name config));
                  ("id", JStr (gpu_addon_name config)) ]) ].

Definition apply_cmd (temp_file : string) : list string :=
  ["oc"; "apply"; "-f"; temp_file].

Definition get_csv_cmd : list string :=
  ["oc"; "get"; "csv"; "-n"; "openshift-operators"; "-o"; "json"].

Definition list_addons_cmd (cluster_id : string) : list string :=
  ["ocm"; "list"; "addons"; "--cluster"; cluster_id; "--columns"; "id,state"].

Definition list_machinepools_cmd (cluster_id : string) : list string :=
  ["ocm"; "list"; "machinepools"; "--cluster"; cluster_id].

Section Methods.
Variable E : environment.
Variable ocm_config : OCMConfig.

Definition _get_cluster_id (cluster_name : string) : M string :=
  out ← run E (ClusterManager.list_clusters_cmd cluster_name);
  let cluster_id := strip out in
  if negb (truthy (JStr cluster_id))
  then raise (ValueError ("Cluster not found: " +:+ cluster_name))
  else ret cluster_id.

Definition _machine_pool_exists (cluster_id pool_name : string) : M bool :=
  out ← run E (list_machinepools_cmd cluster_id);
  ret (contains pool_name out).

Definition _get_addon_state_by_id (cluster_id addon_name : string)
  : M string :=
  out ← run E (list_addons_cmd cluster_id);
  ret (scan_addon_lines addon_name (split_on newline out)).

Equations? _wait_for_addon_ready_loop (cluster_id addon_name : string)
    (timeout count : Z) : M unit
    by wf (Z.to_nat (timeout - count + 1)) lt :=
  _wait_for_addon_ready_loop cluster_id addon_name timeout count
      with Z_le_gt_dec count timeout => {
    | left _ :=
        state ← _get_addon_state_by_id cluster_id addon_name;
        if String.eqb state "ready" then
          print [JStr "Addon '"; JStr addon_name; JStr "' is ready"];;
          ret ()
        else if String.eqb state "failed" then
          raise (RuntimeError
                   ("Addon '" +:+ addon_name +:+ "' installation failed"))
        else
          print [JStr "Addon state: "; JStr state; JStr ". Waiting..."];;
          sleep 60;;
          _wait_for_addon_ready_loop cluster_id addon_name timeout (count + 60)
    | right _ :=
        raise (TimeoutError ("Addon '" +:+ addon_name +:+ "' not ready after ")
                 timeout) }.
Proof. lia. Qed.

Definition _wait_for_addon_ready (cluster_id addon_name : string)
    (timeout : Z) : M unit :=
  print [JStr "Waiting for addon '"; JStr addon_name; JStr "' to be ready..."];;
  _wait_for_addon_ready_loop cluster_id addon_name timeout 0.

Definition addon_post_cmd (cluster_id temp_file : string) : list string :=
  ["ocm"; "--v=" +:+ str_of_int (verbose_level ocm_config); "post";
   "/api/clusters_mgmt/v1/clusters/" +:+ cluster_id +:+ "/addons";
   "--body=" +:+ temp_file].

Definition _install_addon (cluster_id : string) (addon_spec : json)
  : M unit :=
  temp_file ← named_temporary_file E ".json" addon_spec;
  try_finally
    (run E (addon_post_cmd cluster_id temp_file);; ret ())
    (unlink temp_file).

Definition _install_operator (operator_name channel source : string)
  : M unit :=
  temp_file ← named_temporary_file E ".yaml"
                (subscription_spec operator_name channel source);
  try_finally
    (run E (apply_cmd temp_file);; ret ())
    (unlink temp_file).

(** The [try] statement of the operator wait returns [true] when the
    method returns from inside it. *)
Definition csv_probe (operator_name : string) : M bool :=
  try_except
    (out ← run E get_csv_cmd;
     csvs ← loads E out;
     items ← lift (get csvs "items" (JList []));
     l ← lift (iter items);
     ready ← lift (scan_csvs operator_name l);
     if (ready : bool) then
       print [JStr operator_name; JStr " is ready"];; ret true
     else ret false)
    is_CalledProcessError
    (ret false).

Equations? _wait_for_operator_ready_loop (operator_name : string)
    (timeout count : Z) : M unit
    by wf (Z.to_nat (timeout - count + 1)) lt :=
  _wait_for_operator_ready_loop operator_name timeout count
      with Z_le_gt_dec count timeout => {
    | left _ :=
        returned ← csv_probe operator_name;
        if (returned : bool) then ret ()
        else
          sleep 10;;
          _wait_for_operator_ready_loop operator_name timeout (count + 10)
    | right _ :=
        print [JStr "Warning: "; JStr operator_name;
               JStr " may not be fully ready"] }.
Proof. lia. Qed.

Definition _wait_for_operator_ready (operator_name : string) (timeout : Z)
  : M unit :=
  print [JStr "Waiting for "; JStr operator_name; JStr " to be ready..."];;
  _wait_for_operator_ready_loop operator_name timeout 0.

(** One turn of the loop over [dependencies]. *)
Definition install_dependency (d : string * string * string) : M unit :=
  let '(operator_name, channel, source) := d in
  print [JStr "Installing "; JStr operator_name; JStr "..."];;
  _install_operator operator_name channel source;;
  _wait_for_operator_ready operator_name 300.

Definition _install_dependency_operators : M unit :=
  print [JStr "Installing dependency operators..."];;
  for_each dependencies install_dependency.

Definition install_rhods (cluster_name : string) (config : RHODSConfig)
  : M unit :=
  print [JStr "Installing RHODS on cluster: "; JStr cluster_name];;
  cluster_id ← _get_cluster_id cluster_name;
  (* Install dependency operators if enabled *)
  (if install_dependencies config then _install_dependency_operators
   else ret ());;
  (* Install RHODS addon *)
  _install_addon cluster_id (rhods_addon_spec cluster_id config);;
  _wait_for_addon_ready cluster_id (addon_name config) 3600;;
  print [JStr "RHODS installation completed"];;
  (* Additional wait for services to stabilize *)
  print [JStr "Waiting additional 5 minutes for services to stabilize..."];;
  sleep 300.

Definition install_gpu_addon (cluster_name : string) (config : GPUAddonConfig)
  : M unit :=
  print [JStr "Installing GPU addon on cluster: "; JStr cluster_name];;
  cluster_id ← _get_cluster_id cluster_name;
  _install_addon cluster_id (gpu_addon_spec cluster_id config);;
  _wait_for_addon_ready cluster_id (gpu_addon_name config) 3600;;
  print [JStr "GPU addon installation completed"];;
  (* Additional wait for services to stabilize *)
  print [JStr "Waiting additional 5 minutes for services to stabilize..."];;
  sleep 300.

Definition create_machinepool_cmd (cluster_id : string)
    (config : MachinePoolConfig) : list string :=
  ["ocm"; "--v=" +:+ str_of_int (verbose_level ocm_config);
   "create"; "machinepool"; "--cluster"; cluster_id;
   "--instance-type"; instance_type config;
   "--replicas"; str_of_int (node_count config);
   pool_name config].

Definition add_machine_pool (cluster_name : string)
    (config : MachinePoolConfig) : M unit :=
  print [JStr "Adding machine pool '"; JStr (pool_name config);
         JStr "' to cluster: "; JStr cluster_name];;
  cluster_id ← _get_cluster_id cluster_name;
  (* Check if machine pool already exists and reuse if configured *)
  reuse ← (if reuse_existing config
           then _machine_pool_exists cluster_id (pool_name config)
           else ret false);
  if (reuse : bool) then
    print [JStr "Machine pool '"; JStr (pool_name config);
           JStr "' already exists, reusing it"]
  else
    run E (create_machinepool_cmd cluster_id config);;
    print [JStr "Machine pool '"; JStr (pool_name config);
           JStr "' added successfully"];;
    (* Wait for machine pool to be ready *)
    sleep 60.

Definition get_addon_state (cluster_name addon_name : string) : M string :=
  cluster_id ← _get_cluster_id cluster_name;
  out ← run E (list_addons_cmd cluster_id);
  ret (scan_addon_lines addon_name (split_on newline out)).

Definition list_addons_json_cmd (cluster_id : string) : list string :=
  ["ocm"; "list"; "addons"; "--cluster"; cluster_id; "--output"; "json"].

Definition list_addons (cluster_name : string) : M json :=
  cluster_id ← _get_cluster_id cluster_name;
  out ← run E (list_addons_json_cmd cluster_id);
  addons_data ← loads E out;
  lift (get addons_data "items" (JList [])).

Equations? _wait_for_addon_uninstalled_loop (cluster_id addon_name : string)
    (timeout count : Z) : M unit
    by wf (Z.to_nat (timeout - count + 1)) lt :=
  _wait_for_addon_uninstalled_loop cluster_id addon_name timeout count
      with Z_le_gt_dec count timeout => {
    | left _ :=
        state ← _get_addon_state_by_id cluster_id addon_name;
        if String.eqb state "not installed" then
          print [JStr "Addon '"; JStr addon_name;
                 JStr "' uninstalled successfully"];;
          ret ()
        else
          print [JStr "Addon state: "; JStr state; JStr ". Waiting..."];;
          sleep 60;;
          _wait_for_addon_uninstalled_loop cluster_id addon_name timeout
            (count + 60)
    | right _ :=
        raise (TimeoutError
                 ("Addon '" +:+ addon_name +:+ "' not uninstalled after ")
                 timeout) }.
Proof. lia. Qed.

Definition _wait_for_addon_uninstalled (cluster_id addon_name : string)
    (timeout : Z) : M unit :=
  print [JStr "Waiting for addon '"; JStr addon_name;
         JStr "' to be uninstalled..."];;
  _wait_for_addon_uninstalled_loop cluster_id addon_name timeout 0.

Definition addon_delete_cmd (cluster_id addon_name : string) : list string :=
  ["ocm"; "--v=" +:+ str_of_int (verbose_level ocm_config); "delete";
   "/api/clusters_mgmt/v1/clusters/" +:+ cluster_id +:+ "/addons/"
   +:+ addon_name].

Definition uninstall_addon (cluster_name addon_name : string) : M unit :=
  print [JStr "Uninstalling addon '"; JStr addon_name;
         JStr "' from cluster: "; JStr cluster_name];;
  cluster_id ← _get_cluster_id cluster_name;
  run E (addon_delete_cmd cluster_id addon_name);;
  _wait_for_addon_uninstalled cluster_id addon_name 3600;;
  print [JStr "Addon '"; JStr addon_name; JStr "' uninstalled successfully"].

End Methods.

End AddonManager.

(** ** Sessions, polling schedules and probe replies

    The vocabulary of the statements below: a sequence of method calls on
    one [ClusterManager] instance, the schedule of a polling loop, and what
    each probe makes of the outcome of its process. *)

Module Session.
Import Py Host Models.

(** A call of a method of one [ClusterManager] instance. *)
Inductive call : Type :=
| Create (config : ClusterConfig)
| WaitReady (cluster_name : string) (timeout : Z)
| Delete (cluster_name : string)
| Info (cluster_name : string)
| GetId (cluster_name : string)
| GetState (cluster_id : json)
| WaitDeleted (cluster_name : string) (timeout : Z).

Definition is_create (c : call) : bool :=
  match c with Create _ => true | _ => false end.

Section WithInstance.
Variable E : environment.
Variable ocm_config : OCMConfig.

Definition exec (c : call) : M unit :=
  match c with
  | Create config => ClusterManager.create_cluster E ocm_config config;; ret ()
  | WaitReady n t => ClusterManager.wait_for_cluster_ready E n t
  | Delete n => ClusterManager.delete_cluster E ocm_config n
  | Info n => ClusterManager.get_cluster_info E n;; ret ()
  | GetId n => ClusterManager._get_cluster_id E n;; ret ()
  | GetState cid => ClusterManager._get_cluster_state E cid;; ret ()
  | WaitDeleted n t => ClusterManager._wait_for_cluster_deleted E n t
  end.

(** The state after a sequence of calls; the caller goes on after a call
    that raised. *)
Fixpoint exec_all (cs : list call) (s : state) : state :=
  match cs with
  | [] => s
  | c :: cs' => exec_all cs' (snd (exec c s))
  end.

(** Every [create_cluster] call of the sequence that returns, returns an
    identifier that is true as a Python value (not [None], not empty). *)
Fixpoint creates_yield_ids (cs : list call) (s : state) : Prop :=
  match cs with
  | [] => True
  | c :: cs' =>
      match c with
      | Create config =>
          match fst (ClusterManager.create_cluster E ocm_config config s) with
          | Ok v => truthy v = true
          | Raise _ => True
          end
      | _ => True
      end
      /\ creates_yield_ids cs' (snd (exec c s))
  end.

End WithInstance.

(** The configuration invariant: the credential set of the chosen
    provider is present. *)
Definition credentials_match (config : ClusterConfig) : Prop :=
  match cloud_provider config with
  | Aws => is_Some (aws_credentials config)
  | Gcp => is_Some (gcp_credentials config)
  end.

(** The number of turns of [while count <= timeout: ...; count += step]
    that are still to come when the counter is [count]. *)
Definition polls (timeout step count : Z) : nat :=
  Z.to_nat ((timeout - count) / step + 1).

(** The values [e; e + step; ...] of a counter over [n] turns. *)
Fixpoint ticks (e step : Z) (n : nat) : list Z :=
  match n with
  | O => []
  | S n' => e :: ticks (e + step) step n'
  end.

Section Replies.
Variable E : environment.

(** What [_get_cluster_state] returns when its process ends as [r]. *)
Definition cluster_state_reply (cid : string) (r : proc_result) : res json :=
  out ← checked (ClusterManager.describe_cmd cid) r;
  match json_loads E out with
  | Some cluster_info => get cluster_info "state" (JStr "unknown")
  | None => Raise (JSONDecodeError out)
  end.

(** What [_get_addon_state_by_id] returns when its process ends as [r]. *)
Definition addon_state_reply (cid addon_name : string) (r : proc_result)
  : res string :=
  out ← checked (AddonManager.list_addons_cmd cid) r;
  Ok (AddonManager.scan_addon_lines addon_name (split_on newline out)).

(** What the [try] statement of the operator wait makes of [r]: [Ok true]
    when it saw phase [Succeeded]; a failed process counts as not ready. *)
Definition csv_reply (operator_name : string) (r : proc_result) : res bool :=
  match checked AddonManager.get_csv_cmd r with
  | Ok out =>
      match json_loads E out with
      | Some csvs =>
          items ← get csvs "items" (JList []);
          l ← iter items;
          AddonManager.scan_csvs operator_name l
      | None => Raise (JSONDecodeError out)
      end
  | Raise e => if is_CalledProcessError e then Ok false else Raise e
  end.

(** The [n]-th process, asked for the state of the cluster, reports a
    state that is neither [ready] nor [error]; or reports [error]. *)
Definition cluster_pending (cid : string) (n : nat) : Prop :=
  exists st,
    cluster_state_reply cid (run_oracle E n (ClusterManager.describe_cmd cid))
    = Ok st
    /\ eq_str st "ready" = false /\ eq_str st "error" = false.

Definition cluster_failed (cid : string) (n : nat) : Prop :=
  cluster_state_reply cid (run_oracle E n (ClusterManager.describe_cmd cid))
  = Ok (JStr "error").

(** The same for the state of an add-on: neither [ready] nor [failed]; or
    [failed]. *)
Definition addon_pending (cid addon_name : string) (n : nat) : Prop :=
  exists st,
    addon_state_reply cid addon_name
      (run_oracle E n (AddonManager.list_addons_cmd cid)) = Ok st
    /\ String.eqb st "ready" = false /\ String.eqb st "failed" = false.

Definition addon_failed (cid addon_name : string) (n : nat) : Prop :=
  addon_state_reply cid addon_name
    (run_oracle E n (AddonManager.list_addons_cmd cid)) = Ok "failed".

(** The [n]-th process, asked for the CSVs, does not show the operator
    with phase [Succeeded]. *)
Definition operator_not_ready (operator_name : string) (n : nat) : Prop :=
  csv_reply operator_name (run_oracle E n AddonManager.get_csv_cmd) = Ok false.

End Replies.

Definition is_describe (cmd : list string) : bool :=
  String.eqb (nth 1 cmd "") "describe".

Definition is_list_addons (cmd : list string) : bool :=
  String.eqb (nth 1 cmd "") "list" && String.eqb (nth 2 cmd "") "addons".

Definition is_list_clusters (cmd : list string) : bool :=
  String.eqb (nth 1 cmd "") "list" && String.eqb (nth 2 cmd "") "clusters".

Definition is_post (cmd : list string) : bool :=
  String.eqb (nth 2 cmd "") "post".

Definition is_apply (cmd : list string) : bool :=
  String.eqb (nth 0 cmd "") "oc" && String.eqb (nth 1 cmd "") "apply".

Definition is_create_machinepool (cmd : list string) : bool :=
  String.eqb (nth 2 cmd "") "create" && String.eqb (nth 3 cmd "") "machinepool".

(** An event that is not a [post] request. *)
Definition no_post (e : event) : Prop :=
  match e with
  | ERun cmd => is_post cmd = false
  | _ => True
  end.

(** The events of one operator readiness wait: CSV listings, sleeps and
    printed lines. *)
Definition wait_event (e : event) : Prop :=
  match e with
  | ERun cmd => cmd = AddonManager.get_csv_cmd
  | ESleep n => n = 10
  | EPrint _ => True
  | _ => False
  end.

(** The events of one install-and-wait cycle for a dependency: the
    subscription is written to [path] and applied, the file is removed, and
    the wait leaves the events [w]. *)
Definition cycle_events (d : string * string * string) (path : string)
    (w : list event) : list event :=
  let '(operator_name, channel, source) := d in
  [ EPrint [JStr "Installing "; JStr operator_name; JStr "..."];
    ECreate path (AddonManager.subscription_spec operator_name channel source);
    ERun (AddonManager.apply_cmd path);
    EUnlink path;
    EPrint [JStr "Waiting for "; JStr operator_name; JStr " to be ready..."] ]
  ++ w.

(** An invariant of the state that a computation keeps, whatever its
    outcome. *)
Definition preserves (I : state -> Prop) {A} (m : M A) : Prop :=
  forall s, I s -> I (snd (m s)).

(** The trace grew from that of [s0] by events that all satisfy [Q]. *)
Definition extends_with (Q : event -> Prop) (s0 s : state) : Prop :=
  exists tr, events s = events s0 ++ tr /\ Forall Q tr.

(** The cached identifier is [v]. *)
Definition holds (v : json) (s : state) : Prop := cluster_id s = v.

(** One turn of the deletion wait while the cluster still resolves. *)
Definition still_waiting (s : state) : state :=
  log (ESleep 60) (log (EPrint [JStr "Cluster still exists, waiting..."]) s).

(** One turn of the readiness wait that saw the state [st] and goes on. *)
Definition ready_turn (cid : string) (st : json) : list event :=
  [ERun (ClusterManager.describe_cmd cid);
   EPrint [JStr "Cluster state: "; st; JStr ". Waiting..."];
   ESleep 60].

(** An outcome other than a [TimeoutError]. *)
Definition not_timeout {A} (r : res A) : Prop :=
  match r with
  | Raise e => is_TimeoutError e = false
  | Ok _ => True
  end.

(** One turn of the operator wait that did not return. *)
Definition operator_turn (s : state) : state :=
  log (ESleep 10) (started AddonManager.get_csv_cmd s).

(** One turn of the add-on wait that saw the state [st] and goes on. *)
Definition addon_turn (cid st : string) : list event :=
  [ERun (AddonManager.list_addons_cmd cid);
   EPrint [JStr "Addon state: "; JStr st; JStr ". Waiting..."];
   ESleep 60].

(** The exceptions of attribute access and iteration are neither a
    [CalledProcessError] nor a [TimeoutError]. *)
Definition plain {A} (r : res A) : Prop :=
  match r with
  | Raise e => is_CalledProcessError e = false /\ is_TimeoutError e = false
  | Ok _ => True
  end.

End Session.

(** ** Further vocabulary *)

Module Observed.
Import Py Host Models Session.

(** [s] has a white-space character. *)
Fixpoint has_space (s : string) : bool :=
  match s with
  | EmptyString => false
  | String c s' => is_space c || has_space s'
  end.

Definition is_upper (c : ascii) : bool :=
  let n := nat_of_ascii c in ((65 <=? n) && (n <=? 90))%nat.

(** [s] has an upper-case ASCII letter. *)
Fixpoint has_upper (s : string) : bool :=
  match s with
  | EmptyString => false
  | String c s' => is_upper c || has_upper s'
  end.

(** A line of the add-on listing that decides the state of [addon_name]:
    it contains the name and has at least two fields. *)
Definition usable_line (addon_name line : string) : bool :=
  contains addon_name line && (2 <=? length (split_ws (strip line)))%nat.

(** A CSV of the operator listing with a name and a phase. *)
Definition csv_item (name : string) (phase : json) : json :=
  JObj [ ("metadata", JObj [("name", JStr name)]);
         ("status", JObj [("phase", phase)]) ].

(** An event that is not a run of the cluster-access tool [oc]. *)
Definition no_oc (e : event) : Prop :=
  match e with
  | ERun cmd => String.eqb (hd "" cmd) "oc" = false
  | _ => True
  end.

(** The keys of a creation request without credentials, in order. *)
Definition base_keys : list string :=
  ["name"; "cloud_provider"; "version"; "fips"; "region"; "multi_az";
   "product"; "ccs"; "nodes"].

Section Probes.
Variable E : environment.

(** The [n]-th process reports the cluster [ready]. *)
Definition cluster_ready (cid : string) (n : nat) : Prop :=
  cluster_state_reply E cid (run_oracle E n (ClusterManager.describe_cmd cid))
  = Ok (JStr "ready").

(** The [n]-th process lists the add-on as [ready]. *)
Definition addon_ready (cid addon_name : string) (n : nat) : Prop :=
  addon_state_reply cid addon_name
    (run_oracle E n (AddonManager.list_addons_cmd cid)) = Ok "ready".

(** The [n]-th process lists the add-on, in whatever state; or does not
    list it. *)
Definition addon_listed (cid addon_name : string) (n : nat) : Prop :=
  exists st,
    addon_state_reply cid addon_name
      (run_oracle E n (AddonManager.list_addons_cmd cid)) = Ok st
    /\ String.eqb st "not installed" = false.

Definition addon_unlisted (cid addon_name : string) (n : nat) : Prop :=
  addon_state_reply cid addon_name
    (run_oracle E n (AddonManager.list_addons_cmd cid)) = Ok "not installed".

(** The [n]-th process shows the operator with phase [Succeeded]. *)
Definition operator_ready (operator_name : string) (n : nat) : Prop :=
  csv_reply E operator_name (run_oracle E n AddonManager.get_csv_cmd) = Ok true.

End Probes.

(** The events of [k] turns of a wait that probes with [cmd], prints
    something and sleeps [step] seconds. *)
Inductive turns (cmd : list string) (step : Z) : nat -> list event -> Prop :=
| turns_nil : turns cmd step 0 []
| turns_cons k parts tr :
    turns cmd step k tr ->
    turns cmd step (S k) (ERun cmd :: EPrint parts :: ESleep step :: tr).

(** The outcome of a method that stopped at the lookup of [name]: the
    [ValueError] of the lookup, one process, no sleep. *)
Definition only_lookup (name : string) (s : state) {A} (r : res A * state)
  : Prop :=
  fst r = Raise (ValueError ("Cluster not found: " +:+ name))
  /\ runs (since s (snd r)) = [ClusterManager.list_clusters_cmd name]
  /\ sleeps (since s (snd r)) = [].

End Observed.

(** ** Scenarios: concrete hosts for the examples *)

Module Scenario.
Import Py Host Models.

Definition fresh : state :=
  {| cluster_id := JNull; events := []; files := ∅; ncalls := 0; ntemps := 0 |}.

Definition ocm0 : OCMConfig :=
  {| token := "t0"; ocm_platform := Stage;
     cli_binary_url := "https://example.invalid/ocm"; verbose_level := 0 |}.

(** The text of [s] up to the first [c], and the text after it. *)
Fixpoint take_until (c : ascii) (s : string) : option (string * string) :=
  match s with
  | EmptyString => None
  | String c' s' =>
      if Ascii.eqb c' c then Some (EmptyString, s')
      else match take_until c s' with
           | Some (a, b) => Some (String c' a, b)
           | None => None
           end
  end.

(** A decoder for the documents of the scenarios: the empty object and an
    object with one member whose value is a string without escapes. *)
Definition decode_flat (doc : string) : option json :=
  let q := ascii_of_nat 34 in
  if String.eqb doc "{}" then Some (JObj [])
  else
    match doc with
    | String "{" (String c rest) =>
        if Ascii.eqb c q then
          match take_until q rest with
          | Some (key, String ":" (String " " (String c2 rest2))) =>
              if Ascii.eqb c2 q then
                match take_until q rest2 with
                | Some (value, "}") => Some (JObj [(key, JStr value)])
                | _ => None
                end
              else None
          | _ => None
          end
        else None
    | _ => None
    end.

(** The document with the one member [key: value]. *)
Definition flat_doc (key value : string) : string :=
  "{" +:+ dquote +:+ key +:+ dquote +:+ ": " +:+ dquote +:+ value +:+ dquote
  +:+ "}".

Definition tmp_name (n : nat) (suffix : string) : string :=
  "/tmp/tmp" +:+ pretty n +:+ suffix.

Definition host (oracle : nat -> list string -> proc_result) : environment :=
  {| json_loads := decode_flat; run_oracle := oracle; tmp_oracle := tmp_name |}.

(** Every command succeeds and prints nothing: no add-on is listed. *)
Definition silent : environment := host (fun _ _ => Exited 0 "").

(** The cluster [demo] is known as [abc123] until its deletion is
    submitted (the second process); afterwards no cluster is listed. *)
Definition deleting : environment :=
  host (fun n cmd =>
          if Session.is_list_clusters cmd
          then (if (n <? 2)%nat then Exited 0 "abc123" else Exited 0 "")
          else Exited 0 "").

(** The name resolves to [id-one] first and to [id-two] afterwards. *)
Definition renamed : environment :=
  host (fun n cmd => if (n =? 0)%nat then Exited 0 "id-one"
                     else Exited 0 "id-two").

(** Cluster creation answers with an object that has no [id]; names
    resolve to [abc123]. *)
Definition no_id : environment :=
  host (fun n cmd => if Session.is_post cmd then Exited 0 "{}"
                     else Exited 0 "abc123").

(** Cluster creation answers with the id [new42]; names resolve to
    [abc123]; the cluster stays in state [installing]. *)
Definition creating : environment :=
  host (fun n cmd =>
          if Session.is_post cmd then Exited 0 (flat_doc "id" "new42")
          else if Session.is_describe cmd
               then Exited 0 (flat_doc "state" "installing")
               else Exited 0 "abc123").

(** The cluster is [installing] at the first describe call and in state
    [error] at the second; the add-on is [installing], then [failed]. *)
Definition failing : environment :=
  host (fun n cmd =>
          if Session.is_describe cmd
          then Exited 0 (flat_doc "state"
                           (if (n <? 1)%nat then "installing" else "error"))
          else if Session.is_list_addons cmd
               then Exited 0 (if (n <? 1)%nat then "managed-odh installing"
                              else "managed-odh failed")
               else Exited 0 "abc123").

(** The cluster-access tool fails every time. *)
Definition oc_down : environment :=
  host (fun n cmd => if String.eqb (hd "" cmd) "oc" then Exited 1 ""
                     else Exited 0 "abc123").

(** Names resolve to [abc123]; no CSV is ever listed; the add-on is ready
    as soon as it is installed; the pool [gpunode] exists. *)
Definition healthy : environment :=
  host (fun n cmd =>
          if Session.is_list_clusters cmd then Exited 0 "abc123"
          else if Session.is_list_addons cmd then Exited 0 "managed-odh ready"
          else if String.eqb (hd "" cmd) "oc" then Exited 0 "{}"
          else Exited 0 "ID  gpunode  g4dn.xlarge").

Definition aws_demo : ClusterConfig :=
  {| name := "demo"; cloud_provider := Aws;
     region := {| region_id := "us-east-1" |};
     version := {| channel_group := "stable"; version_id := None |};
     nodes := {| compute := 3; compute_machine_type := "m5.2xlarge" |};
     fips := false; multi_az := false; team := "unknown-team";
     aws_credentials := Some {| access_key_id := "AK"; secret_access_key := "SK";
                                account_id := "42" |};
     gcp_credentials := None |}.

Definition rhods_demo : RHODSConfig :=
  {| notification_email := "ops@example.invalid"; addon_name := "managed-odh";
     install_dependencies := true |}.

Definition pool_demo : MachinePoolConfig :=
  {| pool_name := "gpunode"; instance_type := "g4dn.xlarge"; node_count := 1;
     reuse_existing := true |}.

Definition pool_new : MachinePoolConfig :=
  {| pool_name := "fresh-pool"; instance_type := "g4dn.xlarge"; node_count := 1;
     reuse_existing := true |}.

(** *** Further hosts and configurations *)

Import Session Observed.

(** The add-on and the cluster are [installing] at the first two probes
    and [ready] afterwards; names resolve to [abc123]. *)
Definition converging : environment :=
  host (fun n cmd =>
          if is_describe cmd
          then Exited 0 (flat_doc "state"
                           (if (n <? 2)%nat then "installing" else "ready"))
          else if is_list_addons cmd
               then Exited 0 (if (n <? 2)%nat then "managed-odh installing"
                              else "managed-odh ready")
               else Exited 0 "abc123").

(** The add-on listing fails with return code 2 at the second probe. *)
Definition flaky : environment :=
  host (fun n cmd =>
          if is_list_addons cmd
          then (if (n <? 1)%nat then Exited 0 "managed-odh installing"
                else Exited 2 "")
          else Exited 0 "abc123").

(** The add-on is listed as [deleting] by the first three processes and
    is gone afterwards. *)
Definition uninstalling : environment :=
  host (fun n cmd =>
          if is_list_addons cmd
          then (if (n <? 3)%nat then Exited 0 "managed-odh deleting"
                else Exited 0 "")
          else Exited 0 "abc123").

(** Names resolve to [abc123]; every other command fails with return
    code 1. *)
Definition refusing : environment :=
  host (fun n cmd =>
          if is_list_clusters cmd then Exited 0 "abc123" else Exited 1 "").

(** The cluster-access tool is not installed. *)
Definition oc_missing : environment :=
  host (fun n cmd => if String.eqb (hd "" cmd) "oc" then SpawnFailed
                     else Exited 0 "abc123").

(** The text of one CSV, and the listing that shows the operator with
    phase [Succeeded] after another CSV. *)
Definition csv_text (name phase : string) : string :=
  "{" +:+ dquote +:+ "metadata" +:+ dquote +:+ ": {" +:+ dquote +:+ "name"
  +:+ dquote +:+ ": " +:+ dquote +:+ name +:+ dquote +:+ "}, " +:+ dquote
  +:+ "status" +:+ dquote +:+ ": {" +:+ dquote +:+ "phase" +:+ dquote +:+ ": "
  +:+ dquote +:+ phase +:+ dquote +:+ "}}".

Definition csv_doc : string :=
  "{" +:+ dquote +:+ "items" +:+ dquote +:+ ": ["
  +:+ csv_text "cert-manager.v1.0" "Succeeded" +:+ ", "
  +:+ csv_text "Authorino-Operator.v0.13" "Succeeded" +:+ "]}".

Definition csv_listing : json :=
  JObj [("items",
          JList [ csv_item "cert-manager.v1.0" (JStr "Succeeded");
                  csv_item "Authorino-Operator.v0.13" (JStr "Succeeded") ])].

(** The operator is not listed at the first probe and has succeeded at
    the second.  The decoder of this host reads that listing and the flat
    documents. *)
Definition operator_arriving : environment :=
  {| json_loads := fun doc => if String.eqb doc csv_doc then Some csv_listing
                              else decode_flat doc;
     run_oracle := fun n cmd => if (n <? 1)%nat then Exited 0 "{}"
                                else Exited 0 csv_doc;
     tmp_oracle := tmp_name |}.

(** Names resolve to [abc123]; every other command prints the empty
    object. *)
Definition empty_docs : environment :=
  host (fun n cmd =>
          if is_list_clusters cmd then Exited 0 "abc123" else Exited 0 "{}").

Definition rhods_plain : RHODSConfig :=
  {| notification_email := "ops@example.invalid"; addon_name := "managed-odh";
     install_dependencies := false |}.

Definition gpu_demo : GPUAddonConfig :=
  {| gpu_addon_name := "nvidia-gpu-addon" |}.

Definition pool_always : MachinePoolConfig :=
  {| pool_name := "gpunode"; instance_type := "g4dn.xlarge"; node_count := 2;
     reuse_existing := false |}.

Definition cached (cid : string) : state :=
  {| cluster_id := JStr cid; events := []; files := ∅; ncalls := 0;
     ntemps := 0 |}.

End Scenario.

(** ** Facts about the host, the schedules and the loops *)

Module HostFacts.
Import Py Host Models Session.

Lemma preserves_ret I A (a : A) : preserves I (mret a).
Proof. intros s Hs. exact Hs. Qed.

Lemma preserves_raise I A (e : exn) : preserves I (@raise A e).
Proof. intros s Hs. exact Hs. Qed.

Lemma preserves_lift I A (r : res A) : preserves I (lift r).
Proof. intros s Hs. exact Hs. Qed.

Lemma preserves_bind I A B (m : M A) (k : A -> M B) :
  preserves I m -> (forall a, preserves I (k a)) -> preserves I (m ≫= k).
Proof.
  intros Hm Hk s Hs. unfold mbind, M_bind, bind. specialize (Hm s Hs).
  destruct (m s) as [[a|e] s1]; simpl in *; [apply Hk|]; assumption.
Qed.

Lemma bind_ok_inv A B (m : M A) (k : A -> M B) s b s' :
  (m ≫= k) s = (Ok b, s') ->
  exists a s1, m s = (Ok a, s1) /\ k a s1 = (Ok b, s').
Proof.
  unfold mbind, M_bind, bind. destruct (m s) as [[a|e] s1]; [|discriminate].
  intros H. exists a, s1. split; [reflexivity | exact H].
Qed.

Lemma preserves_try_finally I A (body : M A) (cleanup : M unit) :
  preserves I body -> preserves I cleanup ->
  preserves I (try_finally body cleanup).
Proof.
  intros Hb Hc s Hs. unfold try_finally. specialize (Hb s Hs).
  destruct (body s) as [r s1]; simpl in Hb. specialize (Hc s1 Hb).
  destruct (cleanup s1) as [[u|e] s2]; exact Hc.
Qed.

Lemma preserves_try_except I A (body handler : M A) catches :
  preserves I body -> preserves I handler ->
  preserves I (try_except body catches handler).
Proof.
  intros Hb Hh s Hs. unfold try_except. specialize (Hb s Hs).
  destruct (body s) as [[a|e] s1]; simpl in *; [assumption|].
  destruct (catches e); [apply Hh|]; assumption.
Qed.

Lemma preserves_loads I E doc : preserves I (loads E doc).
Proof. unfold loads. destruct (json_loads E doc); intros s Hs; exact Hs. Qed.

Lemma preserves_for_each I A (l : list A) (body : A -> M unit) :
  (forall a, preserves I (body a)) -> preserves I (AddonManager.for_each l body).
Proof.
  intros Hb. induction l as [|a l IH]; simpl.
  - apply preserves_ret.
  - apply preserves_bind; [apply Hb | intros _; exact IH].
Qed.

(** One structural step of a proof that a computation keeps an
    invariant. *)
Ltac preserves_step :=
  first
    [ apply preserves_ret | apply preserves_raise | apply preserves_lift
    | apply preserves_loads
    | apply preserves_bind; [|intros ?]
    | apply preserves_try_finally
    | apply preserves_try_except
    | match goal with
      | |- preserves _ (if ?b then _ else _) => destruct b
      | |- preserves _ (match ?x with _ => _ end) => destruct x
      end ].

(** Induction along a polling loop: a property of the counter holds when
    it follows from the property one step later, which is only needed
    while the counter has not passed the timeout. *)
Lemma poll_ind (step timeout : Z) (P : Z -> Prop) :
  0 < step ->
  (forall count, (count <= timeout -> P (count + step)) -> P count) ->
  forall count, P count.
Proof.
  intros Hstep H count.
  remember (Z.to_nat (timeout - count + 1)) as n eqn:Hn.
  revert count Hn. induction n as [n IH] using lt_wf_ind. intros count Hn.
  apply H. intros Hle.
  apply (IH (Z.to_nat (timeout - (count + step) + 1))); [lia | reflexivity].
Qed.

Lemma polls_done timeout step count :
  0 < step -> timeout < count -> polls timeout step count = 0%nat.
Proof.
  intros Hstep Hlt. unfold polls.
  assert ((timeout - count) / step < 0) by (apply Z.div_lt_upper_bound; lia).
  lia.
Qed.

Lemma polls_step timeout step count :
  0 < step -> count <= timeout ->
  polls timeout step count = S (polls timeout step (count + step)).
Proof.
  intros Hstep Hle. unfold polls.
  replace (timeout - (count + step)) with ((timeout - count) + (-1) * step) by lia.
  rewrite Z.div_add by lia.
  assert (0 <= (timeout - count) / step) by (apply Z.div_pos; lia).
  lia.
Qed.

Lemma polls_from_zero timeout step :
  0 < step -> 0 <= timeout -> polls timeout step 0 = Z.to_nat (timeout / step + 1).
Proof. intros. unfold polls. rewrite Z.sub_0_r. reflexivity. Qed.

(** Every tick of the schedule is within the timeout, and the time slept
    when the loop ends is beyond it. *)
Lemma ticks_within timeout step :
  0 < step ->
  forall count, Forall (fun e => e <= timeout)
                  (ticks count step (polls timeout step count)).
Proof.
  intros Hstep. apply (poll_ind step timeout); [assumption|].
  intros count IH. destruct (Z_le_gt_dec count timeout) as [Hle|Hgt].
  - rewrite polls_step by assumption. simpl. constructor; [assumption|].
    apply IH; assumption.
  - rewrite polls_done by lia. constructor.
Qed.

Lemma polls_beyond timeout step count :
  0 < step -> count <= timeout + step ->
  timeout < count + step * Z.of_nat (polls timeout step count).
Proof.
  intros Hstep. revert count. apply (poll_ind step timeout (fun count =>
    count <= timeout + step ->
    timeout < count + step * Z.of_nat (polls timeout step count)));
    [assumption|].
  intros count IH Hc. destruct (Z_le_gt_dec count timeout) as [Hle|Hgt].
  - rewrite polls_step by assumption. specialize (IH Hle). lia.
  - rewrite polls_done by lia. lia.
Qed.

Lemma ticks_last timeout step :
  0 < step -> 0 <= timeout -> (step | timeout) ->
  last (ticks 0 step (polls timeout step 0)) = Some timeout.
Proof.
  intros Hstep Hpos [q ->]. unfold polls. rewrite Z.sub_0_r, Z.div_mul by lia.
  assert (Hq : 0 <= q) by nia.
  replace (Z.to_nat (q + 1)) with (S (Z.to_nat q)) by lia.
  replace (q * step) with (0 + step * Z.of_nat (Z.to_nat q)) by lia.
  generalize (Z.to_nat q) as n. generalize 0 as e.
  intros e n. revert e. induction n as [|n IH]; intros e.
  - simpl. f_equal. lia.
  - change (ticks e step (S (S n))) with (e :: ticks (e + step) step (S n)).
    rewrite last_cons, IH. f_equal. lia.
Qed.

(** Traces. *)
Lemma since_app s s' tr : events s' = events s ++ tr -> since s s' = tr.
Proof. intros H. unfold since. rewrite H. apply drop_app_length. Qed.

Lemma concat_replicate_snoc {A} n (b : list A) :
  concat (replicate n b) ++ b = b ++ concat (replicate n b).
Proof.
  induction n as [|n IH]; simpl.
  - rewrite app_nil_r. reflexivity.
  - rewrite <- app_assoc, IH. reflexivity.
Qed.

Lemma runs_app tr1 tr2 : runs (tr1 ++ tr2) = runs tr1 ++ runs tr2.
Proof. apply omap_app. Qed.

Lemma sleeps_app tr1 tr2 : sleeps (tr1 ++ tr2) = sleeps tr1 ++ sleeps tr2.
Proof. apply omap_app. Qed.

Lemma runs_waiting n parts k :
  runs (concat (replicate n [EPrint parts; ESleep k])) = [].
Proof. induction n as [|n IH]; [reflexivity | exact IH]. Qed.

Lemma sleeps_waiting n parts k :
  sleeps (concat (replicate n [EPrint parts; ESleep k])) = replicate n k.
Proof.
  induction n as [|n IH]; [reflexivity|].
  change (sleeps (concat (replicate (S n) [EPrint parts; ESleep k])))
    with (k :: sleeps (concat (replicate n [EPrint parts; ESleep k]))).
  rewrite IH. reflexivity.
Qed.

Lemma extends_refl Q s : extends_with Q s s.
Proof. exists []. rewrite app_nil_r. split; [reflexivity | constructor]. Qed.

Lemma extends_snoc Q s0 s s' e :
  events s' = events s ++ [e] -> Q e ->
  extends_with Q s0 s -> extends_with Q s0 s'.
Proof.
  intros He Hq (tr & Htr & Hall). exists (tr ++ [e]). split.
  - rewrite He, Htr, app_assoc. reflexivity.
  - apply Forall_app. split; [assumption | repeat constructor; assumption].
Qed.

Lemma ext_print Q s0 parts :
  Q (EPrint parts) -> preserves (extends_with Q s0) (print parts).
Proof. intros Hq s Hs. eapply extends_snoc; [reflexivity | exact Hq | exact Hs]. Qed.

Lemma ext_sleep Q s0 n :
  Q (ESleep n) -> preserves (extends_with Q s0) (sleep n).
Proof. intros Hq s Hs. eapply extends_snoc; [reflexivity | exact Hq | exact Hs]. Qed.

Lemma ext_run Q s0 E cmd :
  Q (ERun cmd) -> preserves (extends_with Q s0) (run E cmd).
Proof. intros Hq s Hs. eapply extends_snoc; [reflexivity | exact Hq | exact Hs]. Qed.

Lemma ext_unlink Q s0 path :
  Q (EUnlink path) -> preserves (extends_with Q s0) (unlink path).
Proof. intros Hq s Hs. eapply extends_snoc; [reflexivity | exact Hq | exact Hs]. Qed.

Lemma ext_named_temporary_file Q s0 E suffix doc :
  (forall path, Q (ECreate path doc)) ->
  preserves (extends_with Q s0) (named_temporary_file E suffix doc).
Proof. intros Hq s Hs. eapply extends_snoc; [reflexivity | apply Hq | exact Hs]. Qed.

(** What a computation that keeps [extends_with Q] adds to the trace. *)
Lemma extends_since Q A (m : M A) s :
  preserves (extends_with Q s) m ->
  exists tr, events (snd (m s)) = events s ++ tr /\ Forall Q tr.
Proof. intros H. apply H, extends_refl. Qed.

Lemma no_post_run tr cmd :
  Forall no_post tr -> ERun cmd ∈ tr -> is_post cmd = false.
Proof. intros Hall Hin. rewrite Forall_forall in Hall. exact (Hall _ Hin). Qed.

End HostFacts.

(** ** Facts about [ClusterManager] *)

Module ClusterFacts.
Import Py Host Models Session HostFacts ClusterManager.

Lemma bind_ok A B (m : M A) (k : A -> M B) s a s1 :
  m s = (Ok a, s1) -> (m ≫= k) s = k a s1.
Proof. intros H. unfold mbind, M_bind, bind. rewrite H. reflexivity. Qed.

Lemma bind_raise A B (m : M A) (k : A -> M B) s e s1 :
  m s = (Raise e, s1) -> (m ≫= k) s = (Raise e, s1).
Proof. intros H. unfold mbind, M_bind, bind. rewrite H. reflexivity. Qed.

Section WithInstance.
Variable E : environment.
Variable ocm_config : OCMConfig.

Lemma ready_loop_unfold name timeout cid count :
  wait_for_cluster_ready_loop E name timeout cid count =
  if decide (count <= timeout) then
    state ← _get_cluster_state E cid;
    if eq_str state "ready" then
      print [JStr "Cluster "; JStr name; JStr " is ready"];;
      print [JStr "Waiting additional 5 minutes for services to stabilize..."];;
      sleep 300;;
      ret ()
    else if eq_str state "error" then
      raise (RuntimeError ("Cluster " +:+ name +:+ " is in error state"))
    else
      print [JStr "Cluster state: "; state; JStr ". Waiting..."];;
      sleep 60;;
      wait_for_cluster_ready_loop E name timeout cid (count + 60)
  else raise (TimeoutError ("Cluster " +:+ name +:+ " not ready after ") timeout).
Proof.
  rewrite wait_for_cluster_ready_loop_equation_1.
  destruct (Z_le_gt_dec count timeout); destruct (decide _); try lia;
    reflexivity.
Qed.

Lemma deleted_loop_unfold name timeout count :
  _wait_for_cluster_deleted_loop E name timeout count =
  if decide (count <= timeout) then
    again ← try_except
      (_get_cluster_id E name;;
       print [JStr "Cluster still exists, waiting..."];;
       sleep 60;;
       ret true)
      is_ValueError
      (print [JStr "Cluster "; JStr name; JStr " deleted successfully"];;
       ret false);
    if (again : bool)
    then _wait_for_cluster_deleted_loop E name timeout (count + 60)
    else ret ()
  else raise (TimeoutError ("Cluster " +:+ name +:+ " not deleted after ")
                timeout).
Proof.
  rewrite _wait_for_cluster_deleted_loop_equation_1.
  destruct (Z_le_gt_dec count timeout); destruct (decide _); try lia;
    reflexivity.
Qed.

(** *** Name resolution and the cache *)

Lemma get_cluster_id_cached name s :
  truthy (cluster_id s) = true ->
  _get_cluster_id E name s = (Ok (cluster_id s), s).
Proof.
  intros H. unfold _get_cluster_id, get_cluster_id_attr, mbind, M_bind, bind.
  rewrite H. reflexivity.
Qed.

Lemma get_cluster_id_ok name s v s1 :
  _get_cluster_id E name s = (Ok v, s1) ->
  cluster_id s1 = v /\ truthy v = true.
Proof.
  unfold _get_cluster_id, get_cluster_id_attr, mbind, M_bind, bind, run.
  destruct (truthy (cluster_id s)) eqn:Hc.
  - intros [= <- <-]. split; [reflexivity | assumption].
  - destruct (checked _ _) as [out|e]; [|discriminate].
    destruct (truthy (JStr (strip out))) eqn:Ht; simpl.
    + intros [= <- <-]. split; [reflexivity | assumption].
    + discriminate.
Qed.

Lemma get_cluster_id_uncached name s :
  truthy (cluster_id s) = false ->
  events (snd (_get_cluster_id E name s))
  = events s ++ [ERun (list_clusters_cmd name)].
Proof.
  intros H.
  unfold _get_cluster_id, get_cluster_id_attr, mbind, M_bind, bind, run.
  rewrite H. destruct (checked _ _) as [out|e]; [|reflexivity].
  destruct (negb _); reflexivity.
Qed.

(** *** Every method but [create_cluster] keeps a cached identifier *)

Lemma keeps_print v parts : preserves (holds v) (print parts).
Proof. intros s Hs. exact Hs. Qed.

Lemma keeps_sleep v n : preserves (holds v) (sleep n).
Proof. intros s Hs. exact Hs. Qed.

Lemma keeps_run v cmd : preserves (holds v) (run E cmd).
Proof. intros s Hs. exact Hs. Qed.

Lemma keeps_get_cluster_id v name :
  truthy v = true -> preserves (holds v) (_get_cluster_id E name).
Proof.
  intros Hv s Hs. rewrite get_cluster_id_cached; [exact Hs|].
  unfold holds in Hs. rewrite Hs. exact Hv.
Qed.

Ltac keeps :=
  repeat first [ apply keeps_print | apply keeps_sleep | apply keeps_run
               | apply keeps_get_cluster_id; assumption
               | preserves_step ].

Lemma keeps_get_cluster_state v cid :
  preserves (holds v) (_get_cluster_state E cid).
Proof. unfold _get_cluster_state. keeps. Qed.

Lemma keeps_ready_loop v name timeout cid count :
  preserves (holds v) (wait_for_cluster_ready_loop E name timeout cid count).
Proof.
  revert count. apply (poll_ind 60 timeout); [lia|]. intros count IH.
  rewrite ready_loop_unfold. destruct (decide (count <= timeout)).
  - apply preserves_bind; [apply keeps_get_cluster_state|]. intros st.
    keeps. apply IH. assumption.
  - keeps.
Qed.

Lemma keeps_wait_for_cluster_ready v name timeout :
  truthy v = true ->
  preserves (holds v) (wait_for_cluster_ready E name timeout).
Proof. intros Hv. unfold wait_for_cluster_ready. keeps. apply keeps_ready_loop. Qed.

Lemma keeps_deleted_loop v name timeout count :
  truthy v = true ->
  preserves (holds v) (_wait_for_cluster_deleted_loop E name timeout count).
Proof.
  intros Hv. revert count. apply (poll_ind 60 timeout); [lia|].
  intros count IH.
  rewrite deleted_loop_unfold. destruct (decide (count <= timeout)).
  - keeps. apply IH. assumption.
  - keeps.
Qed.

Lemma keeps_wait_for_cluster_deleted v name timeout :
  truthy v = true ->
  preserves (holds v) (_wait_for_cluster_deleted E name timeout).
Proof.
  intros Hv. unfold _wait_for_cluster_deleted. keeps.
  apply keeps_deleted_loop. assumption.
Qed.

Lemma keeps_delete_cluster v name :
  truthy v = true -> preserves (holds v) (delete_cluster E ocm_config name).
Proof.
  intros Hv. unfold delete_cluster. keeps.
  apply keeps_deleted_loop. assumption.
Qed.

Lemma keeps_get_cluster_info v name :
  truthy v = true -> preserves (holds v) (get_cluster_info E name).
Proof. intros Hv. unfold get_cluster_info. keeps. Qed.

Lemma keeps_exec v c :
  truthy v = true -> is_create c = false ->
  preserves (holds v) (exec E ocm_config c).
Proof.
  intros Hv Hc. destruct c; try discriminate; simpl.
  - apply keeps_wait_for_cluster_ready. assumption.
  - apply keeps_delete_cluster. assumption.
  - keeps.
  - keeps.
  - keeps.
  - apply keeps_wait_for_cluster_deleted. assumption.
Qed.

Lemma keeps_exec_all v cs s :
  truthy v = true -> forallb (fun c => negb (is_create c)) cs = true ->
  holds v s -> holds v (exec_all E ocm_config cs s).
Proof.
  intros Hv. revert s. induction cs as [|c cs IH]; simpl; intros s Hcs Hs.
  - exact Hs.
  - apply andb_prop in Hcs as [Hc Hcs]. apply IH; [assumption|].
    apply keeps_exec; [assumption | | assumption].
    destruct (is_create c); [discriminate | reflexivity].
Qed.

(** *** What [create_cluster] leaves in the cache *)

Lemma create_cluster_ok config s v s1 :
  create_cluster E ocm_config config s = (Ok v, s1) -> cluster_id s1 = v.
Proof.
  unfold create_cluster, named_temporary_file, try_finally, run, unlink, loads,
    lift, print, set_cluster_id_attr, get_cluster_id_attr.
  unfold mbind, M_bind, bind, mret, M_ret, ret, raise. simpl.
  destruct (checked _ _); simpl; [|discriminate].
  destruct (json_loads _ _); simpl; [|discriminate].
  destruct (get _ _ _); simpl; [|discriminate].
  intros [= <- <-]. reflexivity.
Qed.

Lemma create_cluster_raise config s e s1 :
  create_cluster E ocm_config config s = (Raise e, s1) ->
  cluster_id s1 = cluster_id s.
Proof.
  unfold create_cluster, named_temporary_file, try_finally, run, unlink, loads,
    lift, print, set_cluster_id_attr, get_cluster_id_attr.
  unfold mbind, M_bind, bind, mret, M_ret, ret, raise. simpl.
  destruct (checked _ _); simpl; [|intros [= <- <-]; reflexivity].
  destruct (json_loads _ _); simpl; [|intros [= <- <-]; reflexivity].
  destruct (get _ _ _); simpl; [discriminate|intros [= <- <-]; reflexivity].
Qed.

(** A call keeps the cache true as a Python value, unless it is a
    [create_cluster] that returns an empty or missing identifier. *)
Lemma exec_keeps_truthy c s :
  truthy (cluster_id s) = true ->
  creates_yield_ids E ocm_config [c] s ->
  truthy (cluster_id (snd (exec E ocm_config c s))) = true.
Proof.
  intros Hs [Hc _].
  destruct c as [config| | | | | |];
    try (match goal with
         | |- truthy (cluster_id (snd (exec _ _ ?c _))) = true =>
             pose proof (keeps_exec (cluster_id s) c Hs eq_refl s eq_refl) as Hk
         end;
         unfold holds in Hk; rewrite Hk; exact Hs).
  simpl in *. unfold mbind, M_bind, bind.
  destruct (create_cluster E ocm_config config s) as [[v|e] s1] eqn:Hrun;
    simpl in *.
  - rewrite (create_cluster_ok _ _ _ _ Hrun). exact Hc.
  - rewrite (create_cluster_raise _ _ _ _ Hrun). exact Hs.
Qed.

Lemma exec_all_keeps_truthy cs s :
  truthy (cluster_id s) = true ->
  creates_yield_ids E ocm_config cs s ->
  truthy (cluster_id (exec_all E ocm_config cs s)) = true.
Proof.
  revert s. induction cs as [|c cs IH]; simpl; intros s Hs Hcs.
  - exact Hs.
  - destruct Hcs as [Hc Hcs]. apply IH; [|exact Hcs].
    apply exec_keeps_truthy; [exact Hs|]. simpl. auto.
Qed.

(** Resolution adds at most the lookup to the trace. *)
Lemma get_cluster_id_events name s :
  let s1 := snd (_get_cluster_id E name s) in
  events s1 = events s \/ events s1 = events s ++ [ERun (list_clusters_cmd name)].
Proof.
  simpl. destruct (truthy (cluster_id s)) eqn:Hc.
  - left. rewrite get_cluster_id_cached by assumption. reflexivity.
  - right. apply get_cluster_id_uncached. assumption.
Qed.

(** *** The deletion wait with a cached identifier *)

Lemma iter_still_waiting n s :
  cluster_id (Nat.iter n still_waiting s) = cluster_id s
  /\ ncalls (Nat.iter n still_waiting s) = ncalls s
  /\ events (Nat.iter n still_waiting s)
     = events s
       ++ concat (replicate n [EPrint [JStr "Cluster still exists, waiting..."];
                               ESleep 60]).
Proof.
  induction n as [|n (Hc & Hn & He)]; simpl.
  - rewrite app_nil_r. auto.
  - rewrite Hc, Hn, He. repeat split.
    rewrite <- !app_assoc. f_equal. simpl.
    exact (concat_replicate_snoc n
             [EPrint [JStr "Cluster still exists, waiting..."]; ESleep 60]).
Qed.

Lemma deleted_loop_cached name timeout :
  forall count s,
    truthy (cluster_id s) = true ->
    _wait_for_cluster_deleted_loop E name timeout count s
    = (Raise (TimeoutError ("Cluster " +:+ name +:+ " not deleted after ")
                timeout),
       Nat.iter (polls timeout 60 count) still_waiting s).
Proof.
  apply (poll_ind 60 timeout (fun count => forall s, _ -> _ = _)); [lia|].
  intros count IH s Hs. rewrite deleted_loop_unfold.
  destruct (decide (count <= timeout)) as [Hle|Hgt].
  - rewrite polls_step by lia. rewrite Nat.iter_succ_r.
    unfold try_except, mbind, M_bind, bind.
    rewrite get_cluster_id_cached by assumption. simpl.
    apply IH; assumption.
  - rewrite polls_done by lia. reflexivity.
Qed.

(** [delete_cluster] never returns: it raises before the wait, or the
    wait times out. *)
Lemma delete_cluster_never_returns name s :
  exists e s', delete_cluster E ocm_config name s = (Raise e, s').
Proof.
  unfold delete_cluster. unfold mbind at 1, M_bind, bind.
  destruct (_get_cluster_id E name s) as [[v|e] s1] eqn:Hres; [|eauto].
  apply get_cluster_id_ok in Hres as [Hid Hv].
  unfold mbind at 1, M_bind, bind, lift.
  destruct (as_arg v) as [cid|e]; [|eauto].
  unfold mbind at 1, M_bind, bind, run.
  destruct (checked _ _) as [out|e]; [|eauto].
  unfold mbind at 1, M_bind, bind, print, _wait_for_cluster_deleted.
  unfold mbind at 1, M_bind, bind, print.
  rewrite deleted_loop_cached; [eauto|]. simpl. rewrite Hid. exact Hv.
Qed.

(** *** The readiness wait *)

Lemma get_cluster_state_run cid s :
  _get_cluster_state E (JStr cid) s
  = (cluster_state_reply E cid (run_oracle E (ncalls s) (describe_cmd cid)),
     started (describe_cmd cid) s).
Proof.
  unfold _get_cluster_state, cluster_state_reply, run, loads, lift.
  unfold mbind, M_bind, res_bind, bind, mret, M_ret, ret, raise. simpl.
  destruct (checked _ _) as [out|e]; [|reflexivity].
  destruct (json_loads E out); reflexivity.
Qed.

Lemma ready_loop_turn name timeout cid count s st :
  count <= timeout ->
  cluster_state_reply E cid (run_oracle E (ncalls s) (describe_cmd cid)) = Ok st ->
  eq_str st "ready" = false -> eq_str st "error" = false ->
  exists s1,
    wait_for_cluster_ready_loop E name timeout (JStr cid) count s
    = wait_for_cluster_ready_loop E name timeout (JStr cid) (count + 60) s1
    /\ events s1 = events s ++ ready_turn cid st
    /\ ncalls s1 = S (ncalls s).
Proof.
  intros Hle Hst Hr He. rewrite ready_loop_unfold.
  destruct (decide (count <= timeout)); [|lia].
  unfold mbind at 1, M_bind, bind. rewrite get_cluster_state_run, Hst, Hr, He.
  eexists. split; [reflexivity|]. simpl. rewrite <- !app_assoc. auto.
Qed.

Lemma ready_loop_pending name timeout cid :
  forall count s,
    (forall n, (ncalls s <= n)%nat -> cluster_pending E cid n) ->
    exists s' tr,
      wait_for_cluster_ready_loop E name timeout (JStr cid) count s
      = (Raise (TimeoutError ("Cluster " +:+ name +:+ " not ready after ")
                  timeout), s')
      /\ events s' = events s ++ tr
      /\ (forall e, probe_times is_describe e tr
                    = ticks e 60 (polls timeout 60 count))
      /\ sleeps tr = replicate (polls timeout 60 count) 60.
Proof.
  apply (poll_ind 60 timeout (fun count => forall s, _ -> _)); [lia|].
  intros count IH s Hpend. destruct (Z_le_gt_dec count timeout) as [Hle|Hgt].
  - destruct (Hpend (ncalls s) (le_n _)) as (st & Hst & Hr & He).
    destruct (ready_loop_turn name timeout cid count s st Hle Hst Hr He)
      as (s1 & Hloop & Hev & Hn).
    destruct (IH Hle s1) as (s' & tr & Hrun & Htr & Hticks & Hsl).
    { intros n Hge. apply Hpend. lia. }
    exists s', (ready_turn cid st ++ tr). rewrite polls_step by lia.
    repeat split.
    + rewrite Hloop. exact Hrun.
    + rewrite Htr, Hev, app_assoc. reflexivity.
    + intros e. simpl. rewrite Hticks. reflexivity.
    + simpl. rewrite Hsl. reflexivity.
  - exists s, []. rewrite polls_done by lia. rewrite ready_loop_unfold.
    destruct (decide (count <= timeout)); [lia|].
    rewrite app_nil_r. repeat split.
Qed.

Lemma ready_loop_fails name timeout cid :
  forall k count s,
    count + 60 * Z.of_nat k <= timeout ->
    (forall j, (j < k)%nat -> cluster_pending E cid (ncalls s + j)) ->
    cluster_failed E cid (ncalls s + k) ->
    exists s' tr,
      wait_for_cluster_ready_loop E name timeout (JStr cid) count s
      = (Raise (RuntimeError ("Cluster " +:+ name +:+ " is in error state")), s')
      /\ events s' = events s ++ tr
      /\ runs tr = replicate (S k) (describe_cmd cid)
      /\ sleeps tr = replicate k 60.
Proof.
  induction k as [|k IH]; intros count s Hle Hpend Hfail.
  - exists (started (describe_cmd cid) s), [ERun (describe_cmd cid)].
    rewrite ready_loop_unfold. destruct (decide (count <= timeout)); [|lia].
    unfold mbind at 1, M_bind, bind. rewrite get_cluster_state_run.
    unfold cluster_failed in Hfail. rewrite Nat.add_0_r in Hfail.
    rewrite Hfail. repeat split.
  - destruct (Hpend 0%nat ltac:(lia)) as (st & Hst & Hr & He).
    rewrite Nat.add_0_r in Hst.
    destruct (ready_loop_turn name timeout cid count s st ltac:(lia) Hst Hr He)
      as (s1 & Hloop & Hev & Hn).
    destruct (IH (count + 60) s1) as (s' & tr & Hrun & Htr & Hruns & Hsl).
    { lia. }
    { intros j Hj. rewrite Hn. replace (S (ncalls s) + j)%nat
        with (ncalls s + S j)%nat by lia. apply Hpend. lia. }
    { rewrite Hn. replace (S (ncalls s) + k)%nat
        with (ncalls s + S k)%nat by lia. exact Hfail. }
    exists s', (ready_turn cid st ++ tr). repeat split.
    + rewrite Hloop. exact Hrun.
    + rewrite Htr, Hev, app_assoc. reflexivity.
    + simpl. rewrite Hruns. reflexivity.
    + simpl. rewrite Hsl. reflexivity.
Qed.

End WithInstance.

End ClusterFacts.

(** ** Facts about [AddonManager] *)

Module AddonFacts.
Import Py Host Models Session HostFacts AddonManager.

(** Steps of a proof that a computation only adds events that satisfy a
    predicate which holds of the events named by the hypotheses at hand. *)
Ltac ext_step :=
  first
    [ apply ext_print; first [exact I | solve [auto]]
    | apply ext_sleep; first [exact I | reflexivity | assumption]
    | apply ext_run; first [reflexivity | assumption]
    | apply ext_unlink; first [exact I | solve [auto]]
    | apply ext_named_temporary_file; intros ?; first [exact I | solve [auto]]
    | preserves_step ].

Section WithInstance.
Variable E : environment.
Variable ocm_config : OCMConfig.

Lemma addon_loop_unfold cid addon timeout count :
  _wait_for_addon_ready_loop E cid addon timeout count =
  if decide (count <= timeout) then
    state ← _get_addon_state_by_id E cid addon;
    if String.eqb state "ready" then
      print [JStr "Addon '"; JStr addon; JStr "' is ready"];;
      ret ()
    else if String.eqb state "failed" then
      raise (RuntimeError ("Addon '" +:+ addon +:+ "' installation failed"))
    else
      print [JStr "Addon state: "; JStr state; JStr ". Waiting..."];;
      sleep 60;;
      _wait_for_addon_ready_loop E cid addon timeout (count + 60)
  else raise (TimeoutError ("Addon '" +:+ addon +:+ "' not ready after ") timeout).
Proof.
  rewrite _wait_for_addon_ready_loop_equation_1.
  destruct (Z_le_gt_dec count timeout); destruct (decide _); try lia;
    reflexivity.
Qed.

Lemma operator_loop_unfold op timeout count :
  _wait_for_operator_ready_loop E op timeout count =
  if decide (count <= timeout) then
    returned ← csv_probe E op;
    if (returned : bool) then ret ()
    else
      sleep 10;;
      _wait_for_operator_ready_loop E op timeout (count + 10)
  else print [JStr "Warning: "; JStr op; JStr " may not be fully ready"].
Proof.
  rewrite _wait_for_operator_ready_loop_equation_1.
  destruct (Z_le_gt_dec count timeout); destruct (decide _); try lia;
    reflexivity.
Qed.

(** *** The add-on readiness wait *)

Lemma get_addon_state_run cid addon s :
  _get_addon_state_by_id E cid addon s
  = (addon_state_reply cid addon (run_oracle E (ncalls s) (list_addons_cmd cid)),
     started (list_addons_cmd cid) s).
Proof.
  unfold _get_addon_state_by_id, addon_state_reply, run.
  unfold mbind, M_bind, res_bind, bind, mret, M_ret, ret. simpl.
  destruct (checked _ _); reflexivity.
Qed.

Lemma addon_loop_turn cid addon timeout count s st :
  count <= timeout ->
  addon_state_reply cid addon (run_oracle E (ncalls s) (list_addons_cmd cid))
  = Ok st ->
  String.eqb st "ready" = false -> String.eqb st "failed" = false ->
  exists s1,
    _wait_for_addon_ready_loop E cid addon timeout count s
    = _wait_for_addon_ready_loop E cid addon timeout (count + 60) s1
    /\ events s1 = events s ++ addon_turn cid st
    /\ ncalls s1 = S (ncalls s).
Proof.
  intros Hle Hst Hr He. rewrite addon_loop_unfold.
  destruct (decide (count <= timeout)); [|lia].
  unfold mbind at 1, M_bind, bind. rewrite get_addon_state_run, Hst, Hr, He.
  eexists. split; [reflexivity|]. simpl. rewrite <- !app_assoc. auto.
Qed.

Lemma addon_loop_pending cid addon timeout :
  forall count s,
    (forall n, (ncalls s <= n)%nat -> addon_pending E cid addon n) ->
    exists s' tr,
      _wait_for_addon_ready_loop E cid addon timeout count s
      = (Raise (TimeoutError ("Addon '" +:+ addon +:+ "' not ready after ")
                  timeout), s')
      /\ events s' = events s ++ tr
      /\ (forall e, probe_times is_list_addons e tr
                    = ticks e 60 (polls timeout 60 count))
      /\ sleeps tr = replicate (polls timeout 60 count) 60.
Proof.
  apply (poll_ind 60 timeout (fun count => forall s, _ -> _)); [lia|].
  intros count IH s Hpend. destruct (Z_le_gt_dec count timeout) as [Hle|Hgt].
  - destruct (Hpend (ncalls s) (le_n _)) as (st & Hst & Hr & He).
    destruct (addon_loop_turn cid addon timeout count s st Hle Hst Hr He)
      as (s1 & Hloop & Hev & Hn).
    destruct (IH Hle s1) as (s' & tr & Hrun & Htr & Hticks & Hsl).
    { intros n Hge. apply Hpend. lia. }
    exists s', (addon_turn cid st ++ tr). rewrite polls_step by lia.
    repeat split.
    + rewrite Hloop. exact Hrun.
    + rewrite Htr, Hev, app_assoc. reflexivity.
    + intros e. simpl. rewrite Hticks. reflexivity.
    + simpl. rewrite Hsl. reflexivity.
  - exists s, []. rewrite polls_done by lia. rewrite addon_loop_unfold.
    destruct (decide (count <= timeout)); [lia|].
    rewrite app_nil_r. repeat split.
Qed.

Lemma addon_loop_fails cid addon timeout :
  forall k count s,
    count + 60 * Z.of_nat k <= timeout ->
    (forall j, (j < k)%nat -> addon_pending E cid addon (ncalls s + j)) ->
    addon_failed E cid addon (ncalls s + k) ->
    exists s' tr,
      _wait_for_addon_ready_loop E cid addon timeout count s
      = (Raise (RuntimeError ("Addon '" +:+ addon +:+ "' installation failed")),
         s')
      /\ events s' = events s ++ tr
      /\ runs tr = replicate (S k) (list_addons_cmd cid)
      /\ sleeps tr = replicate k 60.
Proof.
  induction k as [|k IH]; intros count s Hle Hpend Hfail.
  - exists (started (list_addons_cmd cid) s), [ERun (list_addons_cmd cid)].
    rewrite addon_loop_unfold. destruct (decide (count <= timeout)); [|lia].
    unfold mbind at 1, M_bind, bind. rewrite get_addon_state_run.
    unfold addon_failed in Hfail. rewrite Nat.add_0_r in Hfail.
    rewrite Hfail. repeat split.
  - destruct (Hpend 0%nat ltac:(lia)) as (st & Hst & Hr & He).
    rewrite Nat.add_0_r in Hst.
    destruct (addon_loop_turn cid addon timeout count s st ltac:(lia) Hst Hr He)
      as (s1 & Hloop & Hev & Hn).
    destruct (IH (count + 60) s1) as (s' & tr & Hrun & Htr & Hruns & Hsl).
    { lia. }
    { intros j Hj. rewrite Hn. replace (S (ncalls s) + j)%nat
        with (ncalls s + S j)%nat by lia. apply Hpend. lia. }
    { rewrite Hn. replace (S (ncalls s) + k)%nat
        with (ncalls s + S k)%nat by lia. exact Hfail. }
    exists s', (addon_turn cid st ++ tr). repeat split.
    + rewrite Hloop. exact Hrun.
    + rewrite Htr, Hev, app_assoc. reflexivity.
    + simpl. rewrite Hruns. reflexivity.
    + simpl. rewrite Hsl. reflexivity.
Qed.

(** *** The operator readiness wait *)

Lemma get_plain d k v : plain (get d k v).
Proof. destruct d; simpl; auto. Qed.

Lemma iter_plain v : plain (iter v).
Proof. destruct v; simpl; auto. Qed.

Lemma str_lower_plain v : plain (str_lower v).
Proof. destruct v; simpl; auto. Qed.

Lemma scan_csvs_plain op l : plain (scan_csvs op l).
Proof.
  induction l as [|csv l IH]; simpl; [exact I|].
  unfold mbind, res_bind.
  pose proof (get_plain csv "metadata" (JObj [])) as H1.
  destruct (get csv "metadata" _) as [md|e]; [|exact H1].
  pose proof (get_plain md "name" (JStr "")) as H2.
  destruct (get md "name" _) as [nm|e]; [|exact H2].
  pose proof (str_lower_plain nm) as H3.
  destruct (str_lower nm) as [lname|e]; [|exact H3].
  destruct (contains op lname); [|exact IH].
  pose proof (get_plain csv "status" (JObj [])) as H4.
  destruct (get csv "status" _) as [st|e]; [|exact H4].
  pose proof (get_plain st "phase" (JStr "")) as H5.
  destruct (get st "phase" _) as [ph|e]; [exact I|exact H5].
Qed.

Lemma csv_probe_run op s :
  csv_probe E op s
  = match csv_reply E op (run_oracle E (ncalls s) get_csv_cmd) with
    | Ok true =>
        (Ok true, log (EPrint [JStr op; JStr " is ready"]) (started get_csv_cmd s))
    | Ok false => (Ok false, started get_csv_cmd s)
    | Raise e => (Raise e, started get_csv_cmd s)
    end.
Proof.
  unfold csv_probe, csv_reply, try_except, run, loads, lift.
  unfold mbind, M_bind, res_bind, bind, mret, M_ret, ret, raise. simpl.
  destruct (checked _ _) as [out|e]; simpl.
  - destruct (json_loads E out) as [csvs|]; [|reflexivity].
    pose proof (get_plain csvs "items" (JList [])) as H1.
    destruct (get csvs _ _) as [items|e]; simpl;
      [|destruct H1 as [-> _]; reflexivity].
    pose proof (iter_plain items) as H2.
    destruct (iter items) as [l|e]; simpl;
      [|destruct H2 as [-> _]; reflexivity].
    pose proof (scan_csvs_plain op l) as H3.
    destruct (scan_csvs op l) as [[|]|e]; simpl;
      [reflexivity | reflexivity | destruct H3 as [-> _]; reflexivity].
  - destruct (is_CalledProcessError e); reflexivity.
Qed.

Lemma iter_operator_turn n s :
  ncalls (Nat.iter n operator_turn s) = (ncalls s + n)%nat
  /\ events (Nat.iter n operator_turn s)
     = events s ++ concat (replicate n [ERun get_csv_cmd; ESleep 10]).
Proof.
  induction n as [|n (Hn & He)]; simpl.
  - rewrite app_nil_r. auto.
  - rewrite Hn, He. split; [lia|].
    rewrite <- !app_assoc. f_equal. simpl.
    exact (concat_replicate_snoc n [ERun get_csv_cmd; ESleep 10]).
Qed.

Lemma operator_loop_not_ready op timeout :
  forall count s,
    (forall n, (ncalls s <= n)%nat -> operator_not_ready E op n) ->
    _wait_for_operator_ready_loop E op timeout count s
    = (Ok (),
       log (EPrint [JStr "Warning: "; JStr op; JStr " may not be fully ready"])
         (Nat.iter (polls timeout 10 count) operator_turn s)).
Proof.
  apply (poll_ind 10 timeout (fun count => forall s, _ -> _ = _)); [lia|].
  intros count IH s Hnot. rewrite operator_loop_unfold.
  destruct (decide (count <= timeout)) as [Hle|Hgt].
  - rewrite polls_step by lia. rewrite Nat.iter_succ_r.
    unfold mbind at 1, M_bind, bind. rewrite csv_probe_run.
    rewrite (Hnot (ncalls s) (le_n _)). simpl.
    apply IH; [assumption|]. intros n Hn. apply Hnot. simpl in Hn. lia.
  - rewrite polls_done by lia. reflexivity.
Qed.

Lemma csv_reply_not_timeout op r : not_timeout (csv_reply E op r).
Proof.
  unfold csv_reply.
  destruct r as [code out|]; simpl.
  - destruct (code =? 0); simpl; [|exact I].
    destruct (json_loads E out) as [csvs|]; [|reflexivity].
    unfold mbind, res_bind.
    pose proof (get_plain csvs "items" (JList [])) as H1.
    destruct (get csvs _ _) as [items|e]; [|exact (proj2 H1)].
    pose proof (iter_plain items) as H2.
    destruct (iter items) as [l|e]; [|exact (proj2 H2)].
    pose proof (scan_csvs_plain op l) as H3.
    destruct (scan_csvs op l) as [b|e]; [exact I|exact (proj2 H3)].
  - reflexivity.
Qed.

Lemma operator_loop_not_timeout op timeout :
  forall count s,
    not_timeout (fst (_wait_for_operator_ready_loop E op timeout count s)).
Proof.
  apply (poll_ind 10 timeout (fun count => forall s, not_timeout _)); [lia|].
  intros count IH s. rewrite operator_loop_unfold.
  destruct (decide (count <= timeout)) as [Hle|Hgt]; [|exact I].
  unfold mbind at 1, M_bind, bind. rewrite csv_probe_run.
  pose proof (csv_reply_not_timeout op (run_oracle E (ncalls s) get_csv_cmd))
    as Hr.
  destruct (csv_reply _ _ _) as [[|]|e]; simpl; [exact I | | exact Hr].
  apply IH. assumption.
Qed.

(** *** What the methods add to the trace *)

Lemma ext_operator_loop Q s0 op timeout count :
  (forall parts, Q (EPrint parts)) -> Q (ESleep 10) -> Q (ERun get_csv_cmd) ->
  preserves (extends_with Q s0) (_wait_for_operator_ready_loop E op timeout count).
Proof.
  intros Hp Hs Hr. revert count. apply (poll_ind 10 timeout); [lia|].
  intros count IH. rewrite operator_loop_unfold.
  destruct (decide (count <= timeout)).
  - apply preserves_bind.
    + unfold csv_probe. repeat ext_step.
    + intros b. repeat ext_step. apply IH. assumption.
  - repeat ext_step.
Qed.

Lemma ext_wait_for_operator_ready Q s0 op timeout :
  (forall parts, Q (EPrint parts)) -> Q (ESleep 10) -> Q (ERun get_csv_cmd) ->
  preserves (extends_with Q s0) (_wait_for_operator_ready E op timeout).
Proof.
  intros Hp Hs Hr. unfold _wait_for_operator_ready.
  apply preserves_bind; [ext_step|]. intros _.
  apply ext_operator_loop; assumption.
Qed.

Lemma ext_install_dependency s0 d :
  preserves (extends_with no_post s0) (install_dependency E d).
Proof.
  destruct d as [[op ch] src]. unfold install_dependency, _install_operator.
  apply preserves_bind; [ext_step|]. intros _.
  apply preserves_bind; [repeat ext_step|]. intros _.
  apply ext_wait_for_operator_ready; [intros ?; exact I | exact I | reflexivity].
Qed.

Lemma ext_install_dependency_operators s0 :
  preserves (extends_with no_post s0) (_install_dependency_operators E).
Proof.
  unfold _install_dependency_operators.
  apply preserves_bind; [ext_step|]. intros _.
  apply preserves_for_each. intros d. apply ext_install_dependency.
Qed.

Lemma ext_get_cluster_id s0 name :
  preserves (extends_with no_post s0) (_get_cluster_id E name).
Proof. unfold _get_cluster_id. repeat ext_step. Qed.

Lemma ext_addon_loop s0 cid addon timeout count :
  preserves (extends_with no_post s0)
    (_wait_for_addon_ready_loop E cid addon timeout count).
Proof.
  revert count. apply (poll_ind 60 timeout); [lia|].
  intros count IH. rewrite addon_loop_unfold.
  destruct (decide (count <= timeout)).
  - apply preserves_bind.
    + unfold _get_addon_state_by_id. repeat ext_step.
    + intros st. repeat ext_step. apply IH. assumption.
  - repeat ext_step.
Qed.

Lemma ext_wait_for_addon_ready s0 cid addon timeout :
  preserves (extends_with no_post s0) (_wait_for_addon_ready E cid addon timeout).
Proof.
  unfold _wait_for_addon_ready.
  apply preserves_bind; [ext_step|]. intros _. apply ext_addon_loop.
Qed.

(** A dependency cycle that returns leaves the events of
    [cycle_events]. *)
Lemma install_dependency_ok d s s' :
  install_dependency E d s = (Ok (), s') ->
  exists w,
    events s' = events s ++ cycle_events d (tmp_oracle E (ntemps s) ".yaml") w
    /\ Forall wait_event w.
Proof.
  destruct d as [[op ch] src].
  unfold install_dependency, _install_operator, _wait_for_operator_ready.
  unfold named_temporary_file, try_finally, unlink, run, print.
  unfold mbind at 1 2 3 4 5, M_bind, bind, mret, M_ret, ret. simpl.
  destruct (checked _ _) as [out|e]; simpl; [|discriminate].
  match goal with
  | |- _wait_for_operator_ready_loop E op 300 0 ?s3 = _ -> _ =>
      destruct (extends_since wait_event _
                  (_wait_for_operator_ready_loop E op 300 0) s3)
        as (w & Hw & Hall)
  end.
  { apply ext_operator_loop; [intros ?; exact I | reflexivity | reflexivity]. }
  intros Hrun. rewrite Hrun in Hw. simpl in Hw.
  exists w. split; [|exact Hall].
  rewrite Hw. rewrite <- !app_assoc. reflexivity.
Qed.

(** The three cycles, in the order of [dependencies]. *)
Lemma install_dependency_operators_ok s s' :
  _install_dependency_operators E s = (Ok (), s') ->
  exists p1 w1 p2 w2 p3 w3,
    events s'
    = events s
      ++ [EPrint [JStr "Installing dependency operators..."]]
      ++ cycle_events ("authorino-operator", "tech-preview-v1", "redhat-operators") p1 w1
      ++ cycle_events ("servicemeshoperator", "stable", "redhat-operators") p2 w2
      ++ cycle_events ("serverless-operator", "stable", "redhat-operators") p3 w3
    /\ Forall wait_event (w1 ++ w2 ++ w3).
Proof.
  unfold _install_dependency_operators, dependencies. intros H.
  apply bind_ok_inv in H as ([] & s1 & Hp & H). injection Hp as <-.
  cbn [for_each] in H.
  apply bind_ok_inv in H as ([] & s2 & H1 & H).
  apply bind_ok_inv in H as ([] & s3 & H2 & H).
  apply bind_ok_inv in H as ([] & s4 & H3 & H). injection H as <-.
  apply install_dependency_ok in H1 as (w1 & E1 & A1).
  apply install_dependency_ok in H2 as (w2 & E2 & A2).
  apply install_dependency_ok in H3 as (w3 & E3 & A3).
  eexists _, w1, _, w2, _, w3. split.
  - rewrite E3, E2, E1. simpl events at 1.
    rewrite <- !app_assoc. reflexivity.
  - rewrite !Forall_app. auto.
Qed.

End WithInstance.

End AddonFacts.

(** ** The claims of the specification *)

Module Spec.
Import Py Host Models Session HostFacts ClusterFacts AddonFacts Scenario.

#[local] Opaque ClusterManager.wait_for_cluster_ready_loop
  ClusterManager._wait_for_cluster_deleted_loop
  AddonManager._wait_for_addon_ready_loop
  AddonManager._wait_for_operator_ready_loop.

(** *** Cluster deletion *)

(** C1 (a defect of the code).  Once [delete_cluster] has resolved the
    name and the deletion request was accepted, the deletion wait never
    attempts a lookup: every [_get_cluster_id] of the wait is answered from
    the cache that the first resolution filled.  Whatever the control plane
    would answer, the wait sleeps 91 times 60 seconds and raises
    [TimeoutError]; it never returns. *)
Theorem delete_cluster_wait_times_out E ocm name s cid s1 out :
  ClusterManager._get_cluster_id E name s = (Ok (JStr cid), s1) ->
  run_oracle E (ncalls s1) (ClusterManager.delete_cmd ocm cid) = Exited 0 out ->
  exists s',
    ClusterManager.delete_cluster E ocm name s
    = (Raise (TimeoutError ("Cluster " +:+ name +:+ " not deleted after ") 5400),
       s')
    /\ runs (since s1 s') = [ClusterManager.delete_cmd ocm cid]
    /\ sleeps (since s1 s') = replicate 91 60.
Proof.
  intros Hres Hrun.
  destruct (get_cluster_id_ok _ _ _ _ _ Hres) as [Hid Hv].
  unfold ClusterManager.delete_cluster.
  rewrite (bind_ok _ _ _ _ _ _ _ Hres).
  unfold mbind at 1, M_bind, bind, lift. cbn [as_arg].
  unfold mbind at 1, M_bind, bind, run. rewrite Hrun. cbn [checked Z.eqb].
  unfold mbind at 1, M_bind, bind, print, ClusterManager._wait_for_cluster_deleted.
  unfold mbind at 1, M_bind, bind, print.
  rewrite deleted_loop_cached by (cbn [cluster_id log started]; rewrite Hid; exact Hv).
  assert (Hn : polls 5400 60 0 = 91%nat) by (vm_compute; reflexivity).
  rewrite Hn. eexists. split; [reflexivity|].
  match goal with
  | |- context [Nat.iter 91 still_waiting ?s0] =>
      destruct (iter_still_waiting 91 s0) as (_ & _ & He)
  end.
  cbn [events log started] in He. rewrite <- !app_assoc in He.
  rewrite (since_app _ _ _ He), !runs_app, !sleeps_app.
  rewrite runs_waiting, sleeps_waiting. split; reflexivity.
Qed.

(** The failing input of C1: the cluster [demo] is gone from the listing
    as soon as its deletion is submitted, and [delete_cluster] still times
    out. *)
Lemma delete_cluster_wait_times_out_demo :
  ClusterManager._get_cluster_id deleting "demo" fresh
  = (Ok (JStr "abc123"),
     snd (ClusterManager._get_cluster_id deleting "demo" fresh))
  /\ run_oracle deleting 2 (ClusterManager.list_clusters_cmd "demo")
     = Exited 0 ""
  /\ exists s',
       ClusterManager.delete_cluster deleting ocm0 "demo" fresh
       = (Raise (TimeoutError "Cluster demo not deleted after " 5400), s')
       /\ runs (since (snd (ClusterManager._get_cluster_id deleting "demo" fresh))
                  s')
          = [ClusterManager.delete_cmd ocm0 "abc123"]
       /\ sleeps (since (snd (ClusterManager._get_cluster_id deleting "demo" fresh))
                    s')
          = replicate 91 60.
Proof.
  split; [vm_compute; reflexivity|]. split; [vm_compute; reflexivity|].
  apply (delete_cluster_wait_times_out deleting ocm0 "demo" fresh "abc123"
           (snd (ClusterManager._get_cluster_id deleting "demo" fresh)) "");
    vm_compute; reflexivity.
Defined.

(** *** The identity cache *)

(** C2, as stated, fails: [AddonManager._get_cluster_id] has no cache, and
    two resolutions of one name make two lookups, here with two different
    answers; and on a [ClusterManager] a [create_cluster] between two
    resolutions replaces the identifier that was resolved. *)
Lemma resolution_not_always_cached :
  (let s1 := snd (AddonManager._get_cluster_id renamed "demo" fresh) in
   let s2 := snd (AddonManager._get_cluster_id renamed "demo" s1) in
   AddonManager._get_cluster_id renamed "demo" fresh = (Ok "id-one", s1)
   /\ AddonManager._get_cluster_id renamed "demo" s1 = (Ok "id-two", s2)
   /\ runs (since s1 s2) = [ClusterManager.list_clusters_cmd "demo"])
  /\ (let s1 := snd (ClusterManager._get_cluster_id creating "demo" fresh) in
      let s2 := snd (ClusterManager.create_cluster creating ocm0 aws_demo s1) in
      let s3 := snd (ClusterManager._get_cluster_id creating "demo" s2) in
      ClusterManager._get_cluster_id creating "demo" fresh
      = (Ok (JStr "abc123"), s1)
      /\ ClusterManager.create_cluster creating ocm0 aws_demo s1
         = (Ok (JStr "new42"), s2)
      /\ ClusterManager._get_cluster_id creating "demo" s2
         = (Ok (JStr "new42"), s3)).
Proof. vm_compute. repeat split. Qed.

(** C2, amended.  On a [ClusterManager], once a name was resolved, every
    later [_get_cluster_id] call, after any calls of the other methods but
    [create_cluster], returns the identifier that was resolved and leaves
    the state as it is: no lookup is made. *)
Theorem cluster_manager_resolution_cached E ocm name s cid s1 cs name' :
  ClusterManager._get_cluster_id E name s = (Ok cid, s1) ->
  forallb (fun c => negb (is_create c)) cs = true ->
  ClusterManager._get_cluster_id E name' (exec_all E ocm cs s1)
  = (Ok cid, exec_all E ocm cs s1).
Proof.
  intros Hres Hcs. apply get_cluster_id_ok in Hres as [Hid Hv].
  pose proof (keeps_exec_all E ocm cid cs s1 Hv Hcs Hid) as Hkeep.
  unfold holds in Hkeep.
  rewrite get_cluster_id_cached by (rewrite Hkeep; exact Hv).
  rewrite Hkeep. reflexivity.
Qed.

Lemma cluster_manager_resolution_cached_demo :
  ClusterManager._get_cluster_id creating "demo" fresh
  = (Ok (JStr "abc123"),
     snd (ClusterManager._get_cluster_id creating "demo" fresh))
  /\ ClusterManager._get_cluster_id creating "other"
       (exec_all creating ocm0 [GetState (JStr "abc123"); Info "demo"]
          (snd (ClusterManager._get_cluster_id creating "demo" fresh)))
     = (Ok (JStr "abc123"),
        exec_all creating ocm0 [GetState (JStr "abc123"); Info "demo"]
          (snd (ClusterManager._get_cluster_id creating "demo" fresh))).
Proof.
  split; [vm_compute; reflexivity|].
  apply (cluster_manager_resolution_cached creating ocm0 "demo" fresh);
    vm_compute; reflexivity.
Defined.

(** C3, as stated, fails: a [create_cluster] whose response has no [id]
    returns normally and leaves [None] in the cache, and the next
    [_get_cluster_id] makes a lookup. *)
Lemma create_without_id_leaves_no_cache :
  let s1 := snd (ClusterManager.create_cluster no_id ocm0 aws_demo fresh) in
  ClusterManager.create_cluster no_id ocm0 aws_demo fresh = (Ok JNull, s1)
  /\ runs (since s1 (snd (ClusterManager._get_cluster_id no_id "demo" s1)))
     = [ClusterManager.list_clusters_cmd "demo"].
Proof. vm_compute. split; reflexivity. Qed.

(** C3, amended.  The cache of a [ClusterManager] is one identifier, not a
    map from names.  After a [create_cluster] that returned an identifier
    [v] that is true as a Python value, or after a successful resolution
    that returned [v], and after any further calls in which no
    [create_cluster] returns an empty or missing identifier,
    [_get_cluster_id n] returns the cached identifier for every name [n],
    raises nothing and leaves the state as it is (no lookup).  The cached
    identifier is [v] when no [create_cluster] was called since. *)
Theorem cluster_cache_ignores_name E ocm s v s1 cs n :
  (exists config, ClusterManager.create_cluster E ocm config s = (Ok v, s1))
  \/ (exists name, ClusterManager._get_cluster_id E name s = (Ok v, s1)) ->
  truthy v = true ->
  creates_yield_ids E ocm cs s1 ->
  ClusterManager._get_cluster_id E n (exec_all E ocm cs s1)
  = (Ok (cluster_id (exec_all E ocm cs s1)), exec_all E ocm cs s1)
  /\ truthy (cluster_id (exec_all E ocm cs s1)) = true
  /\ (forallb (fun c => negb (is_create c)) cs = true ->
      cluster_id (exec_all E ocm cs s1) = v).
Proof.
  intros Hfirst Hv Hcs.
  assert (Hid : cluster_id s1 = v).
  { destruct Hfirst as [[config H]|[name H]].
    - exact (create_cluster_ok _ _ _ _ _ _ H).
    - exact (proj1 (get_cluster_id_ok _ _ _ _ _ H)). }
  assert (Hs1 : truthy (cluster_id s1) = true) by (rewrite Hid; exact Hv).
  pose proof (exec_all_keeps_truthy E ocm cs s1 Hs1 Hcs) as Hfinal.
  repeat split.
  - apply get_cluster_id_cached. exact Hfinal.
  - exact Hfinal.
  - intros Hnc. exact (keeps_exec_all E ocm v cs s1 Hv Hnc Hid).
Qed.

Lemma cluster_cache_ignores_name_demo :
  ClusterManager.create_cluster creating ocm0 aws_demo fresh
  = (Ok (JStr "new42"),
     snd (ClusterManager.create_cluster creating ocm0 aws_demo fresh))
  /\ ClusterManager._get_cluster_id creating "another-cluster"
       (exec_all creating ocm0 [Info "demo"]
          (snd (ClusterManager.create_cluster creating ocm0 aws_demo fresh)))
     = (Ok (JStr "new42"),
        exec_all creating ocm0 [Info "demo"]
          (snd (ClusterManager.create_cluster creating ocm0 aws_demo fresh))).
Proof.
  split; [vm_compute; reflexivity|].
  refine (proj1 (cluster_cache_ignores_name creating ocm0 fresh (JStr "new42")
                   (snd (ClusterManager.create_cluster creating ocm0 aws_demo fresh))
                   [Info "demo"] "another-cluster" _ _ _)).
  - left. exists aws_demo. vm_compute. reflexivity.
  - reflexivity.
  - split; exact I.
Defined.

(** *** The creation request *)

(** C4.  When the credential set of the chosen provider is present, the
    request body has a credential block under the key of that provider, a
    dictionary with the fields of that credential set, and no key at all
    for the other provider. *)
Theorem cluster_spec_credentials_follow_provider config :
  credentials_match config ->
  match cloud_provider config with
  | Aws =>
      (exists block,
         dict_get "aws" (ClusterManager._generate_cluster_spec config)
         = Some (JObj block)
         /\ map fst block
            = ["access_key_id"; "secret_access_key"; "account_id"; "tags"])
      /\ dict_has "gcp" (ClusterManager._generate_cluster_spec config) = false
  | Gcp =>
      (exists block,
         dict_get "gcp" (ClusterManager._generate_cluster_spec config)
         = Some (JObj block)
         /\ map fst block
            = ["project_id"; "private_key_id"; "private_key"; "client_id";
               "client_email"; "client_x509_cert_url"; "type"; "auth_uri";
               "token_uri"; "auth_provider_x509_cert_url"])
      /\ dict_has "aws" (ClusterManager._generate_cluster_spec config) = false
  end.
Proof.
  unfold credentials_match.
  destruct config as [nm [] rg [cg [vid|]] nd fp mz tm [aws|] [gcp|]]; simpl;
    intros [? ?]; try discriminate;
    unfold ClusterManager._generate_cluster_spec, dict_has; simpl;
    try destruct (negb _); simpl; eauto.
Qed.

Lemma cluster_spec_credentials_follow_provider_demo :
  credentials_match aws_demo
  /\ (exists block,
        dict_get "aws" (ClusterManager._generate_cluster_spec aws_demo)
        = Some (JObj block)
        /\ map fst block
           = ["access_key_id"; "secret_access_key"; "account_id"; "tags"])
  /\ dict_has "gcp" (ClusterManager._generate_cluster_spec aws_demo) = false.
Proof.
  split; [eexists; reflexivity|].
  apply (cluster_spec_credentials_follow_provider aws_demo).
  eexists; reflexivity.
Defined.

(** *** The convergence waits *)

(** C5, as stated, fails: the loops run while the counter is at most the
    timeout, not below it.  With a timeout of 120 seconds and an add-on
    that never becomes ready, the add-on wait still probes when 120 seconds
    have been slept. *)
Lemma addon_wait_probes_at_timeout :
  (forall n, addon_pending silent "abc123" "managed-odh" n)
  /\ probe_times is_list_addons 0
       (since fresh
          (snd (AddonManager._wait_for_addon_ready silent "abc123"
                  "managed-odh" 120 fresh)))
     = [0; 60; 120]
  /\ ~ Forall (fun e => e < 120)
         (probe_times is_list_addons 0
            (since fresh
               (snd (AddonManager._wait_for_addon_ready silent "abc123"
                       "managed-odh" 120 fresh)))).
Proof.
  split.
  { intros n. exists "not installed". vm_compute. auto. }
  assert (H : probe_times is_list_addons 0
                (since fresh
                   (snd (AddonManager._wait_for_addon_ready silent "abc123"
                           "managed-odh" 120 fresh)))
              = [0; 60; 120]) by (vm_compute; reflexivity).
  split; [exact H|]. rewrite H. intros Hall.
  apply Forall_cons in Hall as [_ Hall].
  apply Forall_cons in Hall as [_ Hall].
  apply Forall_cons in Hall as [Hlt _]. lia.
Qed.

(** C5, amended.  When the probe never shows a success or failure state,
    the add-on wait and the cluster wait end in [TimeoutError].  They probe
    at the elapsed times 0, 60, 120, ... that are at most the timeout (one
    probe is made when the elapsed time equals the timeout), sleep 60
    seconds after each probe, and raise once the time slept exceeds the
    timeout: no probe is made after that, and none is skipped before. *)
Theorem wait_polls_until_timeout_exceeded E :
  (forall cid addon timeout s,
      (forall n, (ncalls s <= n)%nat -> addon_pending E cid addon n) ->
      exists s',
        AddonManager._wait_for_addon_ready E cid addon timeout s
        = (Raise (TimeoutError ("Addon '" +:+ addon +:+ "' not ready after ")
                    timeout), s')
        /\ probe_times is_list_addons 0 (since s s')
           = ticks 0 60 (polls timeout 60 0)
        /\ sleeps (since s s') = replicate (polls timeout 60 0) 60
        /\ Forall (fun e => e <= timeout)
             (probe_times is_list_addons 0 (since s s'))
        /\ timeout < 60 * Z.of_nat (polls timeout 60 0))
  /\ (forall name cid timeout s s1,
         ClusterManager._get_cluster_id E name
           (snd (print [JStr "Waiting for cluster to be ready..."] s))
         = (Ok (JStr cid), s1) ->
         (forall n, (ncalls s1 <= n)%nat -> cluster_pending E cid n) ->
         exists s',
           ClusterManager.wait_for_cluster_ready E name timeout s
           = (Raise (TimeoutError ("Cluster " +:+ name +:+ " not ready after ")
                       timeout), s')
           /\ probe_times is_describe 0 (since s s')
              = ticks 0 60 (polls timeout 60 0)
           /\ sleeps (since s s') = replicate (polls timeout 60 0) 60
           /\ Forall (fun e => e <= timeout)
                (probe_times is_describe 0 (since s s'))
           /\ timeout < 60 * Z.of_nat (polls timeout 60 0)).
Proof.
  assert (Hbeyond : forall timeout, timeout < 60 * Z.of_nat (polls timeout 60 0)).
  { intros timeout. destruct (Z_le_gt_dec 0 (timeout + 60)).
    - pose proof (polls_beyond timeout 60 0 ltac:(lia) ltac:(lia)). lia.
    - lia. }
  split.
  - intros cid addon timeout s Hpend.
    unfold AddonManager._wait_for_addon_ready.
    unfold mbind at 1, M_bind, bind, print.
    destruct (addon_loop_pending E cid addon timeout 0
                (log (EPrint [JStr "Waiting for addon '"; JStr addon;
                              JStr "' to be ready..."]) s))
      as (s' & tr & Hrun & Hev & Hticks & Hsl).
    { intros n Hn. apply Hpend. exact Hn. }
    exists s'. cbn [events log] in Hev. rewrite <- app_assoc in Hev.
    rewrite (since_app _ _ _ Hev).
    change (probe_times is_list_addons 0 ([EPrint _] ++ tr))
      with (probe_times is_list_addons 0 tr).
    change (sleeps ([EPrint _] ++ tr)) with (sleeps tr).
    rewrite Hticks, Hsl. repeat split; try assumption.
    + apply ticks_within. lia.
    + apply Hbeyond.
  - intros name cid timeout s s1 Hres Hpend.
    unfold ClusterManager.wait_for_cluster_ready.
    unfold mbind at 1, M_bind, bind.
    change (print [JStr "Waiting for cluster to be ready..."] s)
      with (Ok (), snd (print [JStr "Waiting for cluster to be ready..."] s)).
    cbv iota. rewrite (bind_ok _ _ _ _ _ _ _ Hres).
    destruct (ready_loop_pending E name timeout cid 0 s1 Hpend)
      as (s' & tr & Hrun & Hev & Hticks & Hsl).
    exists s'. split; [exact Hrun|].
    pose proof (get_cluster_id_events E name
                  (snd (print [JStr "Waiting for cluster to be ready..."] s)))
      as Hlook.
    rewrite Hres in Hlook. cbn [snd print events log] in Hlook.
    assert (Hsince : exists pre,
               since s s' = pre ++ tr
               /\ probe_times is_describe 0 (pre ++ tr)
                  = probe_times is_describe 0 tr
               /\ sleeps (pre ++ tr) = sleeps tr).
    { destruct Hlook as [Hl|Hl]; rewrite Hl in Hev.
      - exists [EPrint [JStr "Waiting for cluster to be ready..."]].
        rewrite <- app_assoc in Hev. rewrite (since_app _ _ _ Hev).
        repeat split.
      - exists [EPrint [JStr "Waiting for cluster to be ready..."];
                ERun (ClusterManager.list_clusters_cmd name)].
        rewrite <- !app_assoc in Hev. rewrite (since_app _ _ _ Hev).
        repeat split. }
    destruct Hsince as (pre & -> & -> & ->).
    rewrite Hticks, Hsl. repeat split.
    + apply ticks_within. lia.
    + apply Hbeyond.
Qed.

Lemma wait_polls_until_timeout_exceeded_demo :
  (forall n, (ncalls fresh <= n)%nat ->
             addon_pending silent "abc123" "managed-odh" n)
  /\ exists s',
       AddonManager._wait_for_addon_ready silent "abc123" "managed-odh" 120 fresh
       = (Raise (TimeoutError "Addon 'managed-odh' not ready after " 120), s')
       /\ probe_times is_list_addons 0 (since fresh s')
          = ticks 0 60 (polls 120 60 0)
       /\ sleeps (since fresh s') = replicate (polls 120 60 0) 60
       /\ Forall (fun e => e <= 120)
            (probe_times is_list_addons 0 (since fresh s'))
       /\ 120 < 60 * Z.of_nat (polls 120 60 0).
Proof.
  split.
  - intros n _. exists "not installed". vm_compute. auto.
  - apply (proj1 (wait_polls_until_timeout_exceeded silent)).
    intros n _. exists "not installed". vm_compute. auto.
Defined.

(** C6.  When the first [k - 1] probes of a wait show a state that is
    neither success nor failure and the [k]-th shows the failure state
    ([failed] for an add-on, [error] for a cluster), with the [k]-th probe
    within the timeout, the wait raises [RuntimeError] after exactly [k]
    probes and [k - 1] sleeps of 60 seconds: no further probe, and no
    settle delay of 300 seconds. *)
Theorem wait_fails_at_first_failure_state E :
  (forall cid addon timeout s k,
      (0 < k)%nat -> 60 * (Z.of_nat k - 1) <= timeout ->
      (forall j, (j < k - 1)%nat -> addon_pending E cid addon (ncalls s + j)) ->
      addon_failed E cid addon (ncalls s + (k - 1)) ->
      exists s',
        AddonManager._wait_for_addon_ready E cid addon timeout s
        = (Raise (RuntimeError ("Addon '" +:+ addon +:+ "' installation failed")),
           s')
        /\ runs (since s s') = replicate k (AddonManager.list_addons_cmd cid)
        /\ sleeps (since s s') = replicate (k - 1) 60)
  /\ (forall name cid timeout s s1 k,
         ClusterManager._get_cluster_id E name
           (snd (print [JStr "Waiting for cluster to be ready..."] s))
         = (Ok (JStr cid), s1) ->
         (0 < k)%nat -> 60 * (Z.of_nat k - 1) <= timeout ->
         (forall j, (j < k - 1)%nat -> cluster_pending E cid (ncalls s1 + j)) ->
         cluster_failed E cid (ncalls s1 + (k - 1)) ->
         exists s',
           ClusterManager.wait_for_cluster_ready E name timeout s
           = (Raise (RuntimeError ("Cluster " +:+ name +:+ " is in error state")),
              s')
           /\ runs (since s1 s') = replicate k (ClusterManager.describe_cmd cid)
           /\ sleeps (since s s') = replicate (k - 1) 60).
Proof.
  split.
  - intros cid addon timeout s k Hk Hle Hpend Hfail.
    destruct k as [|k]; [lia|]. replace (S k - 1)%nat with k in * by lia.
    unfold AddonManager._wait_for_addon_ready.
    unfold mbind at 1, M_bind, bind, print.
    destruct (addon_loop_fails E cid addon timeout k 0
                (log (EPrint [JStr "Waiting for addon '"; JStr addon;
                              JStr "' to be ready..."]) s))
      as (s' & tr & Hrun & Hev & Hruns & Hsl); [lia | exact Hpend | exact Hfail |].
    exists s'. cbn [events log] in Hev. rewrite <- app_assoc in Hev.
    rewrite (since_app _ _ _ Hev).
    change (runs ([EPrint _] ++ tr)) with (runs tr).
    change (sleeps ([EPrint _] ++ tr)) with (sleeps tr).
    rewrite Hruns, Hsl. repeat split. exact Hrun.
  - intros name cid timeout s s1 k Hres Hk Hle Hpend Hfail.
    destruct k as [|k]; [lia|]. replace (S k - 1)%nat with k in * by lia.
    unfold ClusterManager.wait_for_cluster_ready.
    unfold mbind at 1, M_bind, bind.
    change (print [JStr "Waiting for cluster to be ready..."] s)
      with (Ok (), snd (print [JStr "Waiting for cluster to be ready..."] s)).
    cbv iota. rewrite (bind_ok _ _ _ _ _ _ _ Hres).
    destruct (ready_loop_fails E name timeout cid k 0 s1)
      as (s' & tr & Hrun & Hev & Hruns & Hsl); [lia | exact Hpend | exact Hfail |].
    exists s'. split; [exact Hrun|]. split.
    + rewrite (since_app _ _ _ Hev). exact Hruns.
    + pose proof (get_cluster_id_events E name
                    (snd (print [JStr "Waiting for cluster to be ready..."] s)))
        as Hlook.
      rewrite Hres in Hlook. cbn [snd print events log] in Hlook.
      destruct Hlook as [Hl|Hl]; rewrite Hl in Hev;
        rewrite <- !app_assoc in Hev; rewrite (since_app _ _ _ Hev);
        rewrite sleeps_app; exact Hsl.
Qed.

Lemma wait_fails_at_first_failure_state_demo :
  (forall j, (j < 2 - 1)%nat ->
             addon_pending failing "abc123" "managed-odh" (ncalls fresh + j))
  /\ addon_failed failing "abc123" "managed-odh" (ncalls fresh + (2 - 1))
  /\ exists s',
       AddonManager._wait_for_addon_ready failing "abc123" "managed-odh" 3600
         fresh
       = (Raise (RuntimeError "Addon 'managed-odh' installation failed"), s')
       /\ runs (since fresh s')
          = replicate 2 (AddonManager.list_addons_cmd "abc123")
       /\ sleeps (since fresh s') = replicate (2 - 1) 60.
Proof.
  assert (Hp : forall j, (j < 2 - 1)%nat ->
                 addon_pending failing "abc123" "managed-odh" (ncalls fresh + j)).
  { intros j Hj. replace j with 0%nat by lia. exists "installing".
    vm_compute. auto. }
  split; [exact Hp|]. split; [vm_compute; reflexivity|].
  apply (proj1 (wait_fails_at_first_failure_state failing)
           "abc123" "managed-odh" 3600 fresh 2%nat);
    [lia | lia | exact Hp | vm_compute; reflexivity].
Defined.

(** *** Operator dependencies *)

Lemma install_dependency_not_ready E d s :
  (forall n cmd, is_apply cmd = true -> exists out, run_oracle E n cmd = Exited 0 out) ->
  (forall op n, operator_not_ready E op n) ->
  exists s', AddonManager.install_dependency E d s = (Ok (), s').
Proof.
  intros Happly Hnot. destruct d as [[op ch] src].
  unfold AddonManager.install_dependency, AddonManager._install_operator,
    AddonManager._wait_for_operator_ready.
  unfold named_temporary_file, try_finally, unlink, run, print.
  unfold mbind at 1 2 3 4 5, M_bind, bind, mret, M_ret, ret.
  cbv beta iota. cbn [ncalls log].
  match goal with
  | |- context [run_oracle E ?n (AddonManager.apply_cmd ?p)] =>
      destruct (Happly n (AddonManager.apply_cmd p) eq_refl) as [out ->]
  end.
  cbn [checked Z.eqb]. cbv beta iota.
  rewrite operator_loop_not_ready by (intros n _; apply Hnot).
  eexists. reflexivity.
Qed.

(** C7.  When no probe of the operator wait shows the operator with phase
    [Succeeded], the wait probes while the elapsed time is at most the
    timeout (31 probes, 10 seconds apart, for the timeout of 300 seconds
    that the dependency installation passes), prints a warning and returns
    normally, so that whatever follows it runs.  Whatever the probes show,
    the wait never raises [TimeoutError]; and when no operator ever becomes
    ready but every [oc apply] succeeds, the installation of the three
    dependencies returns normally. *)
Theorem operator_wait_timeout_is_a_warning E :
  (forall op timeout s,
      (forall n, (ncalls s <= n)%nat -> operator_not_ready E op n) ->
      exists s',
        AddonManager._wait_for_operator_ready E op timeout s = (Ok (), s')
        /\ since s s'
           = [EPrint [JStr "Waiting for "; JStr op; JStr " to be ready..."]]
             ++ concat (replicate (polls timeout 10 0)
                          [ERun AddonManager.get_csv_cmd; ESleep 10])
             ++ [EPrint [JStr "Warning: "; JStr op;
                         JStr " may not be fully ready"]]
        /\ forall A (k : unit -> M A),
            (AddonManager._wait_for_operator_ready E op timeout ≫= k) s
            = k () s')
  /\ polls 300 10 0 = 31%nat
  /\ (forall op timeout s,
         not_timeout (fst (AddonManager._wait_for_operator_ready E op timeout s)))
  /\ (forall s,
         (forall n cmd, is_apply cmd = true ->
                        exists out, run_oracle E n cmd = Exited 0 out) ->
         (forall op n, operator_not_ready E op n) ->
         fst (AddonManager._install_dependency_operators E s) = Ok ()).
Proof.
  split; [|split; [|split]].
  - intros op timeout s Hnot.
    assert (Hrun : AddonManager._wait_for_operator_ready E op timeout s
                   = (Ok (),
                      log (EPrint [JStr "Warning: "; JStr op;
                                   JStr " may not be fully ready"])
                        (Nat.iter (polls timeout 10 0) operator_turn
                           (log (EPrint [JStr "Waiting for "; JStr op;
                                         JStr " to be ready..."]) s)))).
    { unfold AddonManager._wait_for_operator_ready.
      unfold mbind at 1, M_bind, bind, print.
      apply operator_loop_not_ready. intros n Hn. apply Hnot. exact Hn. }
    eexists. split; [exact Hrun|]. split.
    + apply since_app. cbn [events log].
      destruct (iter_operator_turn (polls timeout 10 0)
                  (log (EPrint [JStr "Waiting for "; JStr op;
                                JStr " to be ready..."]) s)) as [_ He].
      rewrite He. cbn [events log]. rewrite <- !app_assoc. reflexivity.
    + intros A k. unfold mbind, M_bind, bind. rewrite Hrun. reflexivity.
  - vm_compute. reflexivity.
  - intros op timeout s. unfold AddonManager._wait_for_operator_ready.
    unfold mbind at 1, M_bind, bind, print. apply operator_loop_not_timeout.
  - intros s Happly Hnot.
    unfold AddonManager._install_dependency_operators, AddonManager.dependencies.
    unfold mbind at 1, M_bind, bind, print. cbn [AddonManager.for_each].
    do 3 (unfold mbind at 1, M_bind, bind;
          match goal with
          | |- context [AddonManager.install_dependency E ?d ?s0] =>
              let H := fresh "H" in
              destruct (install_dependency_not_ready E d s0 Happly Hnot)
                as [? H];
              rewrite H
          end).
    reflexivity.
Qed.

Lemma operator_wait_timeout_is_a_warning_demo :
  (forall n, (ncalls fresh <= n)%nat ->
             operator_not_ready oc_down "authorino-operator" n)
  /\ exists s',
       AddonManager._wait_for_operator_ready oc_down "authorino-operator" 300
         fresh = (Ok (), s')
       /\ since fresh s'
          = [EPrint [JStr "Waiting for "; JStr "authorino-operator";
                     JStr " to be ready..."]]
            ++ concat (replicate (polls 300 10 0)
                         [ERun AddonManager.get_csv_cmd; ESleep 10])
            ++ [EPrint [JStr "Warning: "; JStr "authorino-operator";
                        JStr " may not be fully ready"]]
       /\ forall A (k : unit -> M A),
           (AddonManager._wait_for_operator_ready oc_down "authorino-operator"
              300 ≫= k) fresh
           = k () s'.
Proof.
  split.
  - intros n _. vm_compute. reflexivity.
  - apply (proj1 (operator_wait_timeout_is_a_warning oc_down)).
    intros n _. vm_compute. reflexivity.
Defined.

Lemma addon_get_cluster_id_events E name s :
  events (snd (AddonManager._get_cluster_id E name s))
  = events s ++ [ERun (ClusterManager.list_clusters_cmd name)].
Proof.
  unfold AddonManager._get_cluster_id, run.
  unfold mbind at 1, M_bind, bind.
  destruct (checked _ _) as [out|e]; [|reflexivity].
  destruct (negb _); reflexivity.
Qed.

(** C8.  With [install_dependencies] set, whenever [install_rhods] issues
    the add-on installation request, what it did before is exactly this:
    the name resolution, then one install-and-wait cycle for each of
    [authorino-operator], [servicemeshoperator] and [serverless-operator],
    in this order, each cycle complete (subscription applied, temporary
    file removed, readiness wait over) before the next begins; then the
    request body is written and posted.  Nothing before and nothing after
    is a second [post]. *)
Theorem rhods_dependencies_precede_addon E ocm name config s cmd :
  install_dependencies config = true ->
  ERun cmd ∈ since s (snd (AddonManager.install_rhods E ocm name config s)) ->
  is_post cmd = true ->
  exists cid p1 w1 p2 w2 p3 w3 p rest,
    since s (snd (AddonManager.install_rhods E ocm name config s))
    = [ EPrint [JStr "Installing RHODS on cluster: "; JStr name];
        ERun (ClusterManager.list_clusters_cmd name);
        EPrint [JStr "Installing dependency operators..."] ]
      ++ cycle_events ("authorino-operator", "tech-preview-v1", "redhat-operators")
           p1 w1
      ++ cycle_events ("servicemeshoperator", "stable", "redhat-operators") p2 w2
      ++ cycle_events ("serverless-operator", "stable", "redhat-operators") p3 w3
      ++ [ ECreate p (AddonManager.rhods_addon_spec cid config);
           ERun (AddonManager.addon_post_cmd ocm cid p) ]
      ++ rest
    /\ Forall wait_event (w1 ++ w2 ++ w3)
    /\ Forall no_post rest.
Proof.
  intros Hdep.
  remember (AddonManager.install_rhods E ocm name config s) as result eqn:Hrun.
  unfold AddonManager.install_rhods in Hrun. rewrite Hdep in Hrun.
  unfold mbind at 1, M_bind, bind, print in Hrun. cbv beta iota in Hrun.
  set (s0 := log (EPrint [JStr "Installing RHODS on cluster: "; JStr name]) s)
    in Hrun.
  pose proof (addon_get_cluster_id_events E name s0) as Hev1.
  unfold mbind at 1, M_bind, bind in Hrun.
  destruct (AddonManager._get_cluster_id E name s0) as [[cid|e] s1];
    cbn [snd] in Hev1.
  2:{ subst result. cbn [snd]. intros Hin Hpost. exfalso.
      rewrite (since_app s s1 _ (eq_trans Hev1 (eq_sym (app_assoc _ _ _)))) in Hin.
      assert (Hall : Forall no_post
                [EPrint [JStr "Installing RHODS on cluster: "; JStr name];
                 ERun (ClusterManager.list_clusters_cmd name)])
        by (repeat constructor).
      rewrite (no_post_run _ _ Hall Hin) in Hpost. discriminate. }
  unfold mbind at 1, M_bind, bind in Hrun.
  destruct (extends_since no_post _ (AddonManager._install_dependency_operators E) s1
              (ext_install_dependency_operators E s1)) as (tr2 & Hev2 & Hall2).
  destruct (AddonManager._install_dependency_operators E s1) as [[[]|e] s2] eqn:Hdeps;
    cbn [snd] in Hev2.
  2:{ subst result. cbn [snd]. intros Hin Hpost. exfalso.
      assert (Hev : events s2
                    = events s
                      ++ ([EPrint [JStr "Installing RHODS on cluster: "; JStr name];
                           ERun (ClusterManager.list_clusters_cmd name)] ++ tr2)).
      { rewrite Hev2, Hev1. subst s0. cbn [events log].
        rewrite <- !app_assoc. reflexivity. }
      rewrite (since_app s s2 _ Hev) in Hin.
      assert (Hall : Forall no_post
                ([EPrint [JStr "Installing RHODS on cluster: "; JStr name];
                  ERun (ClusterManager.list_clusters_cmd name)] ++ tr2)).
      { apply Forall_app. split; [repeat constructor | exact Hall2]. }
      rewrite (no_post_run _ _ Hall Hin) in Hpost. discriminate. }
  intros _ _.
  apply install_dependency_operators_ok in Hdeps
    as (p1 & w1 & p2 & w2 & p3 & w3 & Hcyc & Hw).
  set (tail := fun _ : unit =>
         AddonManager._wait_for_addon_ready E cid (addon_name config) 3600;;
         print [JStr "RHODS installation completed"];;
         print [JStr "Waiting additional 5 minutes for services to stabilize..."];;
         sleep 300) in Hrun.
  set (p := tmp_oracle E (ntemps s2) ".json").
  assert (Hrest : exists rest,
             events (snd ((AddonManager._install_addon E ocm cid
                             (AddonManager.rhods_addon_spec cid config) ≫= tail) s2))
             = events s2
               ++ [ECreate p (AddonManager.rhods_addon_spec cid config);
                   ERun (AddonManager.addon_post_cmd ocm cid p)] ++ rest
             /\ Forall no_post rest).
  { assert (Htail : forall s3, preserves (extends_with no_post s3) (tail ())).
    { intros s3. unfold tail. apply preserves_bind;
        [apply ext_wait_for_addon_ready | intros _; repeat ext_step]. }
    unfold AddonManager._install_addon, named_temporary_file, try_finally,
      unlink, run.
    unfold mbind at 1 2 3, M_bind, bind, mret, M_ret, ret. cbv beta iota.
    cbn [ncalls]. fold p.
    destruct (checked _ _) as [out|e]; cbv beta iota.
    - match goal with
      | |- context [tail () ?st] =>
          destruct (extends_since no_post _ (tail ()) st (Htail st))
            as (tr4 & Hev4 & Hall4)
      end.
      exists (EUnlink p :: tr4). split.
      + rewrite Hev4. unfold started. cbn [events].
        rewrite <- !app_assoc. reflexivity.
      + constructor; [exact I | exact Hall4].
    - exists [EUnlink p]. split.
      + unfold started. cbn [snd events]. rewrite <- !app_assoc. reflexivity.
      + repeat constructor. }
  destruct Hrest as (rest & Hev3 & Hall3).
  exists cid, p1, w1, p2, w2, p3, w3, p, rest. split; [|split; assumption].
  apply since_app. subst result.
  etransitivity; [exact Hev3|].
  rewrite Hcyc, Hev1. subst s0. cbn [events log].
  rewrite <- !app_assoc. reflexivity.
Qed.

Lemma rhods_dependencies_precede_addon_demo :
  install_dependencies rhods_demo = true
  /\ is_post (AddonManager.addon_post_cmd ocm0 "abc123" "/tmp/tmp3.json") = true
  /\ exists cid p1 w1 p2 w2 p3 w3 p rest,
       since fresh (snd (AddonManager.install_rhods healthy ocm0 "demo"
                           rhods_demo fresh))
       = [ EPrint [JStr "Installing RHODS on cluster: "; JStr "demo"];
           ERun (ClusterManager.list_clusters_cmd "demo");
           EPrint [JStr "Installing dependency operators..."] ]
         ++ cycle_events ("authorino-operator", "tech-preview-v1",
                          "redhat-operators") p1 w1
         ++ cycle_events ("servicemeshoperator", "stable", "redhat-operators")
              p2 w2
         ++ cycle_events ("serverless-operator", "stable", "redhat-operators")
              p3 w3
         ++ [ ECreate p (AddonManager.rhods_addon_spec cid rhods_demo);
              ERun (AddonManager.addon_post_cmd ocm0 cid p) ]
         ++ rest
       /\ Forall wait_event (w1 ++ w2 ++ w3)
       /\ Forall no_post rest.
Proof.
  split; [reflexivity|]. split; [reflexivity|].
  apply (rhods_dependencies_precede_addon healthy ocm0 "demo" rhods_demo fresh
           (AddonManager.addon_post_cmd ocm0 "abc123" "/tmp/tmp3.json"));
    [reflexivity | | reflexivity].
  apply (list_elem_of_lookup_2 _ 208). vm_compute. reflexivity.
Defined.

(** *** Machine pools *)

(** C9.  With [reuse_existing] set, when the name resolves and the
    machine-pool listing contains the requested pool name as a substring,
    [add_machine_pool] returns after the two listing calls: it runs no
    [create machinepool] command and does not sleep.  And there is an input
    without such a pool on which it runs exactly one [create machinepool]
    command and then sleeps 60 seconds. *)
Theorem machine_pool_reuse_short_circuit :
  (forall E ocm name config s out1 out2,
      reuse_existing config = true ->
      run_oracle E (ncalls s) (ClusterManager.list_clusters_cmd name)
      = Exited 0 out1 ->
      strip out1 <> "" ->
      run_oracle E (S (ncalls s)) (AddonManager.list_machinepools_cmd (strip out1))
      = Exited 0 out2 ->
      contains (pool_name config) out2 = true ->
      exists s',
        AddonManager.add_machine_pool E ocm name config s = (Ok (), s')
        /\ since s s'
           = [ EPrint [JStr "Adding machine pool '"; JStr (pool_name config);
                       JStr "' to cluster: "; JStr name];
               ERun (ClusterManager.list_clusters_cmd name);
               ERun (AddonManager.list_machinepools_cmd (strip out1));
               EPrint [JStr "Machine pool '"; JStr (pool_name config);
                       JStr "' already exists, reusing it"] ])
  /\ (exists E ocm name config s,
         reuse_existing config = true
         /\ fst (AddonManager.add_machine_pool E ocm name config s) = Ok ()
         /\ filter (fun cmd => is_create_machinepool cmd = true)
              (runs (since s (snd (AddonManager.add_machine_pool E ocm name
                                     config s))))
            = [AddonManager.create_machinepool_cmd ocm "abc123" config]
         /\ exists pre,
             since s (snd (AddonManager.add_machine_pool E ocm name config s))
             = pre
               ++ [ ERun (AddonManager.create_machinepool_cmd ocm "abc123" config);
                    EPrint [JStr "Machine pool '"; JStr (pool_name config);
                            JStr "' added successfully"];
                    ESleep 60 ]
             /\ sleeps pre = []).
Proof.
  split.
  - intros E ocm name config s out1 out2 Hreuse Hlist Hid Hpools Hin.
    unfold AddonManager.add_machine_pool, AddonManager._get_cluster_id,
      AddonManager._machine_pool_exists, run, print.
    unfold mbind, M_bind, bind, mret, M_ret, ret. cbv beta iota.
    cbn [ncalls log]. rewrite Hlist. cbn [checked Z.eqb].
    assert (Ht : truthy (JStr (strip out1)) = true).
    { cbn [truthy]. apply negb_true_iff, String.eqb_neq. exact Hid. }
    rewrite Ht. cbn [negb]. rewrite Hreuse. cbn [ncalls started log].
    rewrite Hpools. cbn [checked Z.eqb]. rewrite Hin.
    eexists. split; [reflexivity|].
    apply since_app. cbn [events log started]. rewrite <- !app_assoc.
    reflexivity.
  - exists healthy, ocm0, "demo", pool_new, fresh.
    split; [reflexivity|]. split; [vm_compute; reflexivity|].
    split; [vm_compute; reflexivity|].
    exists [ EPrint [JStr "Adding machine pool '"; JStr "fresh-pool";
                     JStr "' to cluster: "; JStr "demo"];
             ERun (ClusterManager.list_clusters_cmd "demo");
             ERun (AddonManager.list_machinepools_cmd "abc123") ].
    split; vm_compute; reflexivity.
Qed.

Lemma machine_pool_reuse_short_circuit_demo :
  reuse_existing pool_demo = true
  /\ strip "abc123" <> ""
  /\ contains (pool_name pool_demo) "ID  gpunode  g4dn.xlarge" = true
  /\ exists s',
       AddonManager.add_machine_pool healthy ocm0 "demo" pool_demo fresh
       = (Ok (), s')
       /\ since fresh s'
          = [ EPrint [JStr "Adding machine pool '"; JStr (pool_name pool_demo);
                      JStr "' to cluster: "; JStr "demo"];
              ERun (ClusterManager.list_clusters_cmd "demo");
              ERun (AddonManager.list_machinepools_cmd (strip "abc123"));
              EPrint [JStr "Machine pool '"; JStr (pool_name pool_demo);
                      JStr "' already exists, reusing it"] ].
Proof.
  split; [reflexivity|]. split; [vm_compute; discriminate|].
  split; [vm_compute; reflexivity|].
  apply (proj1 machine_pool_reuse_short_circuit healthy ocm0 "demo" pool_demo
           fresh "abc123" "ID  gpunode  g4dn.xlarge");
    first [ reflexivity | vm_compute; discriminate | vm_compute; reflexivity ].
Defined.

(** *** Temporary files *)

(** C10.  The temporary file that holds a request body is gone when the
    call is over, whether the command succeeded, failed or could not be
    started, and whether the response could be decoded or not: after
    [create_cluster], [_install_addon] and [_install_operator] the files on
    disk are those from before the call without the path of the temporary
    file. *)
Theorem temporary_files_removed E ocm :
  (forall config s,
      files (snd (ClusterManager.create_cluster E ocm config s))
      = delete (tmp_oracle E (ntemps s) ".json") (files s))
  /\ (forall cid doc s,
         files (snd (AddonManager._install_addon E ocm cid doc s))
         = delete (tmp_oracle E (ntemps s) ".json") (files s))
  /\ (forall op channel source s,
         files (snd (AddonManager._install_operator E op channel source s))
         = delete (tmp_oracle E (ntemps s) ".yaml") (files s))
  /\ (forall config cid doc op channel source s,
         files (snd (ClusterManager.create_cluster E ocm config s))
           !! tmp_oracle E (ntemps s) ".json" = None
         /\ files (snd (AddonManager._install_addon E ocm cid doc s))
              !! tmp_oracle E (ntemps s) ".json" = None
         /\ files (snd (AddonManager._install_operator E op channel source s))
              !! tmp_oracle E (ntemps s) ".yaml" = None).
Proof.
  assert (H1 : forall config s,
             files (snd (ClusterManager.create_cluster E ocm config s))
             = delete (tmp_oracle E (ntemps s) ".json") (files s)).
  { intros config s.
    unfold ClusterManager.create_cluster, named_temporary_file, try_finally,
      run, unlink, loads, lift, print, set_cluster_id_attr, get_cluster_id_attr.
    unfold mbind, M_bind, bind, mret, M_ret, ret, raise. cbv beta iota.
    cbn [ntemps log ncalls].
    destruct (checked _ _); cbv beta iota;
      [|cbn [snd files started]; apply delete_insert_eq].
    destruct (json_loads _ _); cbv beta iota;
      [|cbn [snd files started]; apply delete_insert_eq].
    destruct (get _ _ _); cbv beta iota;
      cbn [snd files started log]; apply delete_insert_eq. }
  assert (H2 : forall cid doc s,
             files (snd (AddonManager._install_addon E ocm cid doc s))
             = delete (tmp_oracle E (ntemps s) ".json") (files s)).
  { intros cid doc s.
    unfold AddonManager._install_addon, named_temporary_file, try_finally,
      run, unlink.
    unfold mbind, M_bind, bind, mret, M_ret, ret. cbv beta iota.
    destruct (checked _ _); cbv beta iota;
      cbn [snd files started]; apply delete_insert_eq. }
  assert (H3 : forall op channel source s,
             files (snd (AddonManager._install_operator E op channel source s))
             = delete (tmp_oracle E (ntemps s) ".yaml") (files s)).
  { intros op channel source s.
    unfold AddonManager._install_operator, named_temporary_file, try_finally,
      run, unlink.
    unfold mbind, M_bind, bind, mret, M_ret, ret. cbv beta iota.
    destruct (checked _ _); cbv beta iota;
      cbn [snd files started]; apply delete_insert_eq. }
  split; [exact H1|]. split; [exact H2|]. split; [exact H3|].
  intros config cid doc op channel source s.
  rewrite H1, H2, H3. repeat split; apply lookup_delete_eq.
Qed.

End Spec.

(** ** Facts about strings and scans *)

Module ScanFacts.
Import Py Host Models Session Observed.

Lemma has_space_app a b : has_space (a +:+ b) = has_space a || has_space b.
Proof.
  induction a as [|c a IH]; simpl; [reflexivity|].
  rewrite IH, orb_assoc. reflexivity.
Qed.

(** The fields of [str.split()] are not empty and have no white space. *)
Lemma split_ws_aux_fields cur s :
  has_space cur = false ->
  Forall (fun w => w <> "" /\ has_space w = false) (split_ws_aux cur s).
Proof.
  revert cur. induction s as [|c s IH]; intros cur Hcur; simpl.
  - destruct (String.eqb_spec cur ""); [constructor|].
    repeat constructor; assumption.
  - destruct (is_space c) eqn:Hc.
    + destruct (String.eqb_spec cur "").
      * apply IH. reflexivity.
      * constructor; [split; assumption|]. apply IH. reflexivity.
    + apply IH. rewrite has_space_app, Hcur. simpl. rewrite Hc. reflexivity.
Qed.

Lemma split_ws_fields s :
  Forall (fun w => w <> "" /\ has_space w = false) (split_ws s).
Proof. apply split_ws_aux_fields. reflexivity. Qed.





(** *** The add-on listing *)

Lemma scan_addon_lines_not_installed addon lines :
  AddonManager.scan_addon_lines addon lines = "not installed"
  <-> Forall (fun line => usable_line addon line = false) lines.
Proof.
  induction lines as [|line lines IH]; simpl.
  - split; [constructor | reflexivity].
  - rewrite Forall_cons, <- IH. unfold usable_line.
    destruct (contains addon line); simpl; [|tauto].
    pose proof (split_ws_fields (strip line)) as Hf.
    destruct (split_ws (strip line)) as [|w1 [|w2 ws]]; simpl; [tauto|tauto|].
    apply Forall_cons in Hf as [_ Hf].
    apply Forall_cons in Hf as [[_ Hs] _].
    split; [intros ->; discriminate | intros [? _]; discriminate].
Qed.

Lemma scan_addon_lines_token addon lines :
  AddonManager.scan_addon_lines addon lines = "not installed"
  \/ (AddonManager.scan_addon_lines addon lines <> ""
      /\ has_space (AddonManager.scan_addon_lines addon lines) = false).
Proof.
  induction lines as [|line lines IH]; simpl; [left; reflexivity|].
  destruct (contains addon line); [|exact IH].
  pose proof (split_ws_fields (strip line)) as Hf.
  destruct (split_ws (strip line)) as [|w1 [|w2 ws]]; [exact IH | exact IH |].
  right. apply Forall_cons in Hf as [_ Hf].
  apply Forall_cons in Hf as [Hw _]. exact Hw.
Qed.

(** *** Letter case *)

Lemma lower_char_not_upper c : is_upper (lower_char c) = false.
Proof.
  unfold lower_char, is_upper.
  destruct ((65 <=? nat_of_ascii c)%nat && (nat_of_ascii c <=? 90)%nat) eqn:Hu.
  - apply andb_true_iff in Hu as [H1 H2].
    apply Nat.leb_le in H1. apply Nat.leb_le in H2.
    rewrite nat_ascii_embedding by lia.
    apply andb_false_iff. right. apply Nat.leb_gt. lia.
  - exact Hu.
Qed.

Lemma lower_no_upper s : has_upper (lower s) = false.
Proof.
  induction s as [|c s IH]; simpl; [reflexivity|].
  rewrite lower_char_not_upper, IH. reflexivity.
Qed.

Lemma prefix_upper sub s :
  String.prefix sub s = true -> has_upper s = false -> has_upper sub = false.
Proof.
  revert s. induction sub as [|c sub IH]; intros s Hp Hs; [reflexivity|].
  destruct s as [|d s]; simpl in Hp; [discriminate|].
  destruct (ascii_dec c d) as [->|]; [|discriminate].
  simpl in *. apply orb_false_iff in Hs as [Hd Hs].
  rewrite Hd. simpl. exact (IH s Hp Hs).
Qed.

Lemma contains_upper sub s :
  contains sub s = true -> has_upper s = false -> has_upper sub = false.
Proof.
  induction s as [|d s IH]; simpl.
  - rewrite orb_false_r. intros Hp _. exact (prefix_upper sub "" Hp eq_refl).
  - intros Hc Hs. apply orb_true_iff in Hc as [Hp|Hc].
    + exact (prefix_upper sub (String d s) Hp Hs).
    + apply orb_false_iff in Hs as [_ Hs]. exact (IH Hc Hs).
Qed.

Lemma upper_never_contained op name :
  has_upper op = true -> contains op (lower name) = false.
Proof.
  intros Hop. destruct (contains op (lower name)) eqn:Hc; [|reflexivity].
  rewrite (contains_upper _ _ Hc (lower_no_upper name)) in Hop. discriminate.
Qed.

Lemma scan_csvs_upper op items b :
  has_upper op = true -> AddonManager.scan_csvs op items = Ok b -> b = false.
Proof.
  intros Hop. induction items as [|csv items IH]; simpl.
  - intros [= <-]. reflexivity.
  - unfold mbind, res_bind.
    destruct (get csv "metadata" _) as [md|e]; [|discriminate].
    destruct (get md "name" _) as [nm|e]; [|discriminate].
    destruct nm as [| | |nm| |]; simpl; try discriminate.
    rewrite (upper_never_contained op nm Hop). exact IH.
Qed.

End ScanFacts.

(** ** Further facts about the waits *)

Module WaitFacts.
Import Py Host Models Session Observed HostFacts ClusterFacts AddonFacts.

#[local] Opaque ClusterManager.wait_for_cluster_ready_loop
  ClusterManager._wait_for_cluster_deleted_loop
  AddonManager._wait_for_addon_ready_loop
  AddonManager._wait_for_operator_ready_loop
  AddonManager._wait_for_addon_uninstalled_loop.

Lemma turns_runs cmd step k tr :
  turns cmd step k tr -> runs tr = replicate k cmd /\ sleeps tr = replicate k step.
Proof.
  induction 1 as [|k parts tr _ [IHr IHs]]; [split; reflexivity|].
  split; simpl; [rewrite IHr | rewrite IHs]; reflexivity.
Qed.

Lemma turns_app cmd step k tr parts :
  turns cmd step k tr ->
  turns cmd step (S k) (tr ++ [ERun cmd; EPrint parts; ESleep step]).
Proof.
  induction 1 as [|k p tr _ IH]; simpl.
  - repeat constructor.
  - constructor. exact IH.
Qed.

Section WithInstance.
Variable E : environment.
Variable ocm_config : OCMConfig.

(** The readiness wait passes over [k] probes that show a state that is
    neither [ready] nor [error]. *)
Lemma ready_loop_skip name timeout cid :
  forall k count s,
    count + 60 * Z.of_nat k <= timeout + 60 ->
    (forall j, (j < k)%nat -> cluster_pending E cid (ncalls s + j)) ->
    exists s1 tr,
      ClusterManager.wait_for_cluster_ready_loop E name timeout (JStr cid) count s
      = ClusterManager.wait_for_cluster_ready_loop E name timeout (JStr cid)
          (count + 60 * Z.of_nat k) s1
      /\ events s1 = events s ++ tr
      /\ ncalls s1 = (ncalls s + k)%nat
      /\ cluster_id s1 = cluster_id s
      /\ turns (ClusterManager.describe_cmd cid) 60 k tr.
Proof.
  induction k as [|k IH]; intros count s Hle Hpend.
  - exists s, []. rewrite app_nil_r, Z.mul_0_r, Z.add_0_r, Nat.add_0_r.
    repeat split. constructor.
  - destruct (Hpend 0%nat ltac:(lia)) as (st & Hst & Hr & He).
    rewrite Nat.add_0_r in Hst.
    assert (Hturn : ClusterManager.wait_for_cluster_ready_loop E name timeout
                      (JStr cid) count s
                    = ClusterManager.wait_for_cluster_ready_loop E name timeout
                        (JStr cid) (count + 60)
                        (log (ESleep 60)
                           (log (EPrint [JStr "Cluster state: "; st;
                                         JStr ". Waiting..."])
                              (started (ClusterManager.describe_cmd cid) s)))).
    { rewrite ready_loop_unfold. destruct (decide (count <= timeout)); [|lia].
      unfold mbind at 1, M_bind, bind.
      rewrite get_cluster_state_run, Hst, Hr, He. reflexivity. }
    destruct (IH (count + 60)
                (log (ESleep 60)
                   (log (EPrint [JStr "Cluster state: "; st; JStr ". Waiting..."])
                      (started (ClusterManager.describe_cmd cid) s))))
      as (s1 & tr & Hrun & Hev & Hn & Hc & Ht).
    { lia. }
    { intros j Hj. cbn [ncalls log started].
      replace (S (ncalls s) + j)%nat with (ncalls s + S j)%nat by lia.
      apply Hpend. lia. }
    exists s1, (ERun (ClusterManager.describe_cmd cid)
                :: EPrint [JStr "Cluster state: "; st; JStr ". Waiting..."]
                :: ESleep 60 :: tr).
    repeat split.
    + rewrite Hturn, Hrun. f_equal. lia.
    + rewrite Hev. cbn [events log started]. rewrite <- !app_assoc. reflexivity.
    + rewrite Hn. cbn [ncalls log started]. lia.
    + rewrite Hc. reflexivity.
    + constructor. exact Ht.
Qed.

Lemma addon_loop_skip cid addon timeout :
  forall k count s,
    count + 60 * Z.of_nat k <= timeout + 60 ->
    (forall j, (j < k)%nat -> addon_pending E cid addon (ncalls s + j)) ->
    exists s1 tr,
      AddonManager._wait_for_addon_ready_loop E cid addon timeout count s
      = AddonManager._wait_for_addon_ready_loop E cid addon timeout
          (count + 60 * Z.of_nat k) s1
      /\ events s1 = events s ++ tr
      /\ ncalls s1 = (ncalls s + k)%nat
      /\ turns (AddonManager.list_addons_cmd cid) 60 k tr.
Proof.
  induction k as [|k IH]; intros count s Hle Hpend.
  - exists s, []. rewrite app_nil_r, Z.mul_0_r, Z.add_0_r, Nat.add_0_r.
    repeat split. constructor.
  - destruct (Hpend 0%nat ltac:(lia)) as (st & Hst & Hr & He).
    rewrite Nat.add_0_r in Hst.
    assert (Hturn : AddonManager._wait_for_addon_ready_loop E cid addon timeout
                      count s
                    = AddonManager._wait_for_addon_ready_loop E cid addon timeout
                        (count + 60)
                        (log (ESleep 60)
                           (log (EPrint [JStr "Addon state: "; JStr st;
                                         JStr ". Waiting..."])
                              (started (AddonManager.list_addons_cmd cid) s)))).
    { rewrite addon_loop_unfold. destruct (decide (count <= timeout)); [|lia].
      unfold mbind at 1, M_bind, bind.
      rewrite get_addon_state_run, Hst, Hr, He. reflexivity. }
    destruct (IH (count + 60)
                (log (ESleep 60)
                   (log (EPrint [JStr "Addon state: "; JStr st;
                                 JStr ". Waiting..."])
                      (started (AddonManager.list_addons_cmd cid) s))))
      as (s1 & tr & Hrun & Hev & Hn & Ht).
    { lia. }
    { intros j Hj. cbn [ncalls log started].
      replace (S (ncalls s) + j)%nat with (ncalls s + S j)%nat by lia.
      apply Hpend. lia. }
    exists s1, (ERun (AddonManager.list_addons_cmd cid)
                :: EPrint [JStr "Addon state: "; JStr st; JStr ". Waiting..."]
                :: ESleep 60 :: tr).
    repeat split.
    + rewrite Hturn, Hrun. f_equal. lia.
    + rewrite Hev. cbn [events log started]. rewrite <- !app_assoc. reflexivity.
    + rewrite Hn. cbn [ncalls log started]. lia.
    + constructor. exact Ht.
Qed.

Lemma uninstalled_loop_unfold cid addon timeout count :
  AddonManager._wait_for_addon_uninstalled_loop E cid addon timeout count =
  if decide (count <= timeout) then
    state ← AddonManager._get_addon_state_by_id E cid addon;
    if String.eqb state "not installed" then
      print [JStr "Addon '"; JStr addon; JStr "' uninstalled successfully"];;
      ret ()
    else
      print [JStr "Addon state: "; JStr state; JStr ". Waiting..."];;
      sleep 60;;
      AddonManager._wait_for_addon_uninstalled_loop E cid addon timeout
        (count + 60)
  else raise (TimeoutError ("Addon '" +:+ addon +:+ "' not uninstalled after ")
                timeout).
Proof.
  rewrite AddonManager._wait_for_addon_uninstalled_loop_equation_1.
  destruct (Z_le_gt_dec count timeout); destruct (decide _); try lia;
    reflexivity.
Qed.

Lemma uninstalled_loop_skip cid addon timeout :
  forall k count s,
    count + 60 * Z.of_nat k <= timeout + 60 ->
    (forall j, (j < k)%nat -> addon_listed E cid addon (ncalls s + j)) ->
    exists s1 tr,
      AddonManager._wait_for_addon_uninstalled_loop E cid addon timeout count s
      = AddonManager._wait_for_addon_uninstalled_loop E cid addon timeout
          (count + 60 * Z.of_nat k) s1
      /\ events s1 = events s ++ tr
      /\ ncalls s1 = (ncalls s + k)%nat
      /\ turns (AddonManager.list_addons_cmd cid) 60 k tr.
Proof.
  induction k as [|k IH]; intros count s Hle Hpend.
  - exists s, []. rewrite app_nil_r, Z.mul_0_r, Z.add_0_r, Nat.add_0_r.
    repeat split. constructor.
  - destruct (Hpend 0%nat ltac:(lia)) as (st & Hst & Hr).
    rewrite Nat.add_0_r in Hst.
    assert (Hturn : AddonManager._wait_for_addon_uninstalled_loop E cid addon
                      timeout count s
                    = AddonManager._wait_for_addon_uninstalled_loop E cid addon
                        timeout (count + 60)
                        (log (ESleep 60)
                           (log (EPrint [JStr "Addon state: "; JStr st;
                                         JStr ". Waiting..."])
                              (started (AddonManager.list_addons_cmd cid) s)))).
    { rewrite uninstalled_loop_unfold.
      destruct (decide (count <= timeout)); [|lia].
      unfold mbind at 1, M_bind, bind.
      rewrite get_addon_state_run, Hst, Hr. reflexivity. }
    destruct (IH (count + 60)
                (log (ESleep 60)
                   (log (EPrint [JStr "Addon state: "; JStr st;
                                 JStr ". Waiting..."])
                      (started (AddonManager.list_addons_cmd cid) s))))
      as (s1 & tr & Hrun & Hev & Hn & Ht).
    { lia. }
    { intros j Hj. cbn [ncalls log started].
      replace (S (ncalls s) + j)%nat with (ncalls s + S j)%nat by lia.
      apply Hpend. lia. }
    exists s1, (ERun (AddonManager.list_addons_cmd cid)
                :: EPrint [JStr "Addon state: "; JStr st; JStr ". Waiting..."]
                :: ESleep 60 :: tr).
    repeat split.
    + rewrite Hturn, Hrun. f_equal. lia.
    + rewrite Hev. cbn [events log started]. rewrite <- !app_assoc. reflexivity.
    + rewrite Hn. cbn [ncalls log started]. lia.
    + constructor. exact Ht.
Qed.

(** The uninstall wait has no failure state. *)
Lemma uninstalled_loop_no_runtime_error cid addon timeout :
  forall count s e s',
    AddonManager._wait_for_addon_uninstalled_loop E cid addon timeout count s
    = (Raise e, s') ->
    is_RuntimeError e = false.
Proof.
  apply (poll_ind 60 timeout (fun count => forall s e s', _ -> _)); [lia|].
  intros count IH s e s'. rewrite uninstalled_loop_unfold.
  destruct (decide (count <= timeout)) as [Hle|Hgt].
  - unfold mbind at 1, M_bind, bind. rewrite get_addon_state_run.
    unfold addon_state_reply, mbind, res_bind.
    destruct (run_oracle E (ncalls s) _) as [code out|]; cbn [checked].
    + destruct (code =? 0).
      * destruct (String.eqb _ "not installed").
        -- discriminate.
        -- apply IH. exact Hle.
      * intros [= <- _]. reflexivity.
    + intros [= <- _]. reflexivity.
  - intros [= <- _]. reflexivity.
Qed.

(** The operator wait passes over [k] probes that do not show the
    operator with phase [Succeeded]. *)
Lemma operator_loop_skip op timeout :
  forall k count s,
    count + 10 * Z.of_nat k <= timeout + 10 ->
    (forall j, (j < k)%nat -> operator_not_ready E op (ncalls s + j)) ->
    AddonManager._wait_for_operator_ready_loop E op timeout count s
    = AddonManager._wait_for_operator_ready_loop E op timeout
        (count + 10 * Z.of_nat k) (Nat.iter k operator_turn s).
Proof.
  induction k as [|k IH]; intros count s Hle Hnot.
  - rewrite Z.mul_0_r, Z.add_0_r. reflexivity.
  - rewrite Nat.iter_succ_r.
    replace (count + 10 * Z.of_nat (S k)) with (count + 10 + 10 * Z.of_nat k)
      by lia.
    rewrite <- (IH (count + 10) (operator_turn s)).
    + rewrite (operator_loop_unfold E op timeout count).
      destruct (decide (count <= timeout)); [|lia].
      unfold mbind at 1, M_bind, bind. rewrite csv_probe_run.
      pose proof (Hnot 0%nat ltac:(lia)) as H0. rewrite Nat.add_0_r in H0.
      unfold operator_not_ready in H0. rewrite H0. cbv beta iota.
      reflexivity.
    + lia.
    + intros j Hj. unfold operator_turn. cbn [ncalls log started].
      replace (S (ncalls s) + j)%nat with (ncalls s + S j)%nat by lia.
      apply Hnot. lia.
Qed.

End WithInstance.

End WaitFacts.

(** ** Further properties of the managers *)

Module Extra.
Import Py Host Models Session Observed Scenario.
Import HostFacts ClusterFacts AddonFacts ScanFacts WaitFacts.

#[local] Opaque ClusterManager.wait_for_cluster_ready_loop
  ClusterManager._wait_for_cluster_deleted_loop
  AddonManager._wait_for_addon_ready_loop
  AddonManager._wait_for_operator_ready_loop
  AddonManager._wait_for_addon_uninstalled_loop.

(** *** Name resolution *)

Lemma addon_lookup_blank E name s out :
  run_oracle E (ncalls s) (ClusterManager.list_clusters_cmd name) = Exited 0 out ->
  strip out = "" ->
  AddonManager._get_cluster_id E name s
  = (Raise (ValueError ("Cluster not found: " +:+ name)),
     started (ClusterManager.list_clusters_cmd name) s).
Proof.
  intros Hrun Hblank. unfold AddonManager._get_cluster_id, run.
  unfold mbind, M_bind, bind. rewrite Hrun. cbn [checked Z.eqb].
  rewrite Hblank. reflexivity.
Qed.

Lemma cluster_lookup_blank E name s out :
  truthy (cluster_id s) = false ->
  run_oracle E (ncalls s) (ClusterManager.list_clusters_cmd name) = Exited 0 out ->
  strip out = "" ->
  ClusterManager._get_cluster_id E name s
  = (Raise (ValueError ("Cluster not found: " +:+ name)),
     started (ClusterManager.list_clusters_cmd name) s).
Proof.
  intros Hc Hrun Hblank.
  unfold ClusterManager._get_cluster_id, get_cluster_id_attr, run.
  unfold mbind, M_bind, bind. rewrite Hc, Hrun. cbn [checked Z.eqb].
  rewrite Hblank. reflexivity.
Qed.

Lemma addon_lookup_found E name s out :
  run_oracle E (ncalls s) (ClusterManager.list_clusters_cmd name) = Exited 0 out ->
  strip out <> "" ->
  AddonManager._get_cluster_id E name s
  = (Ok (strip out), started (ClusterManager.list_clusters_cmd name) s).
Proof.
  intros Hrun Hid. unfold AddonManager._get_cluster_id, run.
  unfold mbind, M_bind, bind. rewrite Hrun. cbn [checked Z.eqb truthy].
  apply String.eqb_neq in Hid. rewrite Hid. reflexivity.
Qed.

(** X1.  A lookup that prints nothing but white space is a cluster that
    was not found: both resolvers raise [ValueError] after that one
    command, and the cache of the [ClusterManager] stays empty. *)
Theorem lookup_blank_is_not_found E name s out :
  run_oracle E (ncalls s) (ClusterManager.list_clusters_cmd name) = Exited 0 out ->
  strip out = "" ->
  AddonManager._get_cluster_id E name s
  = (Raise (ValueError ("Cluster not found: " +:+ name)),
     started (ClusterManager.list_clusters_cmd name) s)
  /\ (truthy (cluster_id s) = false ->
      ClusterManager._get_cluster_id E name s
      = (Raise (ValueError ("Cluster not found: " +:+ name)),
         started (ClusterManager.list_clusters_cmd name) s)
      /\ cluster_id (started (ClusterManager.list_clusters_cmd name) s)
         = cluster_id s).
Proof.
  intros Hrun Hblank. split.
  - exact (addon_lookup_blank E name s out Hrun Hblank).
  - intros Hc. split; [|reflexivity].
    exact (cluster_lookup_blank E name s out Hc Hrun Hblank).
Qed.

Lemma lookup_blank_is_not_found_demo :
  run_oracle silent (ncalls fresh) (ClusterManager.list_clusters_cmd "demo")
  = Exited 0 ""
  /\ AddonManager._get_cluster_id silent "demo" fresh
     = (Raise (ValueError "Cluster not found: demo"),
        started (ClusterManager.list_clusters_cmd "demo") fresh).
Proof.
  split; [reflexivity|].
  apply (proj1 (lookup_blank_is_not_found silent "demo" fresh ""
                  eq_refl eq_refl)).
Defined.



Lemma print_bind A parts (k : unit -> M A) s :
  (print parts ≫= k) s = k () (log (EPrint parts) s).
Proof. reflexivity. Qed.

Lemma stopped_at_lookup A name s s1 (r : res A * state) :
  (events s1 = events s \/ exists parts, events s1 = events s ++ [EPrint parts]) ->
  r = (Raise (ValueError ("Cluster not found: " +:+ name)),
       started (ClusterManager.list_clusters_cmd name) s1) ->
  only_lookup name s r.
Proof.
  intros Hs1 ->. unfold only_lookup. cbn [fst snd].
  destruct Hs1 as [Hs1|[parts Hs1]].
  - rewrite (since_app s _ [ERun (ClusterManager.list_clusters_cmd name)]);
      [repeat split|].
    cbn [events started]. rewrite Hs1. reflexivity.
  - rewrite (since_app s _ [EPrint parts;
                            ERun (ClusterManager.list_clusters_cmd name)]);
      [repeat split|].
    cbn [events started]. rewrite Hs1, <- app_assoc. reflexivity.
Qed.

(** X3.  When the lookup of the cluster name prints nothing, every public
    method that starts from the name stops there: the [ValueError] of the
    lookup reaches the caller, the lookup is the only process that ran and
    nothing slept.  For the [ClusterManager] this needs an empty cache. *)
Theorem unresolved_name_stops_every_method E ocm_config name s out :
  run_oracle E (ncalls s) (ClusterManager.list_clusters_cmd name) = Exited 0 out ->
  strip out = "" ->
  (truthy (cluster_id s) = false ->
   only_lookup name s (ClusterManager.delete_cluster E ocm_config name s)
   /\ (forall timeout,
          only_lookup name s
            (ClusterManager.wait_for_cluster_ready E name timeout s))
   /\ only_lookup name s (ClusterManager.get_cluster_info E name s))
  /\ (forall config,
         only_lookup name s
           (AddonManager.install_rhods E ocm_config name config s))
  /\ (forall config,
         only_lookup name s
           (AddonManager.install_gpu_addon E ocm_config name config s))
  /\ (forall config,
         only_lookup name s
           (AddonManager.add_machine_pool E ocm_config name config s))
  /\ (forall addon,
         only_lookup name s
           (AddonManager.uninstall_addon E ocm_config name addon s))
  /\ (forall addon,
         only_lookup name s (AddonManager.get_addon_state E name addon s))
  /\ only_lookup name s (AddonManager.list_addons E name s).
Proof.
  intros Hrun Hblank.
  assert (Ha : forall s1, ncalls s1 = ncalls s ->
             AddonManager._get_cluster_id E name s1
             = (Raise (ValueError ("Cluster not found: " +:+ name)),
                started (ClusterManager.list_clusters_cmd name) s1)).
  { intros s1 Hn. apply (addon_lookup_blank E name s1 out); [|exact Hblank].
    rewrite Hn. exact Hrun. }
  split; [intros Hc; split; [|split]
         | split; [|split; [|split; [|split; [|split]]]]].
  - apply (stopped_at_lookup _ name s s); [left; reflexivity|].
    unfold ClusterManager.delete_cluster.
    apply bind_raise. exact (cluster_lookup_blank E name s out Hc Hrun Hblank).
  - intros timeout.
    apply (stopped_at_lookup _ name s
             (log (EPrint [JStr "Waiting for cluster to be ready..."]) s));
      [right; eexists; reflexivity|].
    unfold ClusterManager.wait_for_cluster_ready. rewrite print_bind.
    apply bind_raise.
    exact (cluster_lookup_blank E name
             (log (EPrint [JStr "Waiting for cluster to be ready..."]) s) out
             Hc Hrun Hblank).
  - apply (stopped_at_lookup _ name s s); [left; reflexivity|].
    unfold ClusterManager.get_cluster_info.
    apply bind_raise. exact (cluster_lookup_blank E name s out Hc Hrun Hblank).
  - intros config.
    eapply stopped_at_lookup; cycle 1.
    { unfold AddonManager.install_rhods. rewrite print_bind.
      apply bind_raise. apply Ha. reflexivity. }
    right. eexists. reflexivity.
  - intros config.
    eapply stopped_at_lookup; cycle 1.
    { unfold AddonManager.install_gpu_addon. rewrite print_bind.
      apply bind_raise. apply Ha. reflexivity. }
    right. eexists. reflexivity.
  - intros config.
    eapply stopped_at_lookup; cycle 1.
    { unfold AddonManager.add_machine_pool. rewrite print_bind.
      apply bind_raise. apply Ha. reflexivity. }
    right. eexists. reflexivity.
  - intros addon.
    eapply stopped_at_lookup; cycle 1.
    { unfold AddonManager.uninstall_addon. rewrite print_bind.
      apply bind_raise. apply Ha. reflexivity. }
    right. eexists. reflexivity.
  - intros addon.
    apply (stopped_at_lookup _ name s s); [left; reflexivity|].
    unfold AddonManager.get_addon_state. apply bind_raise. apply Ha. reflexivity.
  - apply (stopped_at_lookup _ name s s); [left; reflexivity|].
    unfold AddonManager.list_addons. apply bind_raise. apply Ha. reflexivity.
Qed.

Lemma unresolved_name_stops_every_method_demo :
  run_oracle silent (ncalls fresh) (ClusterManager.list_clusters_cmd "demo")
  = Exited 0 ""
  /\ only_lookup "demo" fresh
       (ClusterManager.delete_cluster silent ocm0 "demo" fresh)
  /\ only_lookup "demo" fresh
       (AddonManager.install_rhods silent ocm0 "demo" rhods_demo fresh).
Proof.
  split; [reflexivity|].
  pose proof (unresolved_name_stops_every_method silent ocm0 "demo" fresh ""
                eq_refl eq_refl) as [Hc [Hr _]].
  split; [exact (proj1 (Hc eq_refl)) | exact (Hr rhods_demo)].
Defined.

(** *** The waits *)

Lemma replicate_snoc {A} n (x : A) : replicate n x ++ [x] = replicate (S n) x.
Proof. induction n as [|n IH]; simpl; [|rewrite IH]; reflexivity. Qed.

(** The trace of a wait that printed a line, went through [k] turns and
    ended with the events [fin]. *)
Lemma wait_trace s s1 s' parts cmd step k tr fin :
  events s1 = (events s ++ [EPrint parts]) ++ tr ->
  turns cmd step k tr ->
  events s' = events s1 ++ fin ->
  runs (since s s') = replicate k cmd ++ runs fin
  /\ sleeps (since s s') = replicate k step ++ sleeps fin.
Proof.
  intros H1 Ht H'. apply turns_runs in Ht as [Hr Hs].
  rewrite (since_app s s' ([EPrint parts] ++ tr ++ fin)).
  - rewrite !runs_app, !sleeps_app, Hr, Hs. split; reflexivity.
  - rewrite H', H1, <- !app_assoc. reflexivity.
Qed.

(** X4.  The add-on wait returns at the first probe that lists the add-on
    as [ready]: after [k] probes that showed another state than [ready] or
    [failed] it has run [k + 1] listings and slept [k] times 60 seconds. *)
Theorem addon_wait_returns_at_first_ready E cid addon timeout k s :
  60 * Z.of_nat k <= timeout ->
  (forall j, (j < k)%nat -> addon_pending E cid addon (ncalls s + j)) ->
  addon_ready E cid addon (ncalls s + k) ->
  exists s',
    AddonManager._wait_for_addon_ready E cid addon timeout s = (Ok (), s')
    /\ runs (since s s') = replicate (S k) (AddonManager.list_addons_cmd cid)
    /\ sleeps (since s s') = replicate k 60
    /\ last (events s')
       = Some (EPrint [JStr "Addon '"; JStr addon; JStr "' is ready"]).
Proof.
  intros Hle Hpend Hready.
  unfold AddonManager._wait_for_addon_ready. rewrite print_bind.
  destruct (addon_loop_skip E cid addon timeout k 0
              (log (EPrint [JStr "Waiting for addon '"; JStr addon;
                            JStr "' to be ready..."]) s))
    as (s1 & tr & Hrun & Hev & Hn & Ht); [lia | exact Hpend |].
  rewrite Hrun, addon_loop_unfold.
  destruct (decide (0 + 60 * Z.of_nat k <= timeout)); [|lia].
  unfold mbind at 1, M_bind, bind. rewrite get_addon_state_run.
  unfold addon_ready in Hready. cbn [ncalls log] in Hn. rewrite Hn, Hready.
  cbv beta iota. rewrite String.eqb_refl.
  eexists. split; [reflexivity|].
  destruct (wait_trace s s1
              (log (EPrint [JStr "Addon '"; JStr addon; JStr "' is ready"])
                 (started (AddonManager.list_addons_cmd cid) s1))
              _ _ _ _ _
              [ERun (AddonManager.list_addons_cmd cid);
               EPrint [JStr "Addon '"; JStr addon; JStr "' is ready"]]
              Hev Ht) as [Hr Hs].
  { cbn [events log started snd]. rewrite <- app_assoc. reflexivity. }
  split; [|split].
  - rewrite Hr. apply replicate_snoc.
  - rewrite Hs. apply app_nil_r.
  - cbn [events log started snd]. apply last_snoc.
Qed.

Lemma addon_wait_returns_at_first_ready_demo :
  exists s',
    AddonManager._wait_for_addon_ready converging "abc123" "managed-odh" 3600
      fresh = (Ok (), s')
    /\ runs (since fresh s')
       = replicate 3 (AddonManager.list_addons_cmd "abc123")
    /\ sleeps (since fresh s') = [60; 60]
    /\ last (events s')
       = Some (EPrint [JStr "Addon '"; JStr "managed-odh"; JStr "' is ready"]).
Proof.
  apply (addon_wait_returns_at_first_ready converging "abc123" "managed-odh"
           3600 2 fresh).
  - lia.
  - intros j Hj. exists "installing".
    destruct j as [|[|j]]; [vm_compute; repeat split.. | lia].
  - vm_compute. reflexivity.
Defined.

(** X5.  With the identifier in the cache, [wait_for_cluster_ready] returns
    at the first probe that shows the state [ready]: it runs no lookup,
    [k + 1] describe commands, and sleeps [k] times 60 seconds and then the
    300 seconds of the settling time.  The cache is as before. *)
Theorem cluster_wait_returns_at_first_ready E name cid timeout k s :
  cluster_id s = JStr cid -> cid <> "" ->
  60 * Z.of_nat k <= timeout ->
  (forall j, (j < k)%nat -> cluster_pending E cid (ncalls s + j)) ->
  cluster_ready E cid (ncalls s + k) ->
  exists s',
    ClusterManager.wait_for_cluster_ready E name timeout s = (Ok (), s')
    /\ runs (since s s') = replicate (S k) (ClusterManager.describe_cmd cid)
    /\ sleeps (since s s') = replicate k 60 ++ [300]
    /\ cluster_id s' = JStr cid.
Proof.
  intros Hcid Hne Hle Hpend Hready.
  unfold ClusterManager.wait_for_cluster_ready. rewrite print_bind.
  set (s0 := log (EPrint [JStr "Waiting for cluster to be ready..."]) s).
  assert (Hget : ClusterManager._get_cluster_id E name s0 = (Ok (JStr cid), s0)).
  { rewrite get_cluster_id_cached.
    - cbn [cluster_id s0 log]. rewrite Hcid. reflexivity.
    - cbn [cluster_id s0 log]. rewrite Hcid. cbn [truthy].
      apply negb_true_iff, String.eqb_neq. exact Hne. }
  rewrite (bind_ok _ _ _ _ _ _ _ Hget).
  destruct (ready_loop_skip E name timeout cid k 0 s0)
    as (s1 & tr & Hrun & Hev & Hn & Hc & Ht); [lia | exact Hpend |].
  rewrite Hrun, ready_loop_unfold.
  destruct (decide (0 + 60 * Z.of_nat k <= timeout)); [|lia].
  unfold mbind at 1, M_bind, bind. rewrite get_cluster_state_run.
  unfold cluster_ready in Hready. cbn [ncalls log s0] in Hn. rewrite Hn, Hready.
  cbv beta iota. change (eq_str (JStr "ready") "ready") with true.
  cbv beta iota.
  eexists. split; [reflexivity|].
  destruct (wait_trace s s1
              (log (ESleep 300)
                 (log (EPrint [JStr "Waiting additional 5 minutes for services to stabilize..."])
                    (log (EPrint [JStr "Cluster "; JStr name; JStr " is ready"])
                       (started (ClusterManager.describe_cmd cid) s1))))
              _ _ _ _ _
              [ERun (ClusterManager.describe_cmd cid);
               EPrint [JStr "Cluster "; JStr name; JStr " is ready"];
               EPrint [JStr "Waiting additional 5 minutes for services to stabilize..."];
               ESleep 300]
              Hev Ht) as [Hr Hs].
  { cbn [events log started snd sleep print]. rewrite <- !app_assoc.
    reflexivity. }
  split; [|split].
  - rewrite Hr. apply replicate_snoc.
  - rewrite Hs. reflexivity.
  - cbn [cluster_id log started snd]. rewrite Hc. exact Hcid.
Qed.

Lemma cluster_wait_returns_at_first_ready_demo :
  exists s',
    ClusterManager.wait_for_cluster_ready converging "demo" 7200
      (cached "abc123") = (Ok (), s')
    /\ runs (since (cached "abc123") s')
       = replicate 3 (ClusterManager.describe_cmd "abc123")
    /\ sleeps (since (cached "abc123") s') = [60; 60; 300]
    /\ cluster_id s' = JStr "abc123".
Proof.
  apply (cluster_wait_returns_at_first_ready converging "demo" "abc123" 7200 2
           (cached "abc123")).
  - reflexivity.
  - discriminate.
  - lia.
  - intros j Hj. exists (JStr "installing").
    destruct j as [|[|j]]; [vm_compute; repeat split.. | lia].
  - vm_compute. reflexivity.
Defined.

(** X6.  The add-on wait does not retry a probe that failed: when the
    listing exits with a return code other than 0, the
    [CalledProcessError] ends the wait at once, after the [k] probes that
    went before it. *)
Theorem addon_wait_aborts_on_failed_probe E cid addon timeout k s code out :
  60 * Z.of_nat k <= timeout ->
  (forall j, (j < k)%nat -> addon_pending E cid addon (ncalls s + j)) ->
  run_oracle E (ncalls s + k) (AddonManager.list_addons_cmd cid)
  = Exited code out ->
  code <> 0 ->
  exists s',
    AddonManager._wait_for_addon_ready E cid addon timeout s
    = (Raise (CalledProcessError (AddonManager.list_addons_cmd cid) code), s')
    /\ runs (since s s') = replicate (S k) (AddonManager.list_addons_cmd cid)
    /\ sleeps (since s s') = replicate k 60.
Proof.
  intros Hle Hpend Hexit Hcode.
  unfold AddonManager._wait_for_addon_ready. rewrite print_bind.
  destruct (addon_loop_skip E cid addon timeout k 0
              (log (EPrint [JStr "Waiting for addon '"; JStr addon;
                            JStr "' to be ready..."]) s))
    as (s1 & tr & Hrun & Hev & Hn & Ht); [lia | exact Hpend |].
  rewrite Hrun, addon_loop_unfold.
  destruct (decide (0 + 60 * Z.of_nat k <= timeout)); [|lia].
  unfold mbind at 1, M_bind, bind. rewrite get_addon_state_run.
  cbn [ncalls log] in Hn. rewrite Hn, Hexit.
  unfold addon_state_reply. cbn [checked].
  apply Z.eqb_neq in Hcode. rewrite Hcode. cbn [mbind res_bind].
  eexists. split; [reflexivity|].
  destruct (wait_trace s s1 (started (AddonManager.list_addons_cmd cid) s1)
              _ _ _ _ _ [ERun (AddonManager.list_addons_cmd cid)] Hev Ht)
    as [Hr Hs]; [reflexivity|].
  split.
  - rewrite Hr. apply replicate_snoc.
  - rewrite Hs. apply app_nil_r.
Qed.

Lemma addon_wait_aborts_on_failed_probe_demo :
  exists s',
    AddonManager._wait_for_addon_ready flaky "abc123" "managed-odh" 3600 fresh
    = (Raise (CalledProcessError (AddonManager.list_addons_cmd "abc123") 2), s')
    /\ runs (since fresh s')
       = replicate 2 (AddonManager.list_addons_cmd "abc123")
    /\ sleeps (since fresh s') = [60].
Proof.
  apply (addon_wait_aborts_on_failed_probe flaky "abc123" "managed-odh" 3600 1
           fresh 2 "").
  - lia.
  - intros j Hj. exists "installing".
    destruct j as [|j]; [vm_compute; repeat split | lia].
  - reflexivity.
  - lia.
Defined.

(** *** The add-on listing *)

Lemma scan_addon_lines_first_usable addon pre line post :
  Forall (fun l => usable_line addon l = false) pre ->
  usable_line addon line = true ->
  AddonManager.scan_addon_lines addon (pre ++ line :: post)
  = nth 1 (split_ws (strip line)) "".
Proof.
  intros Hpre Hline. induction pre as [|l pre IH]; simpl.
  - unfold usable_line in Hline. apply andb_true_iff in Hline as [Hc Hl].
    rewrite Hc. destruct (split_ws (strip line)) as [|w1 [|w2 ws]];
      [discriminate | discriminate | reflexivity].
  - apply Forall_cons in Hpre as [Hl Hpre]. unfold usable_line in Hl.
    destruct (contains addon l); simpl in Hl.
    + destruct (split_ws (strip l)) as [|w1 [|w2 ws]];
        [exact (IH Hpre) | exact (IH Hpre) | discriminate].
    + exact (IH Hpre).
Qed.

(** X7.  What [_get_addon_state_by_id] makes of a listing that was
    printed with return code 0.  It answers [not installed] exactly when no
    line both contains the add-on name and has two fields; otherwise the
    answer is the second field of the first such line, a non-empty word
    without white space.  The name is matched as a substring of the whole
    line. *)
Theorem addon_state_is_second_field_of_first_match E cid addon s out :
  run_oracle E (ncalls s) (AddonManager.list_addons_cmd cid) = Exited 0 out ->
  exists st,
    AddonManager._get_addon_state_by_id E cid addon s
    = (Ok st, started (AddonManager.list_addons_cmd cid) s)
    /\ (st = "not installed"
        <-> Forall (fun line => usable_line addon line = false)
              (split_on newline out))
    /\ (st = "not installed" \/ (st <> "" /\ has_space st = false))
    /\ (forall pre line post,
           split_on newline out = pre ++ line :: post ->
           Forall (fun l => usable_line addon l = false) pre ->
           usable_line addon line = true ->
           st = nth 1 (split_ws (strip line)) "").
Proof.
  intros Hrun. rewrite get_addon_state_run, Hrun.
  unfold addon_state_reply. cbn [checked Z.eqb mbind res_bind].
  eexists. split; [reflexivity|]. split; [|split].
  - apply scan_addon_lines_not_installed.
  - apply scan_addon_lines_token.
  - intros pre line post -> Hpre Hline.
    apply scan_addon_lines_first_usable; assumption.
Qed.

Lemma addon_state_is_second_field_of_first_match_demo :
  exists st,
    AddonManager._get_addon_state_by_id healthy "abc123" "odh" fresh
    = (Ok st, started (AddonManager.list_addons_cmd "abc123") fresh)
    /\ (st = "not installed"
        <-> Forall (fun line => usable_line "odh" line = false)
              (split_on newline "managed-odh ready"))
    /\ (st = "not installed" \/ (st <> "" /\ has_space st = false))
    /\ (forall pre line post,
           split_on newline "managed-odh ready" = pre ++ line :: post ->
           Forall (fun l => usable_line "odh" l = false) pre ->
           usable_line "odh" line = true ->
           st = nth 1 (split_ws (strip line)) "").
Proof.
  apply (addon_state_is_second_field_of_first_match healthy "abc123" "odh"
           fresh "managed-odh ready").
  reflexivity.
Defined.

(** *** Removal of an add-on *)

Lemma polls_within timeout step count :
  0 < step -> count <= timeout + step ->
  count + step * Z.of_nat (polls timeout step count) <= timeout + step.
Proof.
  intros Hstep Hle. unfold polls.
  pose proof (Z.mul_div_le (timeout - count) step Hstep).
  destruct (decide (0 <= (timeout - count) / step + 1)).
  - rewrite Z2Nat.id by assumption. lia.
  - lia.
Qed.

(** X8.  The uninstall wait returns at the first probe that no longer
    lists the add-on: after [k] probes that listed it, in whatever state,
    it has run [k + 1] listings and slept [k] times 60 seconds. *)
Theorem uninstall_wait_returns_when_unlisted E cid addon timeout k s :
  60 * Z.of_nat k <= timeout ->
  (forall j, (j < k)%nat -> addon_listed E cid addon (ncalls s + j)) ->
  addon_unlisted E cid addon (ncalls s + k) ->
  exists s',
    AddonManager._wait_for_addon_uninstalled E cid addon timeout s = (Ok (), s')
    /\ runs (since s s') = replicate (S k) (AddonManager.list_addons_cmd cid)
    /\ sleeps (since s s') = replicate k 60.
Proof.
  intros Hle Hlisted Hgone.
  unfold AddonManager._wait_for_addon_uninstalled. rewrite print_bind.
  destruct (uninstalled_loop_skip E cid addon timeout k 0
              (log (EPrint [JStr "Waiting for addon '"; JStr addon;
                            JStr "' to be uninstalled..."]) s))
    as (s1 & tr & Hrun & Hev & Hn & Ht); [lia | exact Hlisted |].
  rewrite Hrun, uninstalled_loop_unfold.
  destruct (decide (0 + 60 * Z.of_nat k <= timeout)); [|lia].
  unfold mbind at 1, M_bind, bind. rewrite get_addon_state_run.
  unfold addon_unlisted in Hgone. cbn [ncalls log] in Hn. rewrite Hn, Hgone.
  cbv beta iota. rewrite String.eqb_refl.
  eexists. split; [reflexivity|].
  destruct (wait_trace s s1
              (log (EPrint [JStr "Addon '"; JStr addon;
                            JStr "' uninstalled successfully"])
                 (started (AddonManager.list_addons_cmd cid) s1))
              _ _ _ _ _
              [ERun (AddonManager.list_addons_cmd cid);
               EPrint [JStr "Addon '"; JStr addon;
                       JStr "' uninstalled successfully"]]
              Hev Ht) as [Hr Hs].
  { cbn [events log started snd]. rewrite <- app_assoc. reflexivity. }
  split.
  - rewrite Hr. apply replicate_snoc.
  - rewrite Hs. apply app_nil_r.
Qed.

Lemma uninstall_wait_returns_when_unlisted_demo :
  exists s',
    AddonManager._wait_for_addon_uninstalled uninstalling "abc123"
      "managed-odh" 3600 fresh = (Ok (), s')
    /\ runs (since fresh s')
       = replicate 4 (AddonManager.list_addons_cmd "abc123")
    /\ sleeps (since fresh s') = [60; 60; 60].
Proof.
  apply (uninstall_wait_returns_when_unlisted uninstalling "abc123"
           "managed-odh" 3600 3 fresh).
  - lia.
  - intros j Hj. exists "deleting".
    destruct j as [|[|[|j]]]; [vm_compute; repeat split.. | lia].
  - vm_compute. reflexivity.
Defined.

(** X9.  The uninstall wait has no failure state: an add-on that stays
    listed, be it as [failed], keeps the wait going until the time-out, and
    the wait never raises [RuntimeError]. *)
Theorem uninstall_wait_has_no_failure_state E cid addon timeout s :
  (forall e s',
      AddonManager._wait_for_addon_uninstalled E cid addon timeout s
      = (Raise e, s') ->
      is_RuntimeError e = false)
  /\ ((forall n, (ncalls s <= n)%nat -> addon_listed E cid addon n) ->
      fst (AddonManager._wait_for_addon_uninstalled E cid addon timeout s)
      = Raise (TimeoutError ("Addon '" +:+ addon +:+ "' not uninstalled after ")
                 timeout)).
Proof.
  split.
  - intros e s'. unfold AddonManager._wait_for_addon_uninstalled.
    rewrite print_bind. apply uninstalled_loop_no_runtime_error.
  - intros Hlisted. unfold AddonManager._wait_for_addon_uninstalled.
    rewrite print_bind.
    destruct (decide (0 <= timeout)) as [Hpos|Hneg].
    + destruct (uninstalled_loop_skip E cid addon timeout
                  (polls timeout 60 0) 0
                  (log (EPrint [JStr "Waiting for addon '"; JStr addon;
                                JStr "' to be uninstalled..."]) s))
        as (s1 & tr & Hrun & _).
      * apply polls_within; lia.
      * intros j _. apply Hlisted. cbn [ncalls log]. lia.
      * rewrite Hrun, uninstalled_loop_unfold.
        pose proof (polls_beyond timeout 60 0 ltac:(lia) ltac:(lia)).
        destruct (decide _); [lia | reflexivity].
    + rewrite uninstalled_loop_unfold.
      destruct (decide _); [lia | reflexivity].
Qed.

Lemma uninstall_wait_has_no_failure_state_demo :
  fst (AddonManager._wait_for_addon_uninstalled failing "abc123" "managed-odh"
         60 fresh)
  = Raise (TimeoutError "Addon 'managed-odh' not uninstalled after " 60).
Proof.
  apply (proj2 (uninstall_wait_has_no_failure_state failing "abc123"
                  "managed-odh" 60 fresh)).
  intros n _. destruct (decide (n < 1)%nat).
  - exists "installing". destruct n; [vm_compute; repeat split | lia].
  - exists "failed". unfold addon_state_reply.
    replace (run_oracle failing n (AddonManager.list_addons_cmd "abc123"))
      with (Exited 0 "managed-odh failed"); [vm_compute; repeat split|].
    unfold failing, host, run_oracle.
    change (is_describe (AddonManager.list_addons_cmd "abc123")) with false.
    change (is_list_addons (AddonManager.list_addons_cmd "abc123")) with true.
    cbv beta iota. destruct (Nat.ltb_spec n 1); [lia | reflexivity].
Defined.

(** X10.  [uninstall_addon] does not start to wait when the delete request
    failed: the [CalledProcessError] of the request reaches the caller
    after the lookup and the request, with no listing and no sleep. *)
Theorem uninstall_stops_at_failed_delete E ocm_config name addon s out code
    out2 :
  run_oracle E (ncalls s) (ClusterManager.list_clusters_cmd name) = Exited 0 out ->
  strip out <> "" ->
  run_oracle E (S (ncalls s))
    (AddonManager.addon_delete_cmd ocm_config (strip out) addon)
  = Exited code out2 ->
  code <> 0 ->
  exists s',
    AddonManager.uninstall_addon E ocm_config name addon s
    = (Raise (CalledProcessError
                (AddonManager.addon_delete_cmd ocm_config (strip out) addon)
                code), s')
    /\ runs (since s s')
       = [ClusterManager.list_clusters_cmd name;
          AddonManager.addon_delete_cmd ocm_config (strip out) addon]
    /\ sleeps (since s s') = [].
Proof.
  intros Hrun Hid Hdel Hcode.
  unfold AddonManager.uninstall_addon. rewrite print_bind.
  rewrite (bind_ok _ _ _ _ _ _ _
             (addon_lookup_found E name
                (log (EPrint [JStr "Uninstalling addon '"; JStr addon;
                              JStr "' from cluster: "; JStr name]) s)
                out Hrun Hid)).
  unfold mbind at 1, M_bind, bind, run. cbn [ncalls started log].
  rewrite Hdel. cbn [checked]. apply Z.eqb_neq in Hcode. rewrite Hcode.
  eexists. split; [reflexivity|].
  rewrite (since_app s _
             [EPrint [JStr "Uninstalling addon '"; JStr addon;
                      JStr "' from cluster: "; JStr name];
              ERun (ClusterManager.list_clusters_cmd name);
              ERun (AddonManager.addon_delete_cmd ocm_config (strip out) addon)]).
  - split; reflexivity.
  - cbn [events started log]. rewrite <- !app_assoc. reflexivity.
Qed.

Lemma uninstall_stops_at_failed_delete_demo :
  exists s',
    AddonManager.uninstall_addon refusing ocm0 "demo" "managed-odh" fresh
    = (Raise (CalledProcessError
                (AddonManager.addon_delete_cmd ocm0 (strip "abc123")
                   "managed-odh") 1), s')
    /\ runs (since fresh s')
       = [ClusterManager.list_clusters_cmd "demo";
          AddonManager.addon_delete_cmd ocm0 (strip "abc123") "managed-odh"]
    /\ sleeps (since fresh s') = [].
Proof.
  apply (uninstall_stops_at_failed_delete refusing ocm0 "demo" "managed-odh"
           fresh "abc123" 1 "").
  - reflexivity.
  - vm_compute. discriminate.
  - reflexivity.
  - lia.
Defined.

(** X11.  A removal that goes through: after the lookup and the delete
    request, [k] probes still list the add-on and the next one does not.
    [uninstall_addon] returns, the processes are the lookup, the request and
    [k + 1] listings, and the line that reports the success is printed
    twice, by the wait and by the method itself. *)
Theorem uninstall_addon_completes E ocm_config name addon s out out2 k :
  run_oracle E (ncalls s) (ClusterManager.list_clusters_cmd name) = Exited 0 out ->
  strip out <> "" ->
  run_oracle E (S (ncalls s))
    (AddonManager.addon_delete_cmd ocm_config (strip out) addon)
  = Exited 0 out2 ->
  60 * Z.of_nat k <= 3600 ->
  (forall j, (j < k)%nat ->
             addon_listed E (strip out) addon (S (S (ncalls s)) + j)) ->
  addon_unlisted E (strip out) addon (S (S (ncalls s)) + k) ->
  exists s' tr,
    AddonManager.uninstall_addon E ocm_config name addon s = (Ok (), s')
    /\ runs (since s s')
       = [ClusterManager.list_clusters_cmd name;
          AddonManager.addon_delete_cmd ocm_config (strip out) addon]
         ++ replicate (S k) (AddonManager.list_addons_cmd (strip out))
    /\ sleeps (since s s') = replicate k 60
    /\ events s'
       = tr ++ [EPrint [JStr "Addon '"; JStr addon;
                        JStr "' uninstalled successfully"];
                EPrint [JStr "Addon '"; JStr addon;
                        JStr "' uninstalled successfully"]].
Proof.
  intros Hrun Hid Hdel Hle Hlisted Hgone.
  unfold AddonManager.uninstall_addon. rewrite print_bind.
  set (s0 := log (EPrint [JStr "Uninstalling addon '"; JStr addon;
                          JStr "' from cluster: "; JStr name]) s).
  rewrite (bind_ok _ _ _ _ _ _ _ (addon_lookup_found E name s0 out Hrun Hid)).
  unfold mbind at 1, M_bind, bind, run. cbn [ncalls started log s0].
  rewrite Hdel. cbn [checked Z.eqb].
  set (s2 := started (AddonManager.addon_delete_cmd ocm_config (strip out) addon)
               (started (ClusterManager.list_clusters_cmd name) s0)).
  unfold mbind at 1, M_bind, bind.
  unfold AddonManager._wait_for_addon_uninstalled. rewrite print_bind.
  set (s3 := log (EPrint [JStr "Waiting for addon '"; JStr addon;
                          JStr "' to be uninstalled..."]) s2).
  destruct (uninstalled_loop_skip E (strip out) addon 3600 k 0 s3)
    as (s4 & tr & Hloop & Hev & Hn & Ht); [lia | exact Hlisted |].
  rewrite Hloop, uninstalled_loop_unfold.
  destruct (decide (0 + 60 * Z.of_nat k <= 3600)); [|lia].
  unfold mbind at 1, M_bind, bind. rewrite get_addon_state_run.
  unfold addon_unlisted in Hgone. cbn [ncalls log started s3 s2 s0] in Hn.
  rewrite Hn, Hgone. cbv beta iota. rewrite String.eqb_refl.
  cbv beta iota delta [print ret]. cbv beta iota.
  apply turns_runs in Ht as [Hr Hs].
  eexists. exists (events s ++ [EPrint [JStr "Uninstalling addon '"; JStr addon;
                                        JStr "' from cluster: "; JStr name];
                                ERun (ClusterManager.list_clusters_cmd name);
                                ERun (AddonManager.addon_delete_cmd ocm_config
                                        (strip out) addon);
                                EPrint [JStr "Waiting for addon '"; JStr addon;
                                        JStr "' to be uninstalled..."]]
                   ++ tr ++ [ERun (AddonManager.list_addons_cmd (strip out))]).
  split; [reflexivity|].
  assert (Hall : events
                   (log (EPrint [JStr "Addon '"; JStr addon;
                                 JStr "' uninstalled successfully"])
                      (log (EPrint [JStr "Addon '"; JStr addon;
                                    JStr "' uninstalled successfully"])
                         (started (AddonManager.list_addons_cmd (strip out)) s4)))
                 = events s
                   ++ ([EPrint [JStr "Uninstalling addon '"; JStr addon;
                                JStr "' from cluster: "; JStr name];
                        ERun (ClusterManager.list_clusters_cmd name);
                        ERun (AddonManager.addon_delete_cmd ocm_config
                                (strip out) addon);
                        EPrint [JStr "Waiting for addon '"; JStr addon;
                                JStr "' to be uninstalled..."]]
                       ++ tr
                       ++ [ERun (AddonManager.list_addons_cmd (strip out));
                           EPrint [JStr "Addon '"; JStr addon;
                                   JStr "' uninstalled successfully"];
                           EPrint [JStr "Addon '"; JStr addon;
                                   JStr "' uninstalled successfully"]])).
  { cbn [events log started]. rewrite Hev.
    cbn [events log started s3 s2 s0]. rewrite <- !app_assoc. reflexivity. }
  split; [|split].
  - rewrite (since_app _ _ _ Hall), !runs_app, Hr.
    cbn [runs omap app list_omap]. rewrite <- replicate_snoc. reflexivity.
  - rewrite (since_app _ _ _ Hall), !sleeps_app, Hs.
    cbn [sleeps omap app list_omap]. apply app_nil_r.
  - rewrite Hall, <- !app_assoc. reflexivity.
Qed.

Lemma uninstall_addon_completes_demo :
  exists s' tr,
    AddonManager.uninstall_addon uninstalling ocm0 "demo" "managed-odh" fresh
    = (Ok (), s')
    /\ runs (since fresh s')
       = [ClusterManager.list_clusters_cmd "demo";
          AddonManager.addon_delete_cmd ocm0 (strip "abc123") "managed-odh"]
         ++ replicate 2 (AddonManager.list_addons_cmd (strip "abc123"))
    /\ sleeps (since fresh s') = replicate 1 60
    /\ events s'
       = tr ++ [EPrint [JStr "Addon '"; JStr "managed-odh";
                        JStr "' uninstalled successfully"];
                EPrint [JStr "Addon '"; JStr "managed-odh";
                        JStr "' uninstalled successfully"]].
Proof.
  apply (uninstall_addon_completes uninstalling ocm0 "demo" "managed-odh" fresh
           "abc123" "abc123" 1).
  - reflexivity.
  - vm_compute. discriminate.
  - reflexivity.
  - lia.
  - intros j Hj. exists "deleting".
    destruct j as [|j]; [vm_compute; repeat split | lia].
  - vm_compute. reflexivity.
Defined.

(** *** The command-line client and the creation request *)

Ltac since_trace :=
  match goal with
  | |- context [since ?s ?s'] =>
      erewrite (since_app s s')
        by (cbn [events log started snd]; rewrite <- ?app_assoc; reflexivity)
  end.


(** X13.  [create_cluster] is one request and no wait: whatever the
    outcome, it writes the specification of the configuration to one
    temporary file, starts one process, the [post] with that file as body,
    and never sleeps.  When it returns, the cache holds the value
    returned; when it raises, the cache is as before. *)
Theorem create_cluster_is_one_request E ocm_config config s :
  let r := ClusterManager.create_cluster E ocm_config config s in
  let path := tmp_oracle E (ntemps s) ".json" in
  runs (since s (snd r)) = [ClusterManager.create_cmd ocm_config path]
  /\ sleeps (since s (snd r)) = []
  /\ ECreate path (JObj (ClusterManager._generate_cluster_spec config))
     ∈ since s (snd r)
  /\ match fst r with
     | Ok v => cluster_id (snd r) = v
     | Raise _ => cluster_id (snd r) = cluster_id s
     end.
Proof.
  intros r path. subst r.
  unfold ClusterManager.create_cluster. rewrite print_bind.
  unfold named_temporary_file, try_finally, run, loads, lift, unlink,
    set_cluster_id_attr, get_cluster_id_attr, print, ret, raise.
  unfold mbind, M_bind, bind. cbn [ncalls ntemps started log]. fold path.
  destruct (checked _ _) as [out|e];
    [destruct (json_loads E out) as [response|];
     [destruct (get response "id" JNull) as [cid|e]|]|];
    cbn [fst snd cluster_id events];
    (split; [|split; [|split]]);
    try (since_trace; reflexivity);
    try reflexivity;
    (erewrite (since_app s)
       by (cbn [events log started snd]; rewrite <- ?app_assoc; reflexivity));
    apply list_elem_of_further; apply list_elem_of_here.
Qed.

(** *** The creation request *)

(** X14.  The members of the creation request, in order: the nine members
    every request has, followed by one credential block, [aws] or [gcp],
    only when the credentials of the chosen provider are given.  The
    credentials of the other provider are never sent. *)
Theorem cluster_spec_members config :
  map fst (ClusterManager._generate_cluster_spec config)
  = base_keys
    ++ match cloud_provider config, aws_credentials config,
             gcp_credentials config with
       | Aws, Some _, _ => ["aws"]
       | Gcp, _, Some _ => ["gcp"]
       | _, _, _ => []
       end.
Proof.
  destruct config as [nm [] rg [cg [vid|]] nd fp mz tm [aws|] [gcp|]];
    unfold ClusterManager._generate_cluster_spec; cbn;
    try destruct (negb _); reflexivity.
Qed.

(** X15.  The [version] member of the creation request always has the
    channel group; it has an [id], the version with the prefix
    [openshift-v], exactly when the configuration names a version that is
    not the empty string. *)
Theorem cluster_spec_version_block config :
  dict_get "version" (ClusterManager._generate_cluster_spec config)
  = Some (JObj (("channel_group", JStr (channel_group (version config)))
                :: match version_id (version config) with
                   | Some vid =>
                       if String.eqb vid "" then []
                       else [("id", JStr ("openshift-v" +:+ vid))]
                   | None => []
                   end)).
Proof.
  destruct config as [nm [] rg [cg [vid|]] nd fp mz tm [aws|] [gcp|]];
    unfold ClusterManager._generate_cluster_spec; cbn;
    try destruct (String.eqb vid ""); reflexivity.
Qed.

(** *** The operator wait *)

Lemma csv_reply_upper E op r :
  has_upper op = true -> csv_reply E op r <> Ok true.
Proof.
  intros Hop. unfold csv_reply.
  destruct (checked _ r) as [out|e].
  - destruct (json_loads E out) as [csvs|]; [|discriminate].
    unfold mbind, res_bind.
    destruct (get csvs "items" _) as [items|]; [|discriminate].
    destruct (iter items) as [l|]; [|discriminate].
    intros H. apply (scan_csvs_upper op l true Hop) in H. discriminate.
  - destruct (is_CalledProcessError e); discriminate.
Qed.

Lemma operator_loop_upper E op timeout :
  has_upper op = true ->
  forall count s s',
    AddonManager._wait_for_operator_ready_loop E op timeout count s
    = (Ok (), s') ->
    s' = log (EPrint [JStr "Warning: "; JStr op; JStr " may not be fully ready"])
           (Nat.iter (polls timeout 10 count) operator_turn s).
Proof.
  intros Hop.
  apply (poll_ind 10 timeout (fun count => forall s s', _ -> _)); [lia|].
  intros count IH s s'. rewrite operator_loop_unfold.
  destruct (decide (count <= timeout)) as [Hle|Hgt].
  - unfold mbind at 1, M_bind, bind. rewrite csv_probe_run.
    pose proof (csv_reply_upper E op
                  (run_oracle E (ncalls s) AddonManager.get_csv_cmd) Hop) as Hno.
    destruct (csv_reply E op _) as [[|]|e]; [congruence | | discriminate].
    intros Hrun. rewrite (polls_step timeout 10 count) by lia.
    rewrite Nat.iter_succ_r. apply (IH Hle). exact Hrun.
  - intros [= <-]. rewrite polls_done by lia. reflexivity.
Qed.

(** X16.  The operator name is searched in the lower-cased name of each
    CSV, so an operator name with an upper-case letter never matches: no
    probe finds the operator ready, and a wait that returns has gone on to
    the time-out and ends with the warning. *)
Theorem uppercase_operator_is_never_found E op timeout s :
  has_upper op = true ->
  (forall r, csv_reply E op r <> Ok true)
  /\ (forall s',
         AddonManager._wait_for_operator_ready E op timeout s = (Ok (), s') ->
         sleeps (since s s') = replicate (polls timeout 10 0) 10
         /\ last (events s')
            = Some (EPrint [JStr "Warning: "; JStr op;
                            JStr " may not be fully ready"])).
Proof.
  intros Hop. split; [intros r; apply csv_reply_upper; exact Hop|].
  intros s'. unfold AddonManager._wait_for_operator_ready. rewrite print_bind.
  intros Hrun. apply (operator_loop_upper E op timeout Hop) in Hrun.
  subst s'. split.
  - destruct (iter_operator_turn (polls timeout 10 0)
                (log (EPrint [JStr "Waiting for "; JStr op;
                              JStr " to be ready..."]) s)) as [_ Hev].
    erewrite (since_app s)
      by (cbn [events log]; rewrite Hev; cbn [events log];
          rewrite <- !app_assoc; reflexivity).
    rewrite !sleeps_app. cbn [sleeps omap list_omap app].
    rewrite app_nil_r.
    generalize (polls timeout 10 0). intros n.
    induction n as [|n IH]; [reflexivity|]. cbn. f_equal. exact IH.
  - cbn [events log]. apply last_snoc.
Qed.

Lemma uppercase_operator_is_never_found_demo :
  csv_reply operator_arriving "Authorino-Operator" (Exited 0 csv_doc) <> Ok true
  /\ last (events (snd (AddonManager._wait_for_operator_ready operator_arriving
                          "Authorino-Operator" 20 fresh)))
     = Some (EPrint [JStr "Warning: "; JStr "Authorino-Operator";
                     JStr " may not be fully ready"]).
Proof.
  pose proof (uppercase_operator_is_never_found operator_arriving
                "Authorino-Operator" 20 fresh eq_refl) as [Hno Hret].
  split; [apply Hno|].
  apply (Hret (snd (AddonManager._wait_for_operator_ready operator_arriving
                      "Authorino-Operator" 20 fresh))).
  vm_compute. reflexivity.
Defined.

(** X17.  The scan of the CSVs stops at the first one whose lower-cased
    name contains the operator name: its phase alone decides, and a later
    CSV of the same operator is not looked at. *)
Theorem first_matching_csv_decides op pre name phase post :
  Forall (fun np => contains op (lower (fst np)) = false) pre ->
  contains op (lower name) = true ->
  AddonManager.scan_csvs op
    (map (fun np => csv_item (fst np) (snd np)) pre
     ++ csv_item name phase :: post)
  = Ok (eq_str phase "Succeeded").
Proof.
  intros Hpre Hname. induction pre as [|[n p] pre IH]; simpl.
  - unfold mbind, res_bind. simpl. rewrite Hname. reflexivity.
  - apply Forall_cons in Hpre as [Hn Hpre]. simpl in Hn.
    unfold mbind, res_bind. simpl. rewrite Hn. exact (IH Hpre).
Qed.

Lemma first_matching_csv_decides_demo :
  AddonManager.scan_csvs "authorino-operator"
    (map (fun np => csv_item (fst np) (snd np))
       [("cert-manager.v1.0", JStr "Succeeded")]
     ++ csv_item "Authorino-Operator.v0.12" (JStr "Replacing")
        :: [csv_item "authorino-operator.v0.13" (JStr "Succeeded")])
  = Ok false.
Proof.
  apply (first_matching_csv_decides "authorino-operator"
           [("cert-manager.v1.0", JStr "Succeeded")]
           "Authorino-Operator.v0.12" (JStr "Replacing")
           [csv_item "authorino-operator.v0.13" (JStr "Succeeded")]).
  - repeat constructor.
  - vm_compute. reflexivity.
Defined.

Lemma operator_wait_skip E op timeout k s :
  10 * Z.of_nat k <= timeout ->
  (forall j, (j < k)%nat -> operator_not_ready E op (ncalls s + j)) ->
  exists s1,
    AddonManager._wait_for_operator_ready E op timeout s
    = AddonManager._wait_for_operator_ready_loop E op timeout
        (10 * Z.of_nat k) s1
    /\ ncalls s1 = (ncalls s + k)%nat
    /\ events s1
       = events s
         ++ [EPrint [JStr "Waiting for "; JStr op; JStr " to be ready..."]]
         ++ concat (replicate k [ERun AddonManager.get_csv_cmd; ESleep 10]).
Proof.
  intros Hle Hnot.
  unfold AddonManager._wait_for_operator_ready. rewrite print_bind.
  rewrite (operator_loop_skip E op timeout k 0); [|lia | exact Hnot].
  destruct (iter_operator_turn k
              (log (EPrint [JStr "Waiting for "; JStr op;
                            JStr " to be ready..."]) s)) as [Hn Hev].
  eexists. split; [reflexivity|]. split; [exact Hn|].
  rewrite Hev. cbn [events log]. rewrite <- app_assoc. reflexivity.
Qed.

(** X18.  The operator wait returns at the first probe that shows the
    operator with phase [Succeeded]: after [k] probes that did not, each
    followed by a sleep of 10 seconds, it probes once more, prints that the
    operator is ready and returns without the warning. *)
Theorem operator_wait_returns_when_ready E op timeout k s :
  10 * Z.of_nat k <= timeout ->
  (forall j, (j < k)%nat -> operator_not_ready E op (ncalls s + j)) ->
  operator_ready E op (ncalls s + k) ->
  exists s',
    AddonManager._wait_for_operator_ready E op timeout s = (Ok (), s')
    /\ since s s'
       = [EPrint [JStr "Waiting for "; JStr op; JStr " to be ready..."]]
         ++ concat (replicate k [ERun AddonManager.get_csv_cmd; ESleep 10])
         ++ [ERun AddonManager.get_csv_cmd;
             EPrint [JStr op; JStr " is ready"]].
Proof.
  intros Hle Hnot Hready.
  destruct (operator_wait_skip E op timeout k s Hle Hnot)
    as (s1 & Hrun & Hn & Hev).
  rewrite Hrun, operator_loop_unfold.
  destruct (decide (10 * Z.of_nat k <= timeout)); [|lia].
  unfold mbind at 1, M_bind, bind. rewrite csv_probe_run.
  unfold operator_ready in Hready. rewrite Hn, Hready. cbv beta iota.
  eexists. split; [reflexivity|].
  apply since_app. cbn [events log started]. rewrite Hev, <- !app_assoc.
  reflexivity.
Qed.

Lemma operator_wait_returns_when_ready_demo :
  exists s',
    AddonManager._wait_for_operator_ready operator_arriving
      "authorino-operator" 300 fresh = (Ok (), s')
    /\ since fresh s'
       = [EPrint [JStr "Waiting for "; JStr "authorino-operator";
                  JStr " to be ready..."]]
         ++ concat (replicate 1 [ERun AddonManager.get_csv_cmd; ESleep 10])
         ++ [ERun AddonManager.get_csv_cmd;
             EPrint [JStr "authorino-operator"; JStr " is ready"]].
Proof.
  apply (operator_wait_returns_when_ready operator_arriving
           "authorino-operator" 300 1 fresh).
  - lia.
  - intros j Hj. destruct j as [|j]; [vm_compute; reflexivity | lia].
  - vm_compute. reflexivity.
Defined.

(** X19.  The operator wait swallows only [CalledProcessError].  Any other
    exception of a probe ends the wait and reaches the caller: a listing
    that is not JSON, a document of the wrong shape, or an [oc] that is
    not installed. *)
Theorem operator_wait_catches_only_process_errors E op timeout k s e :
  10 * Z.of_nat k <= timeout ->
  (forall j, (j < k)%nat -> operator_not_ready E op (ncalls s + j)) ->
  csv_reply E op (run_oracle E (ncalls s + k) AddonManager.get_csv_cmd)
  = Raise e ->
  is_CalledProcessError e = false
  /\ exists s',
       AddonManager._wait_for_operator_ready E op timeout s = (Raise e, s')
       /\ runs (since s s') = replicate (S k) AddonManager.get_csv_cmd
       /\ sleeps (since s s') = replicate k 10.
Proof.
  intros Hle Hnot Hraise. split.
  - revert Hraise. unfold csv_reply.
    destruct (checked _ _) as [out|e0].
    + destruct (json_loads E out) as [csvs|].
      * unfold mbind, res_bind.
        pose proof (get_plain csvs "items" (JList [])) as Hg.
        destruct (get csvs "items" _) as [items|e1]; cbn [plain] in Hg.
        -- pose proof (iter_plain items) as Hi.
           destruct (iter items) as [l|e2]; cbn [plain] in Hi.
           ++ pose proof (scan_csvs_plain op l) as Hs. intros Hl.
              rewrite Hl in Hs. exact (proj1 Hs).
           ++ intros [= <-]. exact (proj1 Hi).
        -- intros [= <-]. exact (proj1 Hg).
      * intros [= <-]. reflexivity.
    + destruct (is_CalledProcessError e0) eqn:He0; [discriminate|].
      intros [= <-]. exact He0.
  - destruct (operator_wait_skip E op timeout k s Hle Hnot)
      as (s1 & Hrun & Hn & Hev).
    rewrite Hrun, operator_loop_unfold.
    destruct (decide (10 * Z.of_nat k <= timeout)); [|lia].
    unfold mbind at 1, M_bind, bind. rewrite csv_probe_run.
    rewrite Hn, Hraise. eexists. split; [reflexivity|].
    erewrite (since_app s)
      by (cbn [events started]; rewrite Hev, <- !app_assoc; reflexivity).
    rewrite !runs_app, !sleeps_app. cbn [runs sleeps omap list_omap app].
    clear. split.
    + induction k as [|k IH]; [reflexivity|]. cbn. f_equal. exact IH.
    + rewrite app_nil_r. induction k as [|k IH]; [reflexivity|].
      cbn. f_equal. exact IH.
Qed.

Lemma operator_wait_catches_only_process_errors_demo :
  exists s',
    AddonManager._wait_for_operator_ready oc_missing "authorino-operator" 300
      fresh = (Raise (FileNotFoundError "oc"), s')
    /\ runs (since fresh s') = replicate 1 AddonManager.get_csv_cmd
    /\ sleeps (since fresh s') = replicate 0 10.
Proof.
  apply (operator_wait_catches_only_process_errors oc_missing
           "authorino-operator" 300 0 fresh (FileNotFoundError "oc")).
  - lia.
  - intros j Hj. lia.
  - reflexivity.
Defined.

(** *** Machine pools *)

(** X20.  Without [reuse_existing], [add_machine_pool] never lists the
    machine pools: once the name is resolved it runs the create command
    next, sleeps 60 seconds when the command succeeded, and raises without
    sleeping when it failed. *)
Theorem machine_pool_without_reuse E ocm_config name config s out :
  reuse_existing config = false ->
  run_oracle E (ncalls s) (ClusterManager.list_clusters_cmd name) = Exited 0 out ->
  strip out <> "" ->
  let create :=
    AddonManager.create_machinepool_cmd ocm_config (strip out) config in
  let r := AddonManager.add_machine_pool E ocm_config name config s in
  runs (since s (snd r)) = [ClusterManager.list_clusters_cmd name; create]
  /\ match checked create (run_oracle E (S (ncalls s)) create) with
     | Ok _ => fst r = Ok () /\ sleeps (since s (snd r)) = [60]
     | Raise e => fst r = Raise e /\ sleeps (since s (snd r)) = []
     end.
Proof.
  intros Hreuse Hrun Hid create r. subst r.
  unfold AddonManager.add_machine_pool. rewrite print_bind.
  rewrite (bind_ok _ _ _ _ _ _ _
             (addon_lookup_found E name
                (log (EPrint [JStr "Adding machine pool '";
                              JStr (pool_name config);
                              JStr "' to cluster: "; JStr name]) s)
                out Hrun Hid)).
  rewrite Hreuse. fold create.
  unfold run, print, sleep, ret. unfold mbind, M_bind, bind.
  cbv beta iota. cbn [ncalls started log].
  destruct (checked create (run_oracle E (S (ncalls s)) create)) as [o|e];
    cbn [fst snd]; (split; [|split]); try reflexivity;
    since_trace; reflexivity.
Qed.

Lemma machine_pool_without_reuse_demo :
  runs (since fresh
          (snd (AddonManager.add_machine_pool healthy ocm0 "demo" pool_always
                  fresh)))
  = [ClusterManager.list_clusters_cmd "demo";
     AddonManager.create_machinepool_cmd ocm0 (strip "abc123") pool_always]
  /\ match checked
             (AddonManager.create_machinepool_cmd ocm0 (strip "abc123")
                pool_always)
             (run_oracle healthy (S (ncalls fresh))
                (AddonManager.create_machinepool_cmd ocm0 (strip "abc123")
                   pool_always)) with
     | Ok _ =>
         fst (AddonManager.add_machine_pool healthy ocm0 "demo" pool_always
                fresh) = Ok ()
         /\ sleeps (since fresh
                      (snd (AddonManager.add_machine_pool healthy ocm0 "demo"
                              pool_always fresh))) = [60]
     | Raise e =>
         fst (AddonManager.add_machine_pool healthy ocm0 "demo" pool_always
                fresh) = Raise e
         /\ sleeps (since fresh
                      (snd (AddonManager.add_machine_pool healthy ocm0 "demo"
                              pool_always fresh))) = []
     end.
Proof.
  apply (machine_pool_without_reuse healthy ocm0 "demo" pool_always fresh
           "abc123").
  - reflexivity.
  - reflexivity.
  - vm_compute. discriminate.
Defined.

(** *** The deletion wait *)



(** *** Cluster information *)

(** X22.  [get_cluster_info] with the identifier in the cache runs one
    describe command.  Of the document it reads, a member that is missing
    becomes [None] in the result, also the three that are read from a
    nested object; but a [version] member that is present and [null] makes
    the call raise [AttributeError]. *)
Theorem cluster_info_of_document E name s cid out kvs :
  cluster_id s = JStr cid -> cid <> "" ->
  run_oracle E (ncalls s) (ClusterManager.describe_cmd cid) = Exited 0 out ->
  json_loads E out = Some (JObj kvs) ->
  let r := ClusterManager.get_cluster_info E name s in
  runs (since s (snd r)) = [ClusterManager.describe_cmd cid]
  /\ (dict_get "version" kvs = None -> dict_get "console" kvs = None ->
      dict_get "api" kvs = None ->
      fst r = Ok (JObj [ ("name", default JNull (dict_get "name" kvs));
                         ("id", default JNull (dict_get "id" kvs));
                         ("state", default JNull (dict_get "state" kvs));
                         ("version", JNull); ("console_url", JNull);
                         ("api_url", JNull) ]))
  /\ (dict_get "version" kvs = Some JNull ->
      fst r = Raise (AttributeError "object has no attribute 'get'")).
Proof.
  intros Hcid Hne Hrun Hdoc r. subst r.
  unfold ClusterManager.get_cluster_info.
  assert (Hget : ClusterManager._get_cluster_id E name s = (Ok (JStr cid), s)).
  { rewrite get_cluster_id_cached; rewrite Hcid; [reflexivity|].
    cbn [truthy]. apply negb_true_iff, String.eqb_neq. exact Hne. }
  rewrite (bind_ok _ _ _ _ _ _ _ Hget).
  unfold lift, run, loads, ret. unfold mbind, M_bind, bind.
  cbn [as_arg]. cbv beta iota. rewrite Hrun. cbn [checked Z.eqb].
  cbv beta iota. rewrite Hdoc. cbv beta iota. cbn [get]. cbv beta iota.
  split; [|split].
  - destruct (dict_get "version" kvs) as [[]|];
      destruct (dict_get "console" kvs) as [[]|];
      destruct (dict_get "api" kvs) as [[]|];
      cbn [fst snd get]; since_trace; reflexivity.
  - intros -> -> ->. cbn [get dict_get].
    destruct (dict_get "name" kvs), (dict_get "id" kvs),
      (dict_get "state" kvs); reflexivity.
  - intros ->. reflexivity.
Qed.

Lemma cluster_info_of_document_demo :
  fst (ClusterManager.get_cluster_info creating "demo" (cached "abc123"))
  = Ok (JObj [ ("name", JNull); ("id", JNull); ("state", JStr "installing");
               ("version", JNull); ("console_url", JNull);
               ("api_url", JNull) ]).
Proof.
  pose proof (cluster_info_of_document creating "demo" (cached "abc123")
                "abc123" (flat_doc "state" "installing")
                [("state", JStr "installing")] eq_refl ltac:(discriminate)
                eq_refl eq_refl) as [_ [H _]].
  exact (H eq_refl eq_refl eq_refl).
Defined.

(** *** The add-on methods as a whole *)

Section Traces.
Variable E : environment.
Variable ocm_config : OCMConfig.

Lemma no_oc_addon_loop s0 cid addon timeout count :
  preserves (extends_with no_oc s0)
    (AddonManager._wait_for_addon_ready_loop E cid addon timeout count).
Proof.
  revert count. apply (poll_ind 60 timeout); [lia|].
  intros count IH. rewrite addon_loop_unfold.
  destruct (decide (count <= timeout)).
  - apply preserves_bind.
    + unfold AddonManager._get_addon_state_by_id. repeat ext_step.
    + intros st. repeat ext_step. apply IH. assumption.
  - repeat ext_step.
Qed.

Lemma no_oc_uninstalled_loop s0 cid addon timeout count :
  preserves (extends_with no_oc s0)
    (AddonManager._wait_for_addon_uninstalled_loop E cid addon timeout count).
Proof.
  revert count. apply (poll_ind 60 timeout); [lia|].
  intros count IH. rewrite uninstalled_loop_unfold.
  destruct (decide (count <= timeout)).
  - apply preserves_bind.
    + unfold AddonManager._get_addon_state_by_id. repeat ext_step.
    + intros st. repeat ext_step. apply IH. assumption.
  - repeat ext_step.
Qed.

Lemma no_oc_install_and_wait s0 cid spec addon :
  preserves (extends_with no_oc s0)
    (AddonManager._install_addon E ocm_config cid spec;;
     AddonManager._wait_for_addon_ready E cid addon 3600;;
     print [JStr "done"]).
Proof.
  unfold AddonManager._install_addon, AddonManager._wait_for_addon_ready.
  apply preserves_bind; [repeat ext_step|]. intros _.
  apply preserves_bind; [|intros _; ext_step].
  apply preserves_bind; [ext_step|]. intros _. apply no_oc_addon_loop.
Qed.

End Traces.

Ltac no_oc_steps :=
  repeat first [ apply no_oc_addon_loop | apply no_oc_uninstalled_loop
               | ext_step ].

(** X23.  The cluster-access tool [oc] is run for the dependency operators
    and for nothing else: [install_gpu_addon], [add_machine_pool],
    [uninstall_addon], the two listings, and [install_rhods] without
    [install_dependencies] start no [oc] process, whatever the outcome. *)
Theorem oc_runs_for_dependencies_only E ocm_config name s :
  (forall config,
      install_dependencies config = false ->
      Forall no_oc
        (since s (snd (AddonManager.install_rhods E ocm_config name config s))))
  /\ (forall config,
         Forall no_oc
           (since s (snd (AddonManager.install_gpu_addon E ocm_config name
                            config s))))
  /\ (forall config,
         Forall no_oc
           (since s (snd (AddonManager.add_machine_pool E ocm_config name
                            config s))))
  /\ (forall addon,
         Forall no_oc
           (since s (snd (AddonManager.uninstall_addon E ocm_config name addon
                            s))))
  /\ (forall addon,
         Forall no_oc
           (since s (snd (AddonManager.get_addon_state E name addon s))))
  /\ Forall no_oc (since s (snd (AddonManager.list_addons E name s))).
Proof.
  assert (Hsince : forall A (m : M A),
             preserves (extends_with no_oc s) m ->
             Forall no_oc (since s (snd (m s)))).
  { intros A m Hm. destruct (extends_since _ _ m s Hm) as (tr & Hev & Hall).
    rewrite (since_app _ _ _ Hev). exact Hall. }
  split; [|split; [|split; [|split; [|split]]]].
  - intros config Hdeps. apply Hsince.
    unfold AddonManager.install_rhods, AddonManager._get_cluster_id,
      AddonManager._install_addon, AddonManager._wait_for_addon_ready.
    rewrite Hdeps. no_oc_steps.
  - intros config. apply Hsince.
    unfold AddonManager.install_gpu_addon, AddonManager._get_cluster_id,
      AddonManager._install_addon, AddonManager._wait_for_addon_ready.
    no_oc_steps.
  - intros config. apply Hsince.
    unfold AddonManager.add_machine_pool, AddonManager._get_cluster_id,
      AddonManager._machine_pool_exists.
    no_oc_steps.
  - intros addon. apply Hsince.
    unfold AddonManager.uninstall_addon, AddonManager._get_cluster_id,
      AddonManager._wait_for_addon_uninstalled.
    no_oc_steps.
  - intros addon. apply Hsince.
    unfold AddonManager.get_addon_state, AddonManager._get_cluster_id.
    no_oc_steps.
  - apply Hsince.
    unfold AddonManager.list_addons, AddonManager._get_cluster_id.
    no_oc_steps.
Qed.

Lemma oc_runs_for_dependencies_only_demo :
  Forall no_oc
    (since fresh
       (snd (AddonManager.install_rhods healthy ocm0 "demo" rhods_plain fresh))).
Proof.
  apply (proj1 (oc_runs_for_dependencies_only healthy ocm0 "demo" fresh)
           rhods_plain).
  reflexivity.
Defined.

(** X24.  What [list_addons] returns once the name is resolved and the
    listing is decoded: the [items] member of an object as it is, the
    empty list when the object has none; a document that is not an object
    raises [AttributeError].  It runs the lookup and one listing and never
    sleeps. *)
Theorem list_addons_of_document E name s out out2 doc :
  run_oracle E (ncalls s) (ClusterManager.list_clusters_cmd name) = Exited 0 out ->
  strip out <> "" ->
  run_oracle E (S (ncalls s)) (AddonManager.list_addons_json_cmd (strip out))
  = Exited 0 out2 ->
  json_loads E out2 = Some doc ->
  let r := AddonManager.list_addons E name s in
  fst r = match doc with
          | JObj kvs => Ok (default (JList []) (dict_get "items" kvs))
          | _ => Raise (AttributeError "object has no attribute 'get'")
          end
  /\ runs (since s (snd r))
     = [ClusterManager.list_clusters_cmd name;
        AddonManager.list_addons_json_cmd (strip out)]
  /\ sleeps (since s (snd r)) = [].
Proof.
  intros Hrun Hid Hlist Hdoc r. subst r.
  unfold AddonManager.list_addons.
  rewrite (bind_ok _ _ _ _ _ _ _ (addon_lookup_found E name s out Hrun Hid)).
  unfold run, loads, lift, ret. unfold mbind, M_bind, bind.
  cbn [ncalls started]. rewrite Hlist. cbn [checked Z.eqb]. cbv beta iota.
  rewrite Hdoc. cbv beta iota.
  split; [|split].
  - destruct doc; reflexivity.
  - destruct doc; cbn [get fst snd]; since_trace; reflexivity.
  - destruct doc; cbn [get fst snd]; since_trace; reflexivity.
Qed.

Lemma list_addons_of_document_demo :
  fst (AddonManager.list_addons empty_docs "demo" fresh) = Ok (JList []).
Proof.
  apply (list_addons_of_document empty_docs "demo" fresh "abc123" "{}"
           (JObj [])).
  - reflexivity.
  - vm_compute. discriminate.
  - reflexivity.
  - reflexivity.
Defined.

(** X25.  [install_gpu_addon] does not start to wait when the [post] of
    the add-on failed: the [CalledProcessError] reaches the caller after
    the lookup and the request, nothing is listed, nothing sleeps, and the
    file that held the request body is gone. *)
Theorem gpu_addon_stops_at_failed_post E ocm_config name config s out code
    out2 :
  run_oracle E (ncalls s) (ClusterManager.list_clusters_cmd name) = Exited 0 out ->
  strip out <> "" ->
  let path := tmp_oracle E (ntemps s) ".json" in
  let post := AddonManager.addon_post_cmd ocm_config (strip out) path in
  run_oracle E (S (ncalls s)) post = Exited code out2 ->
  code <> 0 ->
  let r := AddonManager.install_gpu_addon E ocm_config name config s in
  fst r = Raise (CalledProcessError post code)
  /\ runs (since s (snd r)) = [ClusterManager.list_clusters_cmd name; post]
  /\ sleeps (since s (snd r)) = []
  /\ files (snd r) !! path = None.
Proof.
  intros Hrun Hid path post Hpost Hcode r. subst r.
  unfold AddonManager.install_gpu_addon. rewrite print_bind.
  rewrite (bind_ok _ _ _ _ _ _ _
             (addon_lookup_found E name
                (log (EPrint [JStr "Installing GPU addon on cluster: ";
                              JStr name]) s)
                out Hrun Hid)).
  unfold AddonManager._install_addon, named_temporary_file, try_finally, run,
    unlink.
  unfold mbind, M_bind, bind. cbv beta iota.
  cbn [ncalls ntemps started log]. fold path. fold post.
  rewrite Hpost. cbn [checked]. apply Z.eqb_neq in Hcode. rewrite Hcode.
  cbv beta iota. cbn [fst snd files].
  split; [reflexivity|]. split; [|split].
  - since_trace. reflexivity.
  - since_trace. reflexivity.
  - apply lookup_delete_eq.
Qed.

Lemma gpu_addon_stops_at_failed_post_demo :
  fst (AddonManager.install_gpu_addon refusing ocm0 "demo" gpu_demo fresh)
  = Raise (CalledProcessError
             (AddonManager.addon_post_cmd ocm0 (strip "abc123")
                (tmp_oracle refusing (ntemps fresh) ".json")) 1).
Proof.
  apply (gpu_addon_stops_at_failed_post refusing ocm0 "demo" gpu_demo fresh
           "abc123" 1 "").
  - reflexivity.
  - vm_compute. discriminate.
  - reflexivity.
  - lia.
Defined.

End Extra.
